(** * cineco: the tool-calling chat server [web_server_ai.py]

    A shallow embedding of the four tool functions of [IAHandler]
    ([search_archive], [get_item_details], [curate_quality_movies],
    [search_youtube]) and of the orchestration in [handle_chat], followed
    by the properties of the design document that concern them.

    Conventions of the embedding.
    - A decoded JSON document is a [value]; Python's dynamic checks are
      written out, and an operation that raises in Python returns [Raise].
    - A [str] is a [string] whose characters are the code points below 256;
      on these [str.lower] works character by character.
    - A Python [float] is a binary64 number of [SpecFloat]
      (precision 53, maximal exponent 1024).
    - The remote services and the library routines whose results the code
      only passes along are the fields of the class [World].
    - An exception of the interpreter carries the text that CPython 3.12
      gives it, which is what [str(e)] returns in the error dicts.
    - A reply is the value a handler chooses to send; the write to the
      socket is not modelled. *)

From Stdlib Require Import ZArith List String Ascii Bool Lia.
From Stdlib Require Import Sorting.Sorted Sorting.Permutation.
From Stdlib Require Import Floats.SpecFloat.
From Stdlib Require Import Numbers.DecimalString.
Import ListNotations.
Open Scope string_scope.
Open Scope Z_scope.

(** ** Exceptions and the error monad *)

Inductive exn_class :=
| TypeError | KeyError | AttributeError | ValueError | OverflowError
| IndexError | JSONDecodeError | RequestException | APIError.

(** An exception object; [exn_str] is what [str(e)] returns. *)
Record exn := Exn { exn_cls : exn_class; exn_str : string }.

Inductive result (A : Type) :=
| Ok (a : A)
| Raise (e : exn).
Arguments Ok {A} a.
Arguments Raise {A} e.

Definition rbind {A B} (m : result A) (f : A -> result B) : result B :=
  match m with
  | Ok a => f a
  | Raise e => Raise e
  end.

Declare Scope py_scope.
Delimit Scope py_scope with py.
Notation "x <- m ;; k" := (rbind m (fun x => k))
  (at level 61, m at next level, right associativity) : py_scope.
Open Scope py_scope.

(** ** Values *)

Definition prec : Z := 53.
Definition emax : Z := 1024.

#[local] Set Warnings "-register-all".

(** A decoded JSON value. The entries of a [JDict] are in the order of the
    document, which is the order a Python [dict] iterates in; a key is
    looked up from the front. *)
Inductive value :=
| JNull
| JBool (b : bool)
| JInt (n : Z)
| JFloat (f : spec_float)
| JStr (s : string)
| JList (l : list value)
| JDict (kv : list (string * value)).

Definition quote : string := String (ascii_of_nat 34) EmptyString.

(** [float(n)] for an [int]: rounding to nearest even; a result beyond the
    largest double raises. *)
Definition float_of_Z (n : Z) : spec_float := binary_normalize prec emax n 0 false.

Definition float_of_int (n : Z) : result spec_float :=
  match float_of_Z n with
  | S754_infinity _ => Raise (Exn OverflowError "int too large to convert to float")
  | f => Ok f
  end.

(** The literal [0.5]. *)
Definition float_half : spec_float := S754_finite false 4503599627370496 (-53).

(** [int(f)] for a [float]: the fractional part is dropped. *)
Definition int_of_float (f : spec_float) : result Z :=
  match f with
  | S754_zero _ => Ok 0
  | S754_infinity _ =>
      Raise (Exn OverflowError "cannot convert float infinity to integer")
  | S754_nan => Raise (Exn ValueError "cannot convert float NaN to integer")
  | S754_finite s m e =>
      let a := match e with
               | Zneg p => Z.shiftr (Zpos m) (Zpos p)
               | _ => Z.shiftl (Zpos m) e
               end in
      Ok (if s then - a else a)
  end.

(** [math.floor(f)], the reading of the word floor in the design document. *)
Definition floor_of_float (f : spec_float) : result Z :=
  match f with
  | S754_zero _ => Ok 0
  | S754_infinity _ =>
      Raise (Exn OverflowError "cannot convert float infinity to integer")
  | S754_nan => Raise (Exn ValueError "cannot convert float NaN to integer")
  | S754_finite s m e =>
      Ok (match e with
          | Zneg p => Z.shiftr (if s then Zneg m else Zpos m) (Zpos p)
          | _ => Z.shiftl (if s then Zneg m else Zpos m) e
          end)
  end.

Definition int_of_bool (b : bool) : Z := if b then 1 else 0.

(** ** Strings *)

Fixpoint str_repeat (n : nat) (s : string) : string :=
  match n with
  | O => EmptyString
  | S n' => s ++ str_repeat n' s
  end.

Fixpoint list_repeat {A} (n : nat) (l : list A) : list A :=
  match n with
  | O => []
  | S n' => l ++ list_repeat n' l
  end.

(** [s[:n]] *)
Fixpoint str_take (n : nat) (s : string) : string :=
  match n, s with
  | S n', String c s' => String c (str_take n' s')
  | _, _ => EmptyString
  end.

(** [c.lower()] on the code points below 256: the letters A-Z and the
    capital letters of the Latin-1 block (without the multiplication sign). *)
Definition lower_char (c : ascii) : ascii :=
  let n := nat_of_ascii c in
  if ((65 <=? n) && (n <=? 90))%nat
     || ((192 <=? n) && (n <=? 222) && negb (n =? 215))%nat
  then ascii_of_nat (n + 32)
  else c.

Fixpoint lower (s : string) : string :=
  match s with
  | EmptyString => EmptyString
  | String c s' => String (lower_char c) (lower s')
  end.

(** [k in s] for two strings. *)
Fixpoint str_in (k s : string) : bool :=
  prefix k s ||
  match s with
  | EmptyString => false
  | String _ s' => str_in k s'
  end.

Fixpoint str_chars (s : string) : list string :=
  match s with
  | EmptyString => []
  | String c s' => String c EmptyString :: str_chars s'
  end.

Definition decimal (n : Z) : string := NilZero.string_of_int (Z.to_int n).

(** ** Python's operations on values *)

Definition type_error (msg : string) {A} : result A := Raise (Exn TypeError msg).

(** [type(v).__name__] *)
Definition type_name (v : value) : string :=
  match v with
  | JNull => "NoneType"
  | JBool _ => "bool"
  | JInt _ => "int"
  | JFloat _ => "float"
  | JStr _ => "str"
  | JList _ => "list"
  | JDict _ => "dict"
  end.

Definition not_subscriptable (v : value) : string :=
  "'" ++ type_name v ++ "' object is not subscriptable".

(** [bool(v)] *)
Definition truthy (v : value) : bool :=
  match v with
  | JNull => false
  | JBool b => b
  | JInt n => negb (n =? 0)
  | JFloat (S754_zero _) => false
  | JFloat _ => true
  | JStr EmptyString => false
  | JStr _ => true
  | JList [] => false
  | JList _ => true
  | JDict [] => false
  | JDict _ => true
  end.

Fixpoint lookup (k : string) (kv : list (string * value)) : option value :=
  match kv with
  | [] => None
  | (k', v) :: rest => if String.eqb k k' then Some v else lookup k rest
  end.

(** [d[k] = v] on the entries of a [dict]. *)
Fixpoint assign (k : string) (v : value) (kv : list (string * value))
  : list (string * value) :=
  match kv with
  | [] => [(k, v)]
  | (k', v') :: rest =>
      if String.eqb k k' then (k', v) :: rest else (k', v') :: assign k v rest
  end.

(** [d.get(k, default)]; only a [dict] has the method. *)
Definition get (d : value) (k : string) (default : value) : result value :=
  match d with
  | JDict kv => Ok (match lookup k kv with Some v => v | None => default end)
  | _ => Raise (Exn AttributeError
                   ("'" ++ type_name d ++ "' object has no attribute 'get'"))
  end.

(** [d[k]] for a string key. *)
Definition getitem (d : value) (k : string) : result value :=
  match d with
  | JDict kv =>
      match lookup k kv with
      | Some v => Ok v
      | None => Raise (Exn KeyError ("'" ++ k ++ "'"))
      end
  | JStr _ => type_error "string indices must be integers, not 'str'"
  | JList _ => type_error "list indices must be integers or slices, not str"
  | _ => type_error (not_subscriptable d)
  end.

Definition is_JStr (k : string) (v : value) : bool :=
  match v with
  | JStr s => String.eqb s k
  | _ => false
  end.

(** [k in v] for a string [k]. *)
Definition contains (k : string) (v : value) : result bool :=
  match v with
  | JDict kv => Ok (match lookup k kv with Some _ => true | None => false end)
  | JList l => Ok (existsb (is_JStr k) l)
  | JStr s => Ok (str_in k s)
  | _ => type_error ("argument of type '" ++ type_name v ++ "' is not iterable")
  end.

(** The items a [for] loop, [extend] or [join] draws from [v]. *)
Definition iterate (v : value) : result (list value) :=
  match v with
  | JList l => Ok l
  | JDict kv => Ok (map (fun p => JStr (fst p)) kv)
  | JStr s => Ok (map JStr (str_chars s))
  | _ => type_error ("'" ++ type_name v ++ "' object is not iterable")
  end.

(** [v[:n]] *)
Definition slice_to (n : nat) (v : value) : result value :=
  match v with
  | JStr s => Ok (JStr (str_take n s))
  | JList l => Ok (JList (firstn n l))
  | JDict _ =>
      Raise (Exn KeyError ("slice(None, " ++ decimal (Z.of_nat n) ++ ", None)"))
  | _ => type_error (not_subscriptable v)
  end.

(** The texts that [join] is given, from item [i] of the sequence on; the
    first item that is no [str] stops it. *)
Fixpoint as_strings_from (i : nat) (l : list value) : result (list string) :=
  match l with
  | [] => Ok []
  | JStr s :: rest => ss <- as_strings_from (S i) rest ;; Ok (s :: ss)
  | v :: _ =>
      type_error ("sequence item " ++ decimal (Z.of_nat i)
                  ++ ": expected str instance, " ++ type_name v ++ " found")
  end.

Definition as_strings (l : list value) : result (list string) :=
  as_strings_from 0 l.

(** [' '.join(v)] *)
Definition join_space (v : value) : result string :=
  items <- match iterate v with
           | Ok items => Ok items
           | Raise _ => type_error "can only join an iterable"
           end ;;
  ss <- as_strings items ;;
  Ok (String.concat " " ss).

Definition is_sequence (v : value) : bool :=
  match v with
  | JStr _ | JList _ => true
  | _ => false
  end.

(** The text of the [TypeError] of [a op b]. *)
Definition unsupported (op : string) (a b : value) : string :=
  "unsupported operand type(s) for " ++ op ++ ": '" ++ type_name a
  ++ "' and '" ++ type_name b ++ "'".

Definition seq_repeat (n : Z) (v : value) : result value :=
  match v with
  | JStr s => Ok (JStr (str_repeat (Z.to_nat n) s))
  | JList l => Ok (JList (list_repeat (Z.to_nat n) l))
  | _ => type_error (unsupported "*" v (JInt n))
  end.

(** A [str] or a [list] is repeated by an [int] only. *)
Definition mul_error (a b : value) : string :=
  if is_sequence a then
    "can't multiply sequence by non-int of type '" ++ type_name b ++ "'"
  else if is_sequence b then
    "can't multiply sequence by non-int of type '" ++ type_name a ++ "'"
  else unsupported "*" a b.

(** A [str] or a [list] on the left is concatenated with its own kind
    only. *)
Definition add_error (a b : value) : string :=
  if is_sequence a then
    "can only concatenate " ++ type_name a ++ " (not " ++ quote ++ type_name b
    ++ quote ++ ") to " ++ type_name a
  else unsupported "+" a b.

(** [a * b] *)
Definition py_mul (a b : value) : result value :=
  match a, b with
  | (JInt _ | JBool _), (JInt _ | JBool _) =>
      let x := match a with JInt n => n | JBool c => int_of_bool c | _ => 0 end in
      let y := match b with JInt n => n | JBool c => int_of_bool c | _ => 0 end in
      Ok (JInt (x * y))
  | JFloat x, JFloat y => Ok (JFloat (SFmul prec emax x y))
  | JFloat x, JInt n => y <- float_of_int n ;; Ok (JFloat (SFmul prec emax x y))
  | JFloat x, JBool c =>
      y <- float_of_int (int_of_bool c) ;; Ok (JFloat (SFmul prec emax x y))
  | JInt n, JFloat y => x <- float_of_int n ;; Ok (JFloat (SFmul prec emax x y))
  | JBool c, JFloat y =>
      x <- float_of_int (int_of_bool c) ;; Ok (JFloat (SFmul prec emax x y))
  | (JStr _ | JList _), JInt n => seq_repeat n a
  | (JStr _ | JList _), JBool c => seq_repeat (int_of_bool c) a
  | JInt n, (JStr _ | JList _) => seq_repeat n b
  | JBool c, (JStr _ | JList _) => seq_repeat (int_of_bool c) b
  | _, _ => type_error (mul_error a b)
  end.

(** [a + b] *)
Definition py_add (a b : value) : result value :=
  match a, b with
  | (JInt _ | JBool _), (JInt _ | JBool _) =>
      let x := match a with JInt n => n | JBool c => int_of_bool c | _ => 0 end in
      let y := match b with JInt n => n | JBool c => int_of_bool c | _ => 0 end in
      Ok (JInt (x + y))
  | JFloat x, JFloat y => Ok (JFloat (SFadd prec emax x y))
  | JFloat x, JInt n => y <- float_of_int n ;; Ok (JFloat (SFadd prec emax x y))
  | JFloat x, JBool c =>
      y <- float_of_int (int_of_bool c) ;; Ok (JFloat (SFadd prec emax x y))
  | JInt n, JFloat y => x <- float_of_int n ;; Ok (JFloat (SFadd prec emax x y))
  | JBool c, JFloat y =>
      x <- float_of_int (int_of_bool c) ;; Ok (JFloat (SFadd prec emax x y))
  | JStr s, JStr t => Ok (JStr (s ++ t))
  | JList l, JList m => Ok (JList (l ++ m))
  | _, _ => type_error (add_error a b)
  end.

(** [int(v)] for a number. The sum of the curation is a [float] whenever
    it is computed, so the other cases are never reached; text is not
    parsed here. *)
Definition py_int (v : value) : result Z :=
  match v with
  | JInt n => Ok n
  | JBool b => Ok (int_of_bool b)
  | JFloat f => int_of_float f
  | JStr _ => Raise (Exn ValueError "invalid literal for int() with base 10")
  | _ =>
      type_error ("int() argument must be a string, a bytes-like object or a "
                  ++ "real number, not '" ++ type_name v ++ "'")
  end.

(** [round(v, 1)]; [round_float] is the rounding of a finite double to one
    decimal place. *)
Definition py_round1 (round_float : spec_float -> spec_float) (v : value)
  : result value :=
  match v with
  | JInt n => Ok (JInt n)
  | JBool b => Ok (JInt (int_of_bool b))
  | JFloat (S754_finite _ _ _ as f) => Ok (JFloat (round_float f))
  | JFloat f => Ok (JFloat f)
  | _ => type_error ("type " ++ type_name v ++ " doesn't define __round__ method")
  end.

(** The for loops of the tool functions: [body] returns [None] where the
    loop continues without appending. *)
Fixpoint collect {A B} (body : A -> result (option B)) (l : list A)
  : result (list B) :=
  match l with
  | [] => Ok []
  | d :: rest =>
      o <- body d ;;
      tl <- collect body rest ;;
      Ok (match o with Some x => x :: tl | None => tl end)
  end.

(** ** The data the server produces *)

(** An entry of [results] in [search_archive]. *)
Record archive_item := {
  archive_identifier : value;
  archive_title : value;
  archive_description : value;
  archive_year : value;
  archive_downloads : value;
  archive_avg_rating : value;
  archive_thumbnail : string;
  archive_watch_url : string;
  archive_embed_url : string;
  archive_platform : string;
  archive_platform_short : string
}.

(** An entry of [curated_movies] in [curate_quality_movies]. *)
Record movie := {
  identifier : value;
  title : value;
  description : value;
  year : value;
  downloads : value;
  num_reviews : value;
  avg_rating : value;
  subjects : value;
  quality_score : Z;
  thumbnail : string;
  watch_url : string;
  embed_url : string;
  platform : string;
  platform_short : string
}.

(** An entry of [videos] in [search_youtube]. *)
Record video := {
  video_identifier : value;
  video_id : value;
  video_title : value;
  video_description : value;
  video_channel : value;
  video_published_at : value;
  video_thumbnail : value;
  video_watch_url : string;
  video_embed_url : string;
  video_platform : string;
  video_platform_short : string
}.

Record file_entry := {
  file_name : value;
  file_format : value;
  file_url : string
}.

Record item_details := {
  details_title : value;
  details_description : value;
  details_year : value;
  details_files : list file_entry
}.

(** What a tool function returns: one of three lists, the details [dict],
    or the [dict] with the single key [error]. *)
Inductive function_response :=
| FR_archive (results : list archive_item)
| FR_movies (curated_movies : list movie)
| FR_videos (videos : list video)
| FR_details (details : item_details)
| FR_error (message : value).

(** [isinstance(function_response, list)] *)
Definition is_list (r : function_response) : bool :=
  match r with
  | FR_archive _ | FR_movies _ | FR_videos _ => true
  | FR_details _ | FR_error _ => false
  end.

(** ** The chat completion interface *)

Record tool_call := {
  tool_call_id : string;
  function_name : string;
  function_arguments : string
}.

Record chat_message := {
  content : option string;
  tool_calls : option (list tool_call)
}.

(** [response.choices[i].message] for each [i]. *)
Record completion := { choices : list chat_message }.

(** An entry of [messages]. *)
Inductive turn :=
| SystemTurn (text : string)
| HistoryTurn (entry : value)
| AssistantToolCall (text : option string) (id name arguments : string)
| ToolTurn (id : string) (text : string).

(** ** The world outside and the effects *)

Inductive event :=
| EvGet (url : string) (params : list (string * value))
| EvChat (messages : list turn) (with_tools : bool).

Class World := {
  (** [requests.get(url, params=params).json()] *)
  http_get : string -> list (string * value) -> result value;
  (** [client.chat.completions.create(model, messages, ...)] *)
  chat_create : list turn -> bool -> result completion;
  json_loads : string -> result value;
  json_dumps : function_response -> string;
  (** [str] of a float, a list or a dict *)
  repr_other : value -> string;
  round_float : spec_float -> spec_float;
  system_prompt : string;
  YOUTUBE_API_KEY : value
}.

(** A computation: the calls it made, in order, and how it ended. *)
Definition M (A : Type) : Type := list event * result A.

Definition mret {A} (a : A) : M A := ([], Ok a).

Definition lift {A} (r : result A) : M A := ([], r).

Definition mbind {A B} (m : M A) (f : A -> M B) : M B :=
  match m with
  | (log, Ok a) => let (log', r) := f a in ((log ++ log')%list, r)
  | (log, Raise e) => (log, Raise e)
  end.

Definition try_except {A} (m : M A) (handler : exn -> M A) : M A :=
  match m with
  | (log, Ok a) => (log, Ok a)
  | (log, Raise e) => let (log', r) := handler e in ((log ++ log')%list, r)
  end.

Notation "x <~ m ;; k" := (mbind m (fun x => k))
  (at level 61, m at next level, right associativity) : py_scope.

(** [sort(key=..., reverse=True)] on keys that are integers: [list.sort]
    is stable, also with [reverse], and a stable sort has one result. *)
Section Sort.
Context {A : Type} (key : A -> Z).

Fixpoint insert_desc (x : A) (l : list A) : list A :=
  match l with
  | [] => [x]
  | y :: l' => if key y <=? key x then x :: l else y :: insert_desc x l'
  end.

Definition sort_desc (l : list A) : list A := fold_right insert_desc [] l.
End Sort.

(** ** The tool functions *)

Definition quoted (s : string) : string := quote ++ s ++ quote.

Definition adult_keywords : list string :=
  ["adult"; "xxx"; "erotica"; "pornography"; "erotic"].

(** [if isinstance(subjects, str): subjects = [subjects]] *)
Definition coerce_subjects (subjects : value) : value :=
  match subjects with
  | JStr _ => JList [subjects]
  | _ => subjects
  end.

(** [any(keyword in ' '.join(subjects).lower() for keyword in adult_keywords)] *)
Definition has_adult_keyword (subjects : value) : result bool :=
  joined <- join_space subjects ;;
  Ok (existsb (fun keyword => str_in keyword (lower joined)) adult_keywords).

(** [(d.get("description", default)[:200] + "...") if d.get("description")
    else "No description available"] *)
Definition describe (d : value) (default : value) : result value :=
  present <- get d "description" JNull ;;
  if truthy present then
    text <- get d "description" default ;;
    head <- slice_to 200 text ;;
    py_add head (JStr "...")
  else Ok (JStr "No description available").

Section Tools.
Context {W : World}.

(** The value an f-string puts in place of [{v}]. *)
Definition format (v : value) : string :=
  match v with
  | JStr s => s
  | JNull => "None"
  | JBool true => "True"
  | JBool false => "False"
  | JInt n => decimal n
  | _ => repr_other v
  end.

Definition requests_get (url : string) (params : list (string * value))
  : M value :=
  ([EvGet url params], http_get url params).

Definition error_response (e : exn) : M function_response :=
  mret (FR_error (JStr (exn_str e))).

(** The body of the loop of [search_archive]. *)
Definition archive_result (d : value) : result (option archive_item) :=
  subjects <- get d "subject" (JList []) ;;
  let subjects := coerce_subjects subjects in
  adult <- has_adult_keyword subjects ;;
  if adult then Ok None
  else
    identifier <- get d "identifier" JNull ;;
    title <- get d "title" JNull ;;
    description <- describe d (JStr "No description available") ;;
    year <- get d "year" JNull ;;
    downloads <- get d "downloads" (JInt 0) ;;
    rating <- get d "avg_rating" (JInt 0) ;;
    avg_rating <- py_round1 round_float rating ;;
    Ok (Some {|
      archive_identifier := identifier;
      archive_title := title;
      archive_description := description;
      archive_year := year;
      archive_downloads := downloads;
      archive_avg_rating := avg_rating;
      archive_thumbnail := "https://archive.org/services/img/" ++ format identifier;
      archive_watch_url := "https://archive.org/details/" ++ format identifier;
      archive_embed_url := "https://archive.org/embed/" ++ format identifier;
      archive_platform := "Internet Archive";
      archive_platform_short := "IA"
    |}).

Definition search_archive (query : value) : M function_response :=
  try_except
    (let url := "https://archive.org/advancedsearch.php" in
     let enhanced_query :=
       "(" ++ format query ++ ") AND " ++
       "mediatype:movies AND " ++
       "format:" ++ quoted "h.264" ++ " AND " ++
       "-subject:" ++ quoted "adult" ++ " AND " ++
       "-subject:" ++ quoted "erotica" ++ " AND " ++
       "-subject:" ++ quoted "xxx" in
     let params :=
       [("q", JStr enhanced_query);
        ("output", JStr "json");
        ("rows", JInt 15);
        ("sort", JStr "downloads desc");
        ("fl", JStr "identifier,title,description,year,downloads,avg_rating,subject")]
     in
     data <~ requests_get url params ;;
     lift (response <- get data "response" (JDict []) ;;
           docs <- get response "docs" (JList []) ;;
           docs <- iterate docs ;;
           results <- collect archive_result docs ;;
           Ok (FR_archive results)))
    error_response.

(** An entry of [files] in [get_item_details]. *)
Definition file_result (identifier : value) (f : value)
  : result (option file_entry) :=
  name <- get f "name" JNull ;;
  fmt <- get f "format" JNull ;;
  Ok (Some {|
    file_name := name;
    file_format := fmt;
    file_url := "https://archive.org/download/" ++ format identifier
                ++ "/" ++ format name
  |}).

Definition get_item_details (identifier : value) : M function_response :=
  try_except
    (let url := "https://archive.org/metadata/" ++ format identifier in
     data <~ requests_get url [] ;;
     lift (meta <- get data "metadata" (JDict []) ;;
           files <- get data "files" (JList []) ;;
           title <- get meta "title" JNull ;;
           description <- get meta "description" JNull ;;
           year <- get meta "year" JNull ;;
           first <- slice_to 10 files ;;
           first <- iterate first ;;
           entries <- collect (file_result identifier) first ;;
           Ok (FR_details {|
             details_title := title;
             details_description := description;
             details_year := year;
             details_files := entries
           |})))
    error_response.

(** [(downloads * 0.5) + (num_reviews * 100) + (avg_rating * 1000)] *)
Definition weighted_sum (downloads num_reviews avg_rating : value)
  : result value :=
  by_downloads <- py_mul downloads (JFloat float_half) ;;
  by_reviews <- py_mul num_reviews (JInt 100) ;;
  partial <- py_add by_downloads by_reviews ;;
  by_rating <- py_mul avg_rating (JInt 1000) ;;
  py_add partial by_rating.

(** The body of the loop of [curate_quality_movies]. *)
Definition curated_movie (d : value) : result (option movie) :=
  subjects <- get d "subject" (JList []) ;;
  let subjects := coerce_subjects subjects in
  adult <- has_adult_keyword subjects ;;
  if adult then Ok None
  else
    downloads <- get d "downloads" (JInt 0) ;;
    num_reviews <- get d "num_reviews" (JInt 0) ;;
    avg_rating <- get d "avg_rating" (JInt 0) ;;
    quality_score <- weighted_sum downloads num_reviews avg_rating ;;
    identifier <- get d "identifier" JNull ;;
    title <- get d "title" JNull ;;
    description <- describe d (JStr "No description available") ;;
    year <- get d "year" JNull ;;
    rounded <- (if truthy avg_rating then py_round1 round_float avg_rating
                else Ok (JInt 0)) ;;
    first_subjects <- slice_to 5 subjects ;;
    score <- py_int quality_score ;;
    Ok (Some {|
      identifier := identifier;
      title := title;
      description := description;
      year := year;
      downloads := downloads;
      num_reviews := num_reviews;
      avg_rating := rounded;
      subjects := first_subjects;
      quality_score := score;
      thumbnail := "https://archive.org/services/img/" ++ format identifier;
      watch_url := "https://archive.org/details/" ++ format identifier;
      embed_url := "https://archive.org/embed/" ++ format identifier;
      platform := "Internet Archive";
      platform_short := "IA"
    |}).

(** [curate_quality_movies(self, min_views=5000, limit=20)]; an argument
    the caller leaves out is [None] here. *)
Definition curate_quality_movies (min_views limit : option value)
  : M function_response :=
  let min_views := match min_views with Some v => v | None => JInt 5000 end in
  let limit := match limit with Some v => v | None => JInt 20 end in
  try_except
    (let url := "https://archive.org/advancedsearch.php" in
     let query :=
       "mediatype:movies AND " ++
       "format:" ++ quoted "h.264" ++ " AND " ++
       "-subject:" ++ quoted "adult" ++ " AND " ++
       "-subject:" ++ quoted "erotica" ++ " AND " ++
       "-subject:" ++ quoted "xxx" ++ " AND " ++
       "downloads:[" ++ format min_views ++ " TO 999999999]" in
     let params :=
       [("q", JStr query);
        ("output", JStr "json");
        ("rows", limit);
        ("sort", JStr "downloads desc");
        ("fl", JStr "identifier,title,description,year,downloads,num_reviews,avg_rating,subject")]
     in
     data <~ requests_get url params ;;
     lift (response <- get data "response" (JDict []) ;;
           docs <- get response "docs" (JList []) ;;
           docs <- iterate docs ;;
           curated_movies <- collect curated_movie docs ;;
           Ok (FR_movies (sort_desc quality_score curated_movies))))
    error_response.

(** The body of the loop of [search_youtube]. *)
Definition video_result (item : value) : result (option video) :=
  id <- getitem item "id" ;;
  video_id <- getitem id "videoId" ;;
  snippet <- getitem item "snippet" ;;
  title <- get snippet "title" JNull ;;
  description <- describe snippet (JStr EmptyString) ;;
  channel <- get snippet "channelTitle" JNull ;;
  published_at <- get snippet "publishedAt" JNull ;;
  thumbnails <- get snippet "thumbnails" (JDict []) ;;
  high <- get thumbnails "high" (JDict []) ;;
  thumbnail <- get high "url" JNull ;;
  Ok (Some {|
    video_identifier := video_id;
    video_id := video_id;
    video_title := title;
    video_description := description;
    video_channel := channel;
    video_published_at := published_at;
    video_thumbnail := thumbnail;
    video_watch_url := "https://www.youtube.com/watch?v=" ++ format video_id;
    video_embed_url := "https://www.youtube.com/embed/" ++ format video_id;
    video_platform := "YouTube";
    video_platform_short := "YT"
  |}).

(** [search_youtube(self, query, max_results=10)] *)
Definition search_youtube (query : value) (max_results : option value)
  : M function_response :=
  let max_results := match max_results with Some v => v | None => JInt 10 end in
  try_except
    (let url := "https://www.googleapis.com/youtube/v3/search" in
     let params :=
       [("part", JStr "snippet");
        ("q", query);
        ("type", JStr "video");
        ("maxResults", max_results);
        ("key", YOUTUBE_API_KEY)]
     in
     data <~ requests_get url params ;;
     lift (failed <- contains "error" data ;;
           if failed then
             error <- getitem data "error" ;;
             message <- getitem error "message" ;;
             Ok (FR_error message)
           else
             items <- get data "items" (JList []) ;;
             items <- iterate items ;;
             videos <- collect video_result items ;;
             Ok (FR_videos videos)))
    error_response.
End Tools.

(** ** The chat endpoint *)

(** What the handler sends: [send_response(200)] with [json.dumps(result)]
    as the body, or [send_error(code, message)]. The reply is the value the
    handler chooses; writing it to the socket, which can fail in its own
    right, is outside the model. *)
Inductive http_reply :=
| Reply200 (response : option string) (data : option function_response)
| ReplyError (code : Z) (message : string).

Section Chat.
Context {W : World}.

Definition completions_create (messages : list turn) (with_tools : bool)
  : M completion :=
  ([EvChat messages with_tools], chat_create messages with_tools).

(** [response.choices[0].message] *)
Definition first_message (response : completion) : result chat_message :=
  match choices response with
  | m :: _ => Ok m
  | [] => Raise (Exn IndexError "list index out of range")
  end.

(** The chain of [if]/[elif] over [function_name] in [handle_chat]. *)
Definition dispatch (function_name : string) (function_args : value)
  : M function_response :=
  if String.eqb function_name "search_archive" then
    query <~ lift (getitem function_args "query") ;;
    search_archive query
  else if String.eqb function_name "get_item_details" then
    identifier <~ lift (getitem function_args "identifier") ;;
    get_item_details identifier
  else if String.eqb function_name "curate_quality_movies" then
    min_views <~ lift (get function_args "min_views" (JInt 10000)) ;;
    limit <~ lift (get function_args "limit" (JInt 20)) ;;
    curate_quality_movies (Some min_views) (Some limit)
  else if String.eqb function_name "search_youtube" then
    query <~ lift (getitem function_args "query") ;;
    max_results <~ lift (get function_args "max_results" (JInt 10)) ;;
    search_youtube query (Some max_results)
  else mret (FR_error (JStr "Unknown function")).

(** The branch of [handle_chat] taken when [assistant_message.tool_calls]
    is a non-empty list: [tool_call] is its entry 0. *)
Definition run_tool_call (messages : list turn)
    (assistant_message : chat_message) (tool_call : tool_call)
  : M http_reply :=
  let function_name := function_name tool_call in
  function_args <~ lift (json_loads (function_arguments tool_call)) ;;
  function_response <~ dispatch function_name function_args ;;
  let messages :=
    (messages ++
     [AssistantToolCall (content assistant_message) (tool_call_id tool_call)
        function_name (function_arguments tool_call);
      ToolTurn (tool_call_id tool_call) (json_dumps function_response)])%list
  in
  final_response <~ completions_create messages false ;;
  final_message <~ lift (first_message final_response) ;;
  mret (Reply200 (content final_message)
          (if is_list function_response then Some function_response
           else None)).

(** [handle_chat] on the decoded request body [post_data]. *)
Definition handle_chat (post_data : string) : M http_reply :=
  try_except
    (data <~ lift (json_loads post_data) ;;
     user_message <~ lift (get data "message" (JStr EmptyString)) ;;
     conversation_history <~ lift (get data "history" (JList [])) ;;
     if negb (truthy user_message) then mret (ReplyError 400 "Missing message")
     else
       let messages := [SystemTurn system_prompt] in
       messages <~ lift (if truthy conversation_history then
                           entries <- iterate conversation_history ;;
                           Ok (messages ++ map HistoryTurn entries)%list
                         else Ok messages) ;;
       response <~ completions_create messages true ;;
       assistant_message <~ lift (first_message response) ;;
       match tool_calls assistant_message with
       | Some (tool_call :: _) =>
           run_tool_call messages assistant_message tool_call
       | _ => mret (Reply200 (content assistant_message) None)
       end)
    (fun e => mret (ReplyError 500 ("Server error: " ++ exn_str e))).
End Chat.

(** ** The other endpoints *)

(** The fields of [urlparse(self.path)] that the handlers read. *)
Record ParseResult := { path : string; query : string }.

(** [urllib.parse]: [parse_qs] returns a [dict] from names to lists of
    values. *)
Class Urllib := {
  urlparse : string -> ParseResult;
  parse_qs : string -> list (string * list string)
}.

(** What a GET handler sends: [send_response(200)] with
    [json.dumps(results)] as the body, [send_error(code, message)], or the
    static file that [SimpleHTTPRequestHandler.do_GET] serves. *)
Inductive get_reply :=
| Json200 (body : function_response)
| GetError (code : Z) (message : string)
| StaticFile.

Fixpoint lookup_list (k : string) (params : list (string * list string))
  : option (list string) :=
  match params with
  | [] => None
  | (k', v) :: rest => if String.eqb k k' then Some v else lookup_list k rest
  end.

(** [params.get(k, [''])[0]] *)
Definition first_value (params : list (string * list string)) (k : string)
  : result string :=
  match (match lookup_list k params with
         | Some values => values
         | None => [EmptyString]
         end) with
  | v :: _ => Ok v
  | [] => Raise (Exn IndexError "list index out of range")
  end.

(** [not s] for a string. *)
Definition is_empty (s : string) : bool :=
  match s with
  | EmptyString => true
  | String _ _ => false
  end.

Section Endpoints.
Context {W : World} {U : Urllib}.

Definition handle_search (parsed_path : ParseResult) : M get_reply :=
  let params := parse_qs (query parsed_path) in
  query <~ lift (first_value params "q") ;;
  if is_empty query then mret (GetError 400 "Missing query parameter")
  else
    try_except
      (results <~ search_archive (JStr query) ;;
       mret (Json200 results))
      (fun e => mret (GetError 500 ("Server error: " ++ exn_str e))).

Definition handle_item (parsed_path : ParseResult) : M get_reply :=
  let params := parse_qs (query parsed_path) in
  identifier <~ lift (first_value params "id") ;;
  if is_empty identifier then mret (GetError 400 "Missing identifier parameter")
  else
    try_except
      (result <~ get_item_details (JStr identifier) ;;
       mret (Json200 result))
      (fun e => mret (GetError 500 ("Server error: " ++ exn_str e))).

(** [do_GET] on the request line's path [self_path]. *)
Definition do_GET (self_path : string) : M get_reply :=
  let parsed_path := urlparse self_path in
  if String.eqb (path parsed_path) "/api/search" then handle_search parsed_path
  else if String.eqb (path parsed_path) "/api/item" then handle_item parsed_path
  else mret StaticFile.

(** [do_POST] on the request line's path and the decoded body. *)
Definition do_POST (self_path : string) (post_data : string) : M http_reply :=
  if String.eqb self_path "/api/chat" then handle_chat post_data
  else mret (ReplyError 404 "Not found").
End Endpoints.

(** ** Vocabulary of the properties *)

Section Order.
Context {A : Type} (key : A -> Z).

(** Descending order of the keys. *)
Definition desc (x y : A) : Prop := key y <= key x.

(** The entries of [l] whose key is [k], in the order of [l]. *)
Definition with_key (k : Z) (l : list A) : list A :=
  filter (fun x => key x =? k) l.
End Order.

(** [k] occurs in [s] as a substring. *)
Definition occurs (k s : string) : Prop := exists a b, s = a ++ k ++ b.

(** The records of an archive answer: [data["response"]["docs"]] with the
    defaults of the two [get] calls. *)
Definition provider_docs (data : value) : result (list value) :=
  response <- get data "response" (JDict []) ;;
  docs <- get response "docs" (JList []) ;;
  iterate docs.

(** The content filter on a record. *)
Definition flagged (d : value) : result bool :=
  subjects <- get d "subject" (JList []) ;;
  has_adult_keyword (coerce_subjects subjects).

(** The entries a loop appended. *)
Fixpoint appended {B} (outs : list (option B)) : list B :=
  match outs with
  | [] => []
  | Some x :: rest => x :: appended rest
  | None :: rest => appended rest
  end.


(** The score as the design document words it: [math.floor] of the sum. *)
Definition floor_score (downloads num_reviews avg_rating : value) : result Z :=
  total <- weighted_sum downloads num_reviews avg_rating ;;
  match total with
  | JFloat f => floor_of_float f
  | _ => py_int total
  end.

(** [p] followed by [n] zero bits. *)
Definition shl (p : positive) (n : nat) : positive := Nat.iter n xO p.

(** The double whose value is [n * 2^e], for [0 <= n < 2^53]: the
    mantissa is [n] shifted up to 53 bits. *)
Definition dyadic (n e : Z) : spec_float :=
  match n with
  | Zpos p =>
      let d := Zpos (digits2_pos p) in
      S754_finite false (shl p (Z.to_nat (53 - d))) (e - (53 - d))
  | _ => S754_zero false
  end.

(** The sign of a finite double other than zero. *)
Definition negative (f : spec_float) : bool :=
  match f with
  | S754_finite s _ _ => s
  | _ => false
  end.

(** A count or a rating that is a number and not below zero. *)
Definition not_negative (v : value) : bool :=
  match v with
  | JInt n => 0 <=? n
  | JFloat f => negb (negative f)
  | _ => false
  end.

(** The request [post_data] is accepted, the first model call receives
    [messages], and [assistant_message] is the reply of the model. *)
Definition first_reply {W : World} (post_data : string)
    (messages : list turn) (assistant_message : chat_message) : Prop :=
  exists data user_message conversation_history response,
    json_loads post_data = Ok data /\
    get data "message" (JStr EmptyString) = Ok user_message /\
    truthy user_message = true /\
    get data "history" (JList []) = Ok conversation_history /\
    (if truthy conversation_history then
       entries <- iterate conversation_history ;;
       Ok ([SystemTurn system_prompt] ++ map HistoryTurn entries)%list
     else Ok [SystemTurn system_prompt]) = Ok messages /\
    chat_create messages true = Ok response /\
    first_message response = Ok assistant_message.

(** The two entries [handle_chat] appends to [messages] after a tool call. *)
Definition with_tool_result {W : World} (messages : list turn)
    (assistant_message : chat_message) (tool_call : tool_call)
    (function_response : function_response) : list turn :=
  (messages ++
   [AssistantToolCall (content assistant_message) (tool_call_id tool_call)
      (function_name tool_call) (function_arguments tool_call);
    ToolTurn (tool_call_id tool_call) (json_dumps function_response)])%list.

(** The reply [handle_chat] sends when an exception reaches it. *)
Definition server_error (e : exn) : http_reply :=
  ReplyError 500 ("Server error: " ++ exn_str e).

Definition tool_names : list string :=
  ["search_archive"; "get_item_details"; "curate_quality_movies"; "search_youtube"].

(** A model reply cut down to its first tool invocation. *)
Definition first_invocation_only (m : chat_message) : chat_message :=
  {| content := content m;
     tool_calls := option_map (firstn 1) (tool_calls m) |}.

(** The world in which the model never asks for more than one tool. *)
Definition one_invocation (W : World) : World :=
  {| http_get := http_get;
     chat_create := fun messages with_tools =>
       response <- chat_create messages with_tools ;;
       Ok {| choices := map first_invocation_only (choices response) |};
     json_loads := json_loads;
     json_dumps := json_dumps;
     repr_other := repr_other;
     round_float := round_float;
     system_prompt := system_prompt;
     YOUTUBE_API_KEY := YOUTUBE_API_KEY |}.

Definition is_get (ev : event) : bool :=
  match ev with
  | EvGet _ _ => true
  | EvChat _ _ => false
  end.

(** The number of requests to the providers in a log. *)
Definition gets (log : list event) : nat := List.length (filter is_get log).

(** What [except Exception as e: return {"error": str(e)}] makes of a run. *)
Definition in_band (r : result function_response) : function_response :=
  match r with
  | Ok response => response
  | Raise e => FR_error (JStr (exn_str e))
  end.

(** The tool call made one request, and the provider answered [data]. *)
Definition answered {W : World} {A} (run : M A) (data : value) : Prop :=
  exists url params, fst run = [EvGet url params] /\ http_get url params = Ok data.

(** The tool call made one request, and it raised [e]. *)
Definition failed {W : World} {A} (run : M A) (e : exn) : Prop :=
  exists url params, fst run = [EvGet url params] /\ http_get url params = Raise e.

(** [c in s] for a character. *)
Fixpoint str_has (c : ascii) (s : string) : bool :=
  match s with
  | EmptyString => false
  | String c' s' => Ascii.eqb c c' || str_has c s'
  end.

(** One subject tag holds a keyword, whatever the case of its letters. *)
Definition tag_has_keyword (tag : string) : bool :=
  existsb (fun keyword => str_in keyword (lower tag)) adult_keywords.

Definition is_dict (v : value) : bool :=
  match v with
  | JDict _ => true
  | _ => false
  end.

Definition is_str (v : value) : bool :=
  match v with
  | JStr _ => true
  | _ => false
  end.

(** The reply a GET handler sends when an exception reaches it. *)
Definition get_error (e : exn) : get_reply :=
  GetError 500 ("Server error: " ++ exn_str e).

(** The number of model calls in a log. *)
Definition chats (log : list event) : nat :=
  List.length (filter (fun ev => negb (is_get ev)) log).










(** Neither a container nor a text: null, a truth value or a number. *)
Definition scalar (v : value) : bool :=
  match v with
  | JNull | JBool _ | JInt _ | JFloat _ => true
  | _ => false
  end.

(** ** Sample data *)

Module Sample.

(** The literals [4.5] and [4.0] *)
Definition rating_4_5 : spec_float := S754_finite false 5066549580791808 (-50).
Definition rating_4_0 : spec_float := S754_finite false 4503599627370496 (-50).

Definition doc_classic : value :=
  JDict [("identifier", JStr "night_of_the_living_dead");
         ("title", JStr "Night of the Living Dead");
         ("description", JStr "A group of people hide from the living dead in a farmhouse.");
         ("year", JStr "1968");
         ("downloads", JInt 20000);
         ("num_reviews", JInt 30);
         ("avg_rating", JFloat rating_4_5);
         ("subject", JList [JStr "Horror"; JStr "Zombies"])].

Definition doc_flagged : value :=
  JDict [("identifier", JStr "late_show");
         ("title", JStr "Late Show");
         ("downloads", JInt 90000);
         ("subject", JList [JStr "Comedy"; JStr "ADULT humour"])].

Definition doc_cartoon : value :=
  JDict [("identifier", JStr "popeye_sindbad");
         ("title", JStr "Popeye the Sailor Meets Sindbad the Sailor");
         ("downloads", JInt 30000);
         ("num_reviews", JInt 25);
         ("avg_rating", JInt 4);
         ("subject", JStr "Cartoons")].

Definition doc_serial : value :=
  JDict [("identifier", JStr "flash_gordon");
         ("title", JStr "Flash Gordon");
         ("downloads", JInt 25000);
         ("num_reviews", JInt 10);
         ("avg_rating", JFloat rating_4_0);
         ("subject", JList [JStr "Serial"; JStr "Science fiction"])].

(** A record whose description is a list, as the archive sends it for
    items with several descriptions. *)
Definition doc_listed : value :=
  JDict [("identifier", JStr "two_descriptions");
         ("description", JList [JStr "First."; JStr "Second."])].

Definition archive_response (docs : list value) : value :=
  JDict [("response", JDict [("numFound", JInt 4); ("docs", JList docs)])].

Definition docs : list value :=
  [doc_classic; doc_flagged; doc_cartoon; doc_serial].

Definition youtube_error : value :=
  JDict [("error", JDict [("code", JInt 403);
                          ("message", JStr "quotaExceeded")])].

Definition timeout : exn := Exn RequestException "Connection timed out".

(** A request body and two argument texts, named rather than spelled out. *)
Definition body : string := "{message: cozy, history: [user: cozy]}".
Definition no_arguments : string := "{}".
Definition limit_only : string := "{limit: 5}".

(** A decoder for the three texts above; any other text is rejected. *)
Definition loads (s : string) : result value :=
  if String.eqb s body then
    Ok (JDict [("message", JStr "cozy");
               ("history", JList [JDict [("role", JStr "user");
                                         ("content", JStr "cozy")]])])
  else if String.eqb s no_arguments then Ok (JDict [])
  else if String.eqb s limit_only then Ok (JDict [("limit", JInt 5)])
  else Raise (Exn JSONDecodeError "Expecting value").

Definition dumps (r : function_response) : string :=
  match r with
  | FR_error (JStr s) => "{error: " ++ s ++ "}"
  | FR_error _ | FR_details _ => "{...}"
  | _ => "[...]"
  end.

Definition call (name arguments : string) : tool_call :=
  {| tool_call_id := "call_1"; function_name := name;
     function_arguments := arguments |}.

Definition second_call : tool_call :=
  {| tool_call_id := "call_2"; function_name := "search_youtube";
     function_arguments := no_arguments |}.

(** The model asks for [calls] when it is offered the tools and answers
    in words when it is not. *)
Definition chat (calls : list tool_call) (messages : list turn)
    (with_tools : bool) : result completion :=
  if with_tools then
    Ok {| choices := [{| content := None; tool_calls := Some calls |}] |}
  else
    Ok {| choices := [{| content := Some "Found some films with that warm feeling.";
                         tool_calls := None |}] |}.

Definition world (calls : list tool_call) (provider : result value) : World :=
  {| http_get := fun _ _ => provider;
     chat_create := chat calls;
     json_loads := loads;
     json_dumps := dumps;
     repr_other := fun _ => "?";
     round_float := fun f => f;
     system_prompt := "You're Cineco";
     YOUTUBE_API_KEY := JStr "key" |}.

Definition archive_world : World := world [] (Ok (archive_response docs)).
Definition timeout_world : World := world [] (Raise timeout).
Definition listed_world : World := world [] (Ok (archive_response [doc_listed])).
Definition youtube_world : World := world [] (Ok youtube_error).

(** The list the curation returns in [archive_world], and its head. *)
Definition curated : list movie :=
  Eval vm_compute in
    match snd (@curate_quality_movies archive_world None None) with
    | Ok (FR_movies l) => l
    | _ => []
    end.

Definition best : option movie := hd_error curated.

(** The list the archive search returns in [archive_world]. *)
Definition found : list archive_item :=
  Eval vm_compute in
    match snd (@search_archive archive_world (JStr "cozy")) with
    | Ok (FR_archive l) => l
    | _ => []
    end.

(** A description of 500 characters. *)
Definition long_text : string := str_repeat 50 "0123456789".

Definition doc_long : value :=
  JDict [("identifier", JStr "long"); ("description", JStr long_text)].

(** An answer whose second record has a list as description. *)
Definition mixed_world : World :=
  world [] (Ok (archive_response [doc_classic; doc_listed])).

(** A record whose rating is null. *)
Definition doc_unrated : value :=
  JDict [("identifier", JStr "unrated"); ("downloads", JInt 12000);
         ("avg_rating", JNull)].

(** A record with an identifier only. *)
Definition doc_bare : value := JDict [("identifier", JStr "bare")].

Definition file_doc (name : string) : value :=
  JDict [("name", JStr name); ("format", JStr "h.264")].

(** The metadata of an item with twelve files. *)
Definition details_response : value :=
  JDict [("metadata", JDict [("title", JStr "Popeye")]);
         ("files", JList (map file_doc
            ["a.mp4"; "b.mp4"; "c.mp4"; "d.mp4"; "e.mp4"; "f.mp4";
             "g.mp4"; "h.mp4"; "i.mp4"; "j.mp4"; "k.mp4"; "l.mp4"]))].

Definition details_world : World := world [] (Ok details_response).

Definition youtube_item (id title : string) : value :=
  JDict [("id", JDict [("videoId", JStr id)]);
         ("snippet", JDict [("title", JStr title);
                            ("channelTitle", JStr "Classics")])].

Definition youtube_response : value :=
  JDict [("items", JList [youtube_item "abc" "Adult swim";
                          youtube_item "xyz" "Zorro"])].

Definition videos_world : World := world [] (Ok youtube_response).

(** Answers that are not what the functions expect: a list where the item
    lookup reads a dict, and a video item without an id. *)
Definition details_malformed : value := JList [].

Definition youtube_broken : value :=
  JDict [("items", JList [youtube_item "abc" "Zorro";
                          JDict [("snippet", JDict [])]])].

(** A second request body with the history of [body] and another message,
    argument texts with and without a query, and a decoder that knows them
    too. *)
Definition other_body : string := "{message: anything else, history: [user: cozy]}".
Definition query_only : string := "{query: zorro}".
Definition broken_arguments : string := "{query: zor".

Definition loads_more (s : string) : result value :=
  if String.eqb s other_body then
    Ok (JDict [("message", JStr "anything else");
               ("history", JList [JDict [("role", JStr "user");
                                         ("content", JStr "cozy")]])])
  else if String.eqb s query_only then Ok (JDict [("query", JStr "zorro")])
  else loads s.

Definition reader_world (calls : list tool_call) (provider : result value)
  : World :=
  {| http_get := fun _ _ => provider;
     chat_create := chat calls;
     json_loads := loads_more;
     json_dumps := dumps;
     repr_other := fun _ => "?";
     round_float := fun f => f;
     system_prompt := "You're Cineco";
     YOUTUBE_API_KEY := JStr "key" |}.

(** The messages of the first model call for [body]. *)
Definition first_messages : list turn :=
  [SystemTurn "You're Cineco";
   HistoryTurn (JDict [("role", JStr "user"); ("content", JStr "cozy")])].

Definition asks (calls : list tool_call) : chat_message :=
  {| content := None; tool_calls := Some calls |}.

(** An invocation of a tool that does not exist, with arguments that are
    no JSON. *)
Definition unknown_call : tool_call := call "play_trailer" broken_arguments.

(** Request lines of the GET endpoints, and what [urlparse] and [parse_qs]
    make of them. *)
Definition search_request : string := "/api/search?q=zorro".
Definition bare_search_request : string := "/api/search".
Definition item_request : string := "/api/item?id=zorro1920".
Definition bare_item_request : string := "/api/item?id=".

Definition request_parts (s : string) : ParseResult :=
  if String.eqb s search_request then
    {| path := "/api/search"; query := "q=zorro" |}
  else if String.eqb s item_request then
    {| path := "/api/item"; query := "id=zorro1920" |}
  else if String.eqb s bare_item_request then
    {| path := "/api/item"; query := "id=" |}
  else {| path := s; query := EmptyString |}.

Definition request_params (qs : string) : list (string * list string) :=
  if String.eqb qs "q=zorro" then [("q", ["zorro"])]
  else if String.eqb qs "id=zorro1920" then [("id", ["zorro1920"])]
  else [].

Definition urllib : Urllib :=
  {| urlparse := request_parts; parse_qs := request_params |}.

(** The videos the search returns in [videos_world]. *)
Definition videos : list video :=
  Eval vm_compute in
    match snd (@search_youtube videos_world (JStr "zorro") None) with
    | Ok (FR_videos l) => l
    | _ => []
    end.

End Sample.

(** * Properties *)

(** ** The descending stable sort *)

Section SortFacts.
Context {A : Type} (key : A -> Z).

Lemma insert_desc_perm x l : Permutation (x :: l) (insert_desc key x l).
Proof.
  induction l as [|y l IH]; simpl; [reflexivity|].
  destruct (key y <=? key x); [reflexivity|].
  rewrite perm_swap. now constructor.
Qed.

Lemma sort_desc_perm l : Permutation l (sort_desc key l).
Proof.
  induction l as [|x l IH]; simpl; [constructor|].
  rewrite <- insert_desc_perm. now constructor.
Qed.

Lemma insert_desc_sorted x l :
  StronglySorted (desc key) l -> StronglySorted (desc key) (insert_desc key x l).
Proof.
  induction 1 as [|y l Hl IH Hy]; simpl.
  - repeat constructor.
  - destruct (key y <=? key x) eqn:E.
    + apply Z.leb_le in E. constructor; [now constructor|].
      constructor; [exact E|].
      eapply Forall_impl; [|exact Hy]. unfold desc. intros; lia.
    + apply Z.leb_gt in E. constructor; [exact IH|].
      eapply Permutation_Forall; [apply insert_desc_perm|].
      constructor; [unfold desc; lia | exact Hy].
Qed.

Lemma sort_desc_sorted l : StronglySorted (desc key) (sort_desc key l).
Proof.
  induction l; simpl; [constructor | now apply insert_desc_sorted].
Qed.

Lemma insert_desc_with_key k x l :
  StronglySorted (desc key) l ->
  with_key key k (insert_desc key x l) = with_key key k (x :: l).
Proof.
  unfold with_key.
  induction 1 as [|y l Hl IH Hy]; simpl; [reflexivity|].
  destruct (key y <=? key x) eqn:E; [reflexivity|].
  apply Z.leb_gt in E. simpl. rewrite IH. simpl.
  destruct (key x =? k) eqn:Ex, (key y =? k) eqn:Ey; try reflexivity.
  apply Z.eqb_eq in Ex, Ey. lia.
Qed.

(** Entries of equal key keep the order they had in the input. *)
Lemma sort_desc_stable k l : with_key key k (sort_desc key l) = with_key key k l.
Proof.
  induction l as [|x l IH]; simpl; [reflexivity|].
  rewrite insert_desc_with_key by apply sort_desc_sorted.
  unfold with_key in *. simpl. now rewrite IH.
Qed.

Lemma with_key_nil_above k l :
  Forall (fun y => key y < k) l -> with_key key k l = [].
Proof.
  induction 1 as [|y l Hy _ IH]; simpl; [reflexivity|].
  destruct (key y =? k) eqn:E; [apply Z.eqb_eq in E; lia | exact IH].
Qed.

(** A sorted list is determined by the order within each key: whatever
    stable algorithm [list.sort] runs, it returns [sort_desc]. *)
Lemma with_key_cons k x l :
  with_key key k (x :: l) = if key x =? k then x :: with_key key k l else with_key key k l.
Proof. reflexivity. Qed.

Lemma stable_sorted_unique l1 :
  forall l2,
    StronglySorted (desc key) l1 -> StronglySorted (desc key) l2 ->
    (forall k, with_key key k l1 = with_key key k l2) ->
    l1 = l2.
Proof.
  induction l1 as [|x l1 IH]; intros l2 S1 S2 E.
  - destruct l2 as [|y l2]; [reflexivity|].
    specialize (E (key y)). rewrite with_key_cons, Z.eqb_refl in E.
    discriminate.
  - destruct l2 as [|y l2].
    { specialize (E (key x)). rewrite with_key_cons, Z.eqb_refl in E.
      discriminate. }
    inversion S1 as [|? ? S1' F1]; inversion S2 as [|? ? S2' F2]; subst.
    assert (Hxy : key x = key y).
    { destruct (Z.lt_trichotomy (key x) (key y)) as [L|[L|L]]; [|exact L|].
      - specialize (E (key y)). rewrite !with_key_cons, Z.eqb_refl in E.
        destruct (key x =? key y) eqn:Exy; [apply Z.eqb_eq in Exy; lia|].
        rewrite (with_key_nil_above (key y) l1) in E; [discriminate|].
        eapply Forall_impl; [|exact F1]. unfold desc. intros; lia.
      - specialize (E (key x)). rewrite !with_key_cons, Z.eqb_refl in E.
        destruct (key y =? key x) eqn:Exy; [apply Z.eqb_eq in Exy; lia|].
        rewrite (with_key_nil_above (key x) l2) in E; [discriminate|].
        eapply Forall_impl; [|exact F2]. unfold desc. intros; lia. }
    assert (x = y).
    { specialize (E (key x)).
      rewrite !with_key_cons, <- Hxy, Z.eqb_refl in E. congruence. }
    subst y. f_equal. apply IH; trivial.
    intros k. specialize (E k). rewrite !with_key_cons in E.
    destruct (key x =? k); [congruence | exact E].
Qed.

Lemma sort_desc_unique l l' :
  StronglySorted (desc key) l' ->
  (forall k, with_key key k l' = with_key key k l) ->
  l' = sort_desc key l.
Proof.
  intros S E. apply stable_sorted_unique; trivial.
  - apply sort_desc_sorted.
  - intros k. now rewrite sort_desc_stable.
Qed.

Lemma sorted_adjacent l i a b :
  StronglySorted (desc key) l ->
  nth_error l i = Some a -> nth_error l (S i) = Some b ->
  key b <= key a.
Proof.
  intros S. revert i a b.
  induction S as [|x l S IH F]; intros i a b Ha Hb.
  - now destruct i.
  - destruct i as [|i].
    + injection Ha as <-. rewrite Forall_forall in F.
      apply F. apply (nth_error_In l 0). exact Hb.
    + apply (IH i); assumption.
Qed.
End SortFacts.

(** ** Strings *)

Lemma prefix_split k s : prefix k s = true <-> exists b, s = k ++ b.
Proof.
  revert s. induction k as [|c k IH]; intros s; simpl.
  - destruct s; split; eauto.
  - destruct s as [|c' s]; simpl.
    + split; [discriminate | intros [b H]; discriminate].
    + destruct (ascii_dec c c') as [->|N].
      * rewrite IH. split; intros [b H]; exists b; congruence.
      * split; [discriminate | intros [b H]; congruence].
Qed.

Lemma str_in_occurs k s : str_in k s = true <-> occurs k s.
Proof.
  unfold occurs. induction s as [|c s IH]; cbn [str_in].
  - rewrite orb_false_r, prefix_split. split.
    + intros [b H]. exists EmptyString, b. exact H.
    + intros ([|x a] & b & H); [eauto | discriminate].
  - rewrite orb_true_iff, IH, prefix_split. split.
    + intros [[b H] | (a & b & H)].
      * exists EmptyString, b. exact H.
      * exists (String c a), b. simpl. now rewrite H.
    + intros ([|x a] & b & H).
      * left. eauto.
      * right. exists a, b. simpl in H. congruence.
Qed.

Lemma append_assoc (a b c : string) : (a ++ b) ++ c = a ++ (b ++ c).
Proof. induction a; simpl; congruence. Qed.


Lemma lower_append a b : lower (a ++ b) = lower a ++ lower b.
Proof. induction a; simpl; congruence. Qed.

Lemma occurs_append_l k a b : occurs k a -> occurs k (a ++ b).
Proof.
  intros (x & y & ->). exists x, (y ++ b). now rewrite !append_assoc.
Qed.

Lemma str_take_length n s :
  (n <= String.length s)%nat -> String.length (str_take n s) = n.
Proof.
  revert s. induction n as [|n IH]; intros s H; [reflexivity|].
  destruct s as [|c s]; simpl in *; [lia|]. rewrite IH; lia.
Qed.

Lemma str_take_prefix n s : exists rest, s = str_take n s ++ rest.
Proof.
  revert s. induction n as [|n IH]; intros s.
  - exists s. reflexivity.
  - destruct s as [|c s].
    + exists EmptyString. reflexivity.
    + destruct (IH s) as [rest H]. exists rest. simpl. now rewrite <- H.
Qed.

(** ** The tool functions: one request, and no exception leaves them *)

Lemma collect_outs {A B} (body : A -> result (option B)) l items :
  collect body l = Ok items ->
  exists outs, Forall2 (fun d o => body d = Ok o) l outs /\ items = appended outs.
Proof.
  revert items. induction l as [|d l IH]; simpl; intros items H.
  - injection H as <-. exists []. split; constructor.
  - destruct (body d) as [o|] eqn:Ed; [|discriminate]. simpl in H.
    destruct (collect body l) as [tl|]; [|discriminate]. simpl in H.
    injection H as <-. destruct (IH tl eq_refl) as (outs & F & ->).
    exists (o :: outs). split; [now constructor|]. now destruct o.
Qed.

Lemma appended_In {A B} (body : A -> result (option B)) l outs x :
  Forall2 (fun d o => body d = Ok o) l outs ->
  In x (appended outs) -> exists d, In d l /\ body d = Ok (Some x).
Proof.
  induction 1 as [|d o l outs H F IH]; simpl; [contradiction|].
  destruct o as [y|]; simpl.
  - intros [<-|I]; [exists d; auto|].
    destruct (IH I) as (d' & ? & ?). exists d'. auto.
  - intros I. destruct (IH I) as (d' & ? & ?). exists d'. auto.
Qed.

(** The loop stops at the first entry whose body raises. *)
Lemma collect_first_raise {A B} (body : A -> result (option B))
    before d after e :
  Forall (fun x => exists o, body x = Ok o) before ->
  body d = Raise e ->
  collect body (before ++ d :: after) = Raise e.
Proof.
  intros Hbefore Hd. induction Hbefore as [|x before (o & Hx) _ IH].
  - cbn [app collect]. now rewrite Hd.
  - cbn [app collect]. rewrite Hx. cbn [rbind]. now rewrite IH.
Qed.

Lemma collect_raises {A B} (body : A -> result (option B)) l d e :
  In d l -> body d = Raise e ->
  exists d' e', In d' l /\ body d' = Raise e' /\ collect body l = Raise e'.
Proof.
  induction l as [|x l IH]; intros Hin He; [contradiction|].
  cbn [collect]. destruct (body x) as [o|ex] eqn:Ex.
  - destruct Hin as [->|Hin]; [congruence|].
    destruct (IH Hin He) as (d' & e' & I & Hd & Hc).
    exists d', e'. cbn [rbind]. rewrite Hc. repeat split; auto. now right.
  - exists x, ex. repeat split; auto. now left.
Qed.

Section ToolFacts.
Context {W : World}.

Lemma guarded_request url params (k : value -> result function_response) :
  try_except (data <~ requests_get url params ;; lift (k data)) error_response
  = ([EvGet url params], Ok (in_band (data <- http_get url params ;; k data))).
Proof.
  unfold try_except, mbind, requests_get, lift, error_response, mret.
  destruct (http_get url params) as [data|e]; simpl; [|reflexivity].
  destruct (k data); reflexivity.
Qed.

Lemma search_archive_run query :
  exists url params,
    search_archive query =
    ([EvGet url params],
     Ok (in_band (data <- http_get url params ;;
                  docs <- provider_docs data ;;
                  results <- collect archive_result docs ;;
                  Ok (FR_archive results)))).
Proof.
  unfold search_archive. do 2 eexists. rewrite guarded_request.
  apply f_equal, f_equal, f_equal.
  destruct (http_get _ _) as [data|e]; simpl; [|reflexivity].
  unfold provider_docs.
  destruct (get data "response" _) as [response|]; simpl; [|reflexivity].
  destruct (get response "docs" _) as [docs|]; simpl; [|reflexivity].
  now destruct (iterate docs).
Qed.

Lemma curate_quality_movies_run min_views limit :
  exists url params,
    curate_quality_movies min_views limit =
    ([EvGet url params],
     Ok (in_band (data <- http_get url params ;;
                  docs <- provider_docs data ;;
                  curated_movies <- collect curated_movie docs ;;
                  Ok (FR_movies (sort_desc quality_score curated_movies))))).
Proof.
  unfold curate_quality_movies. do 2 eexists. rewrite guarded_request.
  apply f_equal, f_equal, f_equal.
  destruct (http_get _ _) as [data|e]; simpl; [|reflexivity].
  unfold provider_docs.
  destruct (get data "response" _) as [response|]; simpl; [|reflexivity].
  destruct (get response "docs" _) as [docs|]; simpl; [|reflexivity].
  now destruct (iterate docs).
Qed.

Lemma get_item_details_run identifier :
  exists url params k,
    get_item_details identifier =
    ([EvGet url params], Ok (in_band (data <- http_get url params ;; k data)))
    /\ forall data r, k data = Ok r -> exists details, r = FR_details details.
Proof.
  unfold get_item_details. do 3 eexists. split; [apply guarded_request|].
  intros data r. cbv beta.
  repeat match goal with
         | |- (_ <- ?m ;; _) = Ok _ -> _ => destruct m; simpl; [|discriminate]
         end.
  intros [= <-]. eauto.
Qed.

Lemma search_youtube_run query max_results :
  exists url params,
    search_youtube query max_results =
    ([EvGet url params],
     Ok (in_band (data <- http_get url params ;;
                  failed <- contains "error" data ;;
                  if failed then
                    error <- getitem data "error" ;;
                    message <- getitem error "message" ;;
                    Ok (FR_error message)
                  else
                    items <- get data "items" (JList []) ;;
                    items <- iterate items ;;
                    videos <- collect video_result items ;;
                    Ok (FR_videos videos)))).
Proof.
  unfold search_youtube. do 2 eexists. apply guarded_request.
Qed.
(** What a tool function returns, given what the provider did. *)
Lemma guarded_outcome (run : M function_response) url params k :
  run = ([EvGet url params], Ok (in_band (data <- http_get url params ;; k data))) ->
  (exists response, fst run = [EvGet url params] /\ snd run = Ok response)
  /\ (forall e, failed run e -> snd run = Ok (FR_error (JStr (exn_str e))))
  /\ (forall data, answered run data -> snd run = Ok (in_band (k data))).
Proof.
  intros ->. split; [eexists; split; reflexivity|]. split.
  - intros e (url' & params' & Hlog & Hget). simpl in *.
    injection Hlog as <- <-. now rewrite Hget.
  - intros data (url' & params' & Hlog & Hget). simpl in *.
    injection Hlog as <- <-. now rewrite Hget.
Qed.

Lemma search_archive_answered query data :
  answered (search_archive query) data ->
  snd (search_archive query)
  = Ok (in_band (docs <- provider_docs data ;;
                 results <- collect archive_result docs ;;
                 Ok (FR_archive results))).
Proof.
  destruct (search_archive_run query) as (url & params & E).
  intros H. exact (proj2 (proj2 (guarded_outcome _ _ _ _ E)) data H).
Qed.

Lemma curate_quality_movies_answered min_views limit data :
  answered (curate_quality_movies min_views limit) data ->
  snd (curate_quality_movies min_views limit)
  = Ok (in_band (docs <- provider_docs data ;;
                 curated_movies <- collect curated_movie docs ;;
                 Ok (FR_movies (sort_desc quality_score curated_movies)))).
Proof.
  destruct (curate_quality_movies_run min_views limit) as (url & params & E).
  intros H. exact (proj2 (proj2 (guarded_outcome _ _ _ _ E)) data H).
Qed.

Lemma search_youtube_answered query max_results data :
  answered (search_youtube query max_results) data ->
  snd (search_youtube query max_results)
  = Ok (in_band (failed <- contains "error" data ;;
                 if failed then
                   error <- getitem data "error" ;;
                   message <- getitem error "message" ;;
                   Ok (FR_error message)
                 else
                   items <- get data "items" (JList []) ;;
                   items <- iterate items ;;
                   videos <- collect video_result items ;;
                   Ok (FR_videos videos))).
Proof.
  destruct (search_youtube_run query max_results) as (url & params & E).
  intros H. exact (proj2 (proj2 (guarded_outcome _ _ _ _ E)) data H).
Qed.
End ToolFacts.

Lemma get_item_details_answered {W : World} identifier data :
  answered (get_item_details identifier) data ->
  snd (get_item_details identifier)
  = Ok (in_band (meta <- get data "metadata" (JDict []) ;;
                 files <- get data "files" (JList []) ;;
                 title <- get meta "title" JNull ;;
                 description <- get meta "description" JNull ;;
                 year <- get meta "year" JNull ;;
                 first <- slice_to 10 files ;;
                 first <- iterate first ;;
                 entries <- collect (file_result identifier) first ;;
                 Ok (FR_details {|
                   details_title := title;
                   details_description := description;
                   details_year := year;
                   details_files := entries
                 |}))).
Proof.
  intros H. unfold get_item_details in *.
  exact (proj2 (proj2 (guarded_outcome _ _ _ _ (guarded_request _ _ _))) data H).
Qed.

(** ** Quality curation: what the result list is made of *)

Section Curation.
Context {W : World}.

(** A list returned by the curation is the sorted list of the movies
    that the loop appended, record by record, in the provider's order. *)
Lemma curated_list min_views limit curated :
  snd (curate_quality_movies min_views limit) = Ok (FR_movies curated) ->
  exists data docs outs,
    answered (curate_quality_movies min_views limit) data /\
    provider_docs data = Ok docs /\
    Forall2 (fun d o => curated_movie d = Ok o) docs outs /\
    curated = sort_desc quality_score (appended outs).
Proof.
  destruct (curate_quality_movies_run min_views limit) as (url & params & ->).
  simpl. intros H.
  destruct (http_get url params) as [data|] eqn:Eget; [|discriminate].
  simpl in H.
  destruct (provider_docs data) as [docs|] eqn:Edocs; [|discriminate].
  simpl in H.
  destruct (collect curated_movie docs) as [items|] eqn:Eitems; [|discriminate].
  simpl in H. injection H as <-.
  destruct (collect_outs _ _ _ Eitems) as (outs & F & ->).
  exists data, docs, outs. repeat split; trivial.
  exists url, params. auto.
Qed.

Lemma py_mul_half v total :
  py_mul v (JFloat float_half) = Ok total -> exists f, total = JFloat f.
Proof.
  destruct v; simpl; try discriminate.
  - destruct (float_of_int _); simpl; [|discriminate]. intros [= <-]. eauto.
  - destruct (float_of_int _); simpl; [|discriminate]. intros [= <-]. eauto.
  - intros [= <-]. eauto.
Qed.

Lemma py_add_float f v total :
  py_add (JFloat f) v = Ok total -> exists g, total = JFloat g.
Proof.
  destruct v; simpl; try discriminate.
  - destruct (float_of_int _); simpl; [|discriminate]. intros [= <-]. eauto.
  - destruct (float_of_int _); simpl; [|discriminate]. intros [= <-]. eauto.
  - intros [= <-]. eauto.
Qed.

(** The sum is a [float] whenever it is computed at all. *)
Lemma weighted_sum_float dl nr ar total :
  weighted_sum dl nr ar = Ok total -> exists f, total = JFloat f.
Proof.
  unfold weighted_sum.
  destruct (py_mul dl _) as [a|] eqn:Ea; [|discriminate]. cbn [rbind].
  destruct (py_mul_half _ _ Ea) as [x ->].
  destruct (py_mul nr _) as [b|]; [|discriminate]. cbn [rbind].
  destruct (py_add (JFloat x) b) as [p|] eqn:Ep; [|discriminate]. cbn [rbind].
  destruct (py_add_float _ _ _ Ep) as [y ->].
  destruct (py_mul ar _) as [c|]; [|discriminate]. cbn [rbind].
  apply py_add_float.
Qed.

(** Dropping the fraction and taking the floor agree from zero upwards. *)
Lemma floor_of_float_nonnegative f :
  negative f = false -> floor_of_float f = int_of_float f.
Proof.
  destruct f as [s|s| |s m e]; simpl; try reflexivity.
  intros ->. reflexivity.
Qed.

(** Below zero the floor is the truncation or one less. *)
Lemma floor_of_float_below f t :
  int_of_float f = Ok t ->
  exists fl, floor_of_float f = Ok fl /\ fl <= t <= fl + 1.
Proof.
  destruct f as [s|s| |s m e]; simpl; try discriminate.
  - intros [= <-]. exists 0. split; [reflexivity | lia].
  - intros [= <-]. eexists. split; [reflexivity|].
    destruct s; [|destruct e; lia].
    destruct e as [|p|p]; rewrite ?Z.shiftl_0_r; try lia.
    + rewrite !Z.shiftl_mul_pow2 by lia. lia.
    + rewrite !Z.shiftr_div_pow2 by lia.
      pose proof (Z.pow_pos_nonneg 2 (Z.pos p) ltac:(lia) ltac:(lia)) as P.
      pose proof (Z.div_mod (Z.pos m) (2 ^ Z.pos p) ltac:(lia)) as D1.
      pose proof (Z.mod_pos_bound (Z.pos m) (2 ^ Z.pos p) P) as B1.
      pose proof (Z.div_mod (Z.neg m) (2 ^ Z.pos p) ltac:(lia)) as D2.
      pose proof (Z.mod_pos_bound (Z.neg m) (2 ^ Z.pos p) P) as B2.
      nia.
Qed.

(** What a record that yields a movie went through. *)
Lemma curated_movie_fields d m :
  curated_movie d = Ok (Some m) ->
  flagged d = Ok false /\
  exists subject dl nr ar total,
    get d "subject" (JList []) = Ok subject /\
    get d "downloads" (JInt 0) = Ok dl /\
    get d "num_reviews" (JInt 0) = Ok nr /\
    get d "avg_rating" (JInt 0) = Ok ar /\
    weighted_sum dl nr ar = Ok total /\
    py_int total = Ok (quality_score m) /\
    downloads m = dl /\ num_reviews m = nr /\
    describe d (JStr "No description available") = Ok (description m) /\
    slice_to 5 (coerce_subjects subject) = Ok (subjects m).
Proof.
  unfold curated_movie, flagged.
  destruct (get d "subject" _) as [subject|]; [|discriminate]. cbn [rbind].
  destruct (has_adult_keyword _) as [[|]|]; try discriminate. cbn [rbind].
  destruct (get d "downloads" _) as [dl|]; [|discriminate]. cbn [rbind].
  destruct (get d "num_reviews" _) as [nr|]; [|discriminate]. cbn [rbind].
  destruct (get d "avg_rating" _) as [ar|]; [|discriminate]. cbn [rbind].
  destruct (weighted_sum dl nr ar) as [total|] eqn:Esum; [|discriminate].
  cbn [rbind].
  destruct (get d "identifier" _); [|discriminate]. cbn [rbind].
  destruct (get d "title" _); [|discriminate]. cbn [rbind].
  destruct (describe d _) eqn:Edescr; [|discriminate]. cbn [rbind].
  destruct (get d "year" _); [|discriminate]. cbn [rbind].
  destruct (if truthy ar then _ else _); [|discriminate]. cbn [rbind].
  destruct (slice_to 5 _) eqn:Eslice; [|discriminate]. cbn [rbind].
  destruct (py_int total) eqn:Eint; [|discriminate]. cbn [rbind].
  intros [= <-]. cbn. split; [reflexivity|].
  exists subject, dl, nr, ar, total. repeat split; trivial.
Qed.
End Curation.

(** ** Binary64 arithmetic on integers below 2^53 *)

Lemma shl_iter p d : Pos.iter xO p d = shl p (Pos.to_nat d).
Proof. unfold shl. now rewrite Pos2Nat.inj_iter. Qed.

Lemma shl_value p n : Zpos (shl p n) = Zpos p * 2 ^ Z.of_nat n.
Proof.
  induction n as [|n IH]; [simpl; lia|].
  unfold shl in *. rewrite Nat.iter_succ.
  change (Zpos (Nat.iter n xO p)~0) with (2 * Zpos (Nat.iter n xO p)).
  rewrite IH, Nat2Z.inj_succ, Z.pow_succ_r by lia. lia.
Qed.

Lemma shl_digits p n :
  Zpos (digits2_pos (shl p n)) = Zpos (digits2_pos p) + Z.of_nat n.
Proof.
  induction n as [|n IH]; [simpl; lia|].
  unfold shl in *. rewrite Nat.iter_succ. cbn [digits2_pos].
  rewrite Pos2Z.inj_succ, IH. lia.
Qed.

Lemma digits_bounds p :
  2 ^ (Zpos (digits2_pos p) - 1) <= Zpos p < 2 ^ Zpos (digits2_pos p).
Proof.
  induction p as [p IH|p IH|]; cbn [digits2_pos]; [| |simpl; lia].
  - rewrite Pos2Z.inj_succ. change (Zpos p~1) with (2 * Zpos p + 1).
    replace (Z.succ (Zpos (digits2_pos p)) - 1) with (Z.succ (Zpos (digits2_pos p) - 1)) by lia.
    rewrite !Z.pow_succ_r by lia.
    revert IH. generalize (2 ^ (Zpos (digits2_pos p) - 1)) (2 ^ Zpos (digits2_pos p)). lia.
  - rewrite Pos2Z.inj_succ. change (Zpos p~0) with (2 * Zpos p).
    replace (Z.succ (Zpos (digits2_pos p)) - 1) with (Z.succ (Zpos (digits2_pos p) - 1)) by lia.
    rewrite !Z.pow_succ_r by lia.
    revert IH. generalize (2 ^ (Zpos (digits2_pos p) - 1)) (2 ^ Zpos (digits2_pos p)). lia.
Qed.

Lemma iter_pos_nat {A} (f : A -> A) p x :
  iter_pos f p x = Nat.iter (Pos.to_nat p) f x.
Proof.
  revert x. induction p as [p IH|p IH|]; intros x; cbn [iter_pos].
  - rewrite !IH, Pos2Nat.inj_xI. rewrite <- Nat.iter_add.
    replace (S (2 * Pos.to_nat p)) with (Pos.to_nat p + Pos.to_nat p + 1)%nat by lia.
    rewrite (Nat.iter_add (Pos.to_nat p + Pos.to_nat p) 1). reflexivity.
  - rewrite !IH, Pos2Nat.inj_xO, <- Nat.iter_add. f_equal. lia.
  - reflexivity.
Qed.

Lemma shr_1_exact n : forall S,
  Nat.iter n shr_1 (Build_shr_record (Zpos (shl S n)) false false)
  = Build_shr_record (Zpos S) false false.
Proof.
  induction n as [|n IH]; intros S; [reflexivity|].
  rewrite Nat.iter_succ_r. unfold shl. rewrite Nat.iter_succ. cbn [shr_1 orb].
  apply IH.
Qed.

Lemma binary_round_aux_exact S k e :
  Zpos (digits2_pos S) = 53 -> -1074 <= e + Z.of_nat k <= 971 ->
  binary_round_aux prec emax false (Zpos (shl S k)) e loc_Exact
  = S754_finite false S (e + Z.of_nat k).
Proof.
  intros D B. unfold binary_round_aux, shr_fexp. cbn [Zdigits2].
  rewrite shl_digits, D.
  assert (F1 : fexp prec emax (53 + Z.of_nat k + e) - e = Z.of_nat k).
  { unfold fexp, emin, prec, emax. lia. }
  rewrite F1. cbn [shr_record_of_loc].
  assert (Hshr : shr (Build_shr_record (Zpos (shl S k)) false false) e (Z.of_nat k)
                 = (Build_shr_record (Zpos S) false false, e + Z.of_nat k)).
  { unfold shr. destruct k as [|k].
    - simpl. f_equal. lia.
    - cbn [Z.of_nat]. rewrite iter_pos_nat, SuccNat2Pos.id_succ.
      now rewrite shr_1_exact. }
  rewrite Hshr. cbn [shr_m loc_of_shr_record round_nearest_even Zdigits2].
  rewrite D.
  assert (F2 : fexp prec emax (53 + (e + Z.of_nat k)) - (e + Z.of_nat k) = 0).
  { unfold fexp, emin, prec, emax. lia. }
  rewrite F2. cbn [shr shr_record_of_loc shr_m].
  destruct (Z.leb_spec (e + Z.of_nat k) (emax - prec)); [reflexivity|].
  unfold emax, prec in *. lia.
Qed.

Lemma shl_shl p a b : shl (shl p a) b = shl p (a + b).
Proof. unfold shl. now rewrite Nat.add_comm, Nat.iter_add. Qed.

Lemma binary_normalize_exact p k e :
  Zpos (digits2_pos p) <= 53 ->
  -1021 <= e + Z.of_nat k <= 971 ->
  binary_normalize prec emax (Zpos (shl p k)) e false
  = dyadic (Zpos p) (e + Z.of_nat k).
Proof.
  intros D B. cbn [binary_normalize dyadic]. unfold binary_round.
  rewrite shl_digits.
  pose proof (Pos2Z.is_pos (digits2_pos p)) as Dpos.
  set (d := Zpos (digits2_pos p)) in *.
  assert (F : fexp prec emax (d + Z.of_nat k + e) = d + Z.of_nat k + e - 53).
  { unfold fexp, emin, prec, emax. lia. }
  rewrite F. unfold shl_align.
  assert (Hd : Zpos (digits2_pos (shl p (Z.to_nat (53 - d)))) = 53).
  { rewrite shl_digits. fold d. lia. }
  destruct (d + Z.of_nat k + e - 53 - e) as [|q|q] eqn:Q.
  - replace (shl p k) with (shl (shl p (Z.to_nat (53 - d))) 0)
      by (rewrite shl_shl; f_equal; lia).
    rewrite binary_round_aux_exact by (trivial; lia).
    f_equal; lia.
  - pose proof (positive_nat_Z q) as Hq.
    replace (shl p k) with (shl (shl p (Z.to_nat (53 - d))) (Pos.to_nat q))
      by (rewrite shl_shl; f_equal; lia).
    rewrite binary_round_aux_exact by (trivial; lia).
    f_equal. lia.
  - rewrite shl_iter, shl_shl.
    pose proof (positive_nat_Z q) as Hq. rewrite <- Pos2Z.opp_pos in Q.
    replace (k + Pos.to_nat q)%nat with (Z.to_nat (53 - d) + 0)%nat by lia.
    rewrite <- shl_shl.
    rewrite binary_round_aux_exact by (trivial; lia).
    f_equal; lia.
Qed.

Lemma float_of_Z_exact n :
  0 <= n < 2 ^ 53 -> binary_normalize prec emax n 0 false = dyadic n 0.
Proof.
  intros B. destruct n as [|p|p]; [reflexivity| |lia].
  change (Zpos p) with (Zpos (shl p 0)) at 1.
  rewrite binary_normalize_exact; [reflexivity| |simpl; lia].
  pose proof (digits_bounds p) as H.
  destruct (Z.le_gt_cases (Zpos (digits2_pos p)) 53) as [L|G]; [exact L|].
  assert (2 ^ 53 <= 2 ^ (Zpos (digits2_pos p) - 1)) by (apply Z.pow_le_mono_r; lia).
  lia.
Qed.

Lemma digits_le p : Zpos p < 2 ^ 53 -> Zpos (digits2_pos p) <= 53.
Proof.
  intros B. pose proof (digits_bounds p) as H.
  destruct (Z.le_gt_cases (Zpos (digits2_pos p)) 53) as [L|G]; [exact L|].
  assert (2 ^ 53 <= 2 ^ (Zpos (digits2_pos p) - 1)) by (apply Z.pow_le_mono_r; lia).
  lia.
Qed.

Lemma dyadic_digits p :
  Zpos (digits2_pos p) <= 53 ->
  Zpos (digits2_pos (shl p (Z.to_nat (53 - Zpos (digits2_pos p))))) = 53.
Proof. intros D. rewrite shl_digits. lia. Qed.

Lemma mul_half_exact n :
  0 <= n < 2 ^ 53 -> SFmul prec emax (dyadic n 0) float_half = dyadic n (-1).
Proof.
  intros B. destruct n as [|p|p]; [reflexivity| |lia].
  pose proof (digits_le p ltac:(lia)) as D.
  pose proof (Pos2Z.is_pos (digits2_pos p)) as Dpos.
  unfold dyadic, float_half. cbn [SFmul xorb].
  replace (Pos.mul _ 4503599627370496)
    with (shl (shl p (Z.to_nat (53 - Zpos (digits2_pos p)))) 52).
  - rewrite binary_round_aux_exact by (try apply dyadic_digits; lia).
    f_equal. lia.
  - apply Pos2Z.inj. rewrite Pos2Z.inj_mul, (shl_value _ 52). reflexivity.
Qed.

Lemma shl_align_fst m ex ez :
  ez <= ex -> fst (shl_align m ex ez) = shl m (Z.to_nat (ex - ez)).
Proof.
  intros L. unfold shl_align.
  destruct (ez - ex) as [|q|q] eqn:Q; cbn [fst].
  - replace (Z.to_nat (ex - ez)) with 0%nat by lia. reflexivity.
  - lia.
  - rewrite shl_iter. f_equal. lia.
Qed.

Lemma dyadic_double q :
  Zpos q < 2 ^ 52 -> dyadic (Zpos q~0) (-1) = dyadic (Zpos q) 0.
Proof.
  intros B. assert (D : Zpos (digits2_pos q) <= 52).
  { pose proof (digits_bounds q) as H.
    destruct (Z.le_gt_cases (Zpos (digits2_pos q)) 52) as [L|G]; [exact L|].
    assert (2 ^ 52 <= 2 ^ (Zpos (digits2_pos q) - 1)) by (apply Z.pow_le_mono_r; lia).
    lia. }
  unfold dyadic. cbn [digits2_pos]. rewrite Pos2Z.inj_succ.
  f_equal; [|lia].
  replace (Z.to_nat (53 - Zpos (digits2_pos q)))
    with (S (Z.to_nat (53 - Z.succ (Zpos (digits2_pos q))))) by lia.
  unfold shl. now rewrite Nat.iter_succ_r.
Qed.

Lemma add_exact a b :
  0 <= a -> 0 <= b -> a + 2 * b < 2 ^ 53 ->
  SFadd prec emax (dyadic a (-1)) (dyadic b 0) = dyadic (a + 2 * b) (-1).
Proof.
  intros A B L.
  destruct a as [|p|p]; [| |lia]; destruct b as [|q|q]; try lia.
  - reflexivity.
  - cbn [Z.add Z.mul Pos.mul]. rewrite dyadic_double by lia. reflexivity.
  - reflexivity.
  - pose proof (digits_le p ltac:(lia)) as Dp.
    pose proof (digits_le q ltac:(lia)) as Dq.
    pose proof (Pos2Z.is_pos (digits2_pos p)) as Pp.
    pose proof (Pos2Z.is_pos (digits2_pos q)) as Pq.
    change (Zpos p + 2 * Zpos q) with (Zpos (p + q~0)).
    assert (Dn : Zpos (digits2_pos (p + q~0)) <= 53) by (apply digits_le; lia).
    unfold dyadic at 1 2. cbn [SFadd cond_Zopp].
    set (dp := Zpos (digits2_pos p)) in *. set (dq := Zpos (digits2_pos q)) in *.
    set (ez := Z.min (-1 - (53 - dp)) (0 - (53 - dq))).
    rewrite !shl_align_fst by lia. rewrite !shl_shl.
    replace (Zpos (shl p _) + Zpos (shl q _))
      with (Zpos (shl (p + q~0) (Z.to_nat (-1 - ez)))).
    + rewrite binary_normalize_exact by (trivial; lia). f_equal. lia.
    + rewrite !shl_value, Pos2Z.inj_add.
      change (Zpos q~0) with (2 * Zpos q).
      replace (Z.of_nat (Z.to_nat (53 - dq) + Z.to_nat (0 - (53 - dq) - ez)))
        with (Z.of_nat (Z.to_nat (-1 - ez)) + 1) by lia.
      replace (Z.of_nat (Z.to_nat (53 - dp) + Z.to_nat (-1 - (53 - dp) - ez)))
        with (Z.of_nat (Z.to_nat (-1 - ez))) by lia.
      rewrite Z.pow_add_r by lia. lia.
Qed.

Lemma int_of_dyadic n :
  0 <= n < 2 ^ 53 -> int_of_float (dyadic n (-1)) = Ok (n / 2).
Proof.
  intros B. destruct n as [|p|p]; [reflexivity| |lia].
  pose proof (digits_le p ltac:(lia)) as D.
  pose proof (Pos2Z.is_pos (digits2_pos p)) as Dpos.
  unfold dyadic, int_of_float.
  set (d := Zpos (digits2_pos p)) in *.
  destruct (-1 - (53 - d)) as [|q|q] eqn:Q; try lia.
  f_equal. rewrite Z.shiftr_div_pow2 by lia. rewrite shl_value.
  replace (Zpos q) with (Z.of_nat (Z.to_nat (53 - d)) + 1) by lia.
  rewrite Z.pow_add_r by lia. change (2 ^ 1) with 2.
  rewrite (Z.mul_comm _ 2).
  rewrite Z.div_mul_cancel_r; [reflexivity | lia |].
  apply Z.pow_nonzero; lia.
Qed.

Lemma float_of_int_exact n :
  0 <= n < 2 ^ 53 -> float_of_int n = Ok (dyadic n 0).
Proof.
  intros B. unfold float_of_int, float_of_Z. rewrite float_of_Z_exact by exact B.
  now destruct n.
Qed.

(** On integer fields the sum is computed without rounding. *)
Lemma weighted_sum_exact x y z :
  0 <= x -> 0 <= y -> 0 <= z -> x + 200 * y + 2000 * z < 2 ^ 53 ->
  weighted_sum (JInt x) (JInt y) (JInt z)
  = Ok (JFloat (dyadic (x + 200 * y + 2000 * z) (-1))).
Proof.
  intros Hx Hy Hz B. unfold weighted_sum. cbn [py_mul py_add rbind].
  rewrite float_of_int_exact by lia. cbn [py_add rbind].
  rewrite mul_half_exact by lia.
  rewrite float_of_int_exact by lia. cbn [py_add rbind].
  rewrite add_exact by lia.
  rewrite float_of_int_exact by lia. cbn [py_add rbind].
  rewrite add_exact by lia.
  do 3 f_equal. lia.
Qed.

(** ** Sums of numbers that are not negative *)

Lemma binary_round_aux_sign m e l :
  negative (binary_round_aux prec emax false m e l) = false.
Proof.
  unfold binary_round_aux.
  destruct (shr_fexp prec emax m e l) as [mrs' e'].
  destruct (shr_fexp prec emax _ e' loc_Exact) as [mrs'' e''].
  destruct (shr_m mrs''); [reflexivity | | reflexivity].
  now destruct (e'' <=? emax - prec).
Qed.

Lemma binary_normalize_sign m e :
  0 <= m -> negative (binary_normalize prec emax m e false) = false.
Proof.
  intros H. destruct m as [|p|p]; [reflexivity | | lia].
  unfold binary_normalize, binary_round.
  destruct (shl_align _ _ _) as [mz ez]. apply binary_round_aux_sign.
Qed.

Lemma SFmul_sign x y :
  negative x = false -> negative y = false ->
  negative (SFmul prec emax x y) = false.
Proof.
  destruct x as [sx|sx| |sx mx ex], y as [sy|sy| |sy my ey]; try reflexivity.
  cbn [negative]. intros -> ->. apply binary_round_aux_sign.
Qed.

Lemma SFadd_sign x y :
  negative x = false -> negative y = false ->
  negative (SFadd prec emax x y) = false.
Proof.
  destruct x as [sx|sx| |sx mx ex], y as [sy|sy| |sy my ey]; try reflexivity;
    try (now destruct sx, sy); try (intros; assumption).
  cbn [negative]. intros -> ->. unfold SFadd.
  apply binary_normalize_sign. cbn [cond_Zopp]. lia.
Qed.

Lemma float_of_int_sign n f :
  0 <= n -> float_of_int n = Ok f -> negative f = false.
Proof.
  intros H. unfold float_of_int, float_of_Z.
  pose proof (binary_normalize_sign n 0 H) as S.
  destruct (binary_normalize prec emax n 0 false); try discriminate;
    now intros [= <-].
Qed.

Ltac signs :=
  repeat match goal with
         | H : (0 <=? _) = true |- _ => apply Z.leb_le in H
         | H : negb _ = true |- _ => apply negb_true_iff in H
         | |- (0 <=? _) = true => apply Z.leb_le
         | |- negb _ = true => apply negb_true_iff
         | |- (_ <- float_of_int ?n ;; _) = Ok _ -> _ =>
             let E := fresh "E" in
             destruct (float_of_int n) eqn:E; cbn [rbind]; [|discriminate];
             apply float_of_int_sign in E; [|lia]
         end.

(** Products and sums of such numbers are such numbers. *)
Lemma py_mul_sign a b total :
  not_negative a = true -> not_negative b = true ->
  py_mul a b = Ok total -> not_negative total = true.
Proof.
  destruct a, b; try discriminate; cbn [not_negative py_mul]; intros Ha Hb;
    signs; intros [= <-]; cbn [not_negative]; signs;
    solve [lia | now apply SFmul_sign].
Qed.

Lemma py_add_sign a b total :
  not_negative a = true -> not_negative b = true ->
  py_add a b = Ok total -> not_negative total = true.
Proof.
  destruct a, b; try discriminate; cbn [not_negative py_add]; intros Ha Hb;
    signs; intros [= <-]; cbn [not_negative]; signs;
    solve [lia | now apply SFadd_sign].
Qed.

Lemma weighted_sum_sign dl nr ar f :
  not_negative dl = true -> not_negative nr = true -> not_negative ar = true ->
  weighted_sum dl nr ar = Ok (JFloat f) -> negative f = false.
Proof.
  intros Hdl Hnr Har. unfold weighted_sum.
  destruct (py_mul dl _) as [a|] eqn:Ea; [|discriminate]. cbn [rbind].
  destruct (py_mul nr _) as [b|] eqn:Eb; [|discriminate]. cbn [rbind].
  destruct (py_add a b) as [p|] eqn:Ep; [|discriminate]. cbn [rbind].
  destruct (py_mul ar _) as [c|] eqn:Ec; [|discriminate]. cbn [rbind].
  intros Esum.
  apply (py_mul_sign _ (JFloat float_half) _ Hdl eq_refl) in Ea.
  apply (py_mul_sign _ (JInt 100) _ Hnr eq_refl) in Eb.
  apply (py_mul_sign _ (JInt 1000) _ Har eq_refl) in Ec.
  pose proof (py_add_sign _ _ _ Ea Eb Ep) as Hp.
  pose proof (py_add_sign _ _ _ Hp Ec Esum) as Hsum.
  now apply negb_true_iff in Hsum.
Qed.

(** ** The quality score *)

(** C1: a movie of a curated list is the movie of a record of the
    provider's answer. The [quality_score] of the movie of a record is the
    binary64 sum [downloads * 0.5 + num_reviews * 100 + avg_rating * 1000]
    of the record's fields (0 where a field is absent) cut to an integer by
    [int]. When the three fields are numbers that are not negative, this
    is the floor of the sum. On integer fields the sum is exact, and the
    score is half the downloads, rounded down, plus 100 per review plus
    1000 per rating point. With downloads 20000, 30 reviews and rating 4.5
    the score is 17500. *)
Theorem quality_score_floor {W : World} min_views limit curated m :
  snd (curate_quality_movies min_views limit) = Ok (FR_movies curated) ->
  In m curated ->
  (exists data docs d,
      answered (curate_quality_movies min_views limit) data /\
      provider_docs data = Ok docs /\ In d docs /\
      curated_movie d = Ok (Some m))
  /\ (forall d m' dl nr ar,
         curated_movie d = Ok (Some m') ->
         get d "downloads" (JInt 0) = Ok dl ->
         get d "num_reviews" (JInt 0) = Ok nr ->
         get d "avg_rating" (JInt 0) = Ok ar ->
         (exists f, weighted_sum dl nr ar = Ok (JFloat f) /\
                    int_of_float f = Ok (quality_score m'))
         /\ (not_negative dl = true -> not_negative nr = true ->
             not_negative ar = true ->
             floor_score dl nr ar = Ok (quality_score m'))
         /\ (forall x y z,
                dl = JInt x -> nr = JInt y -> ar = JInt z ->
                0 <= x -> 0 <= y -> 0 <= z -> x + 200 * y + 2000 * z < 2 ^ 53 ->
                quality_score m' = x / 2 + 100 * y + 1000 * z))
  /\ (exists m', curated_movie (JDict [("downloads", JInt 20000);
                                       ("num_reviews", JInt 30);
                                       ("avg_rating", JFloat Sample.rating_4_5)])
                 = Ok (Some m')
                 /\ floor_score (JInt 20000) (JInt 30) (JFloat Sample.rating_4_5)
                    = Ok 17500
                 /\ quality_score m' = 17500).
Proof.
  intros Hrun Hin. split; [|split].
  - destruct (curated_list _ _ _ Hrun) as (data & docs & outs & Hans & Hdocs & F & ->).
    apply (Permutation_in _ (Permutation_sym (sort_desc_perm _ _))) in Hin.
    destruct (appended_In _ _ _ _ F Hin) as (d & Hd & Hm).
    exists data, docs, d. auto.
  - intros d m' dl nr ar Hm Hdl Hnr Har.
    destruct (curated_movie_fields _ _ Hm)
      as (_ & subject & dl' & nr' & ar' & total & _ & Hdl' & Hnr' & Har' & Hsum & Hint & _).
    assert (dl' = dl) as -> by congruence.
    assert (nr' = nr) as -> by congruence.
    assert (ar' = ar) as -> by congruence.
    destruct (weighted_sum_float _ _ _ _ Hsum) as [f ->].
    simpl in Hint. split; [exists f; auto|]. split.
    + intros Pdl Pnr Par. unfold floor_score. rewrite Hsum. cbn [rbind].
      rewrite floor_of_float_nonnegative; [exact Hint|].
      exact (weighted_sum_sign _ _ _ _ Pdl Pnr Par Hsum).
    + intros x y z -> -> -> Hx Hy Hz Hb.
      rewrite weighted_sum_exact in Hsum by assumption.
      assert (Hf : f = dyadic (x + 200 * y + 2000 * z) (-1)) by congruence.
      rewrite Hf, int_of_dyadic in Hint by lia.
      assert (Hq : quality_score m' = (x + 200 * y + 2000 * z) / 2) by congruence.
      rewrite Hq.
      replace (x + 200 * y + 2000 * z) with (x + (100 * y + 1000 * z) * 2) by lia.
      rewrite Z.div_add by lia. lia.
  - eexists. split; [vm_compute; reflexivity|]. split; reflexivity.
Qed.

Lemma quality_score_floor_witness :
  snd (@curate_quality_movies Sample.archive_world None None)
  = Ok (FR_movies Sample.curated)
  /\ (forall m, Sample.best = Some m ->
      In m Sample.curated
      /\ floor_score (JInt 30000) (JInt 25) (JInt 4) = Ok (quality_score m)
      /\ quality_score m = 21500).
Proof.
  assert (Hrun : snd (@curate_quality_movies Sample.archive_world None None)
                 = Ok (FR_movies Sample.curated)) by (vm_compute; reflexivity).
  split; [exact Hrun|]. intros m Hm.
  assert (Hin : In m Sample.curated).
  { unfold Sample.best in Hm. destruct Sample.curated; [discriminate|].
    injection Hm as ->. now left. }
  split; [exact Hin|].
  destruct (quality_score_floor (W := Sample.archive_world) None None _ m Hrun Hin)
    as (_ & Hrecord & _).
  assert (Hmovie : curated_movie (W := Sample.archive_world) Sample.doc_cartoon
                   = Ok (Some m))
    by (vm_compute in Hm; injection Hm as <-; vm_compute; reflexivity).
  destruct (Hrecord Sample.doc_cartoon m (JInt 30000) (JInt 25) (JInt 4)
              Hmovie eq_refl eq_refl eq_refl) as (_ & Hfloor & Hexact).
  split; [exact (Hfloor eq_refl eq_refl eq_refl)|].
  rewrite (Hexact 30000 25 4 eq_refl eq_refl eq_refl); [reflexivity | lia ..].
Defined.

(** ** The order of the curated list *)

(** C2: a curated list is in descending order of [quality_score], each
    entry at least its successor; it is a rearrangement of the movies in
    the order the provider's records gave them, and movies of equal score
    stay in that order. No other list has these properties. *)
Theorem curated_sorted_stable {W : World} min_views limit curated :
  snd (curate_quality_movies min_views limit) = Ok (FR_movies curated) ->
  (forall i a b,
      nth_error curated i = Some a -> nth_error curated (S i) = Some b ->
      quality_score b <= quality_score a)
  /\ exists data docs outs,
      answered (curate_quality_movies min_views limit) data /\
      provider_docs data = Ok docs /\
      Forall2 (fun d o => curated_movie d = Ok o) docs outs /\
      Permutation (appended outs) curated /\
      (forall k, with_key quality_score k curated
                 = with_key quality_score k (appended outs)) /\
      (forall other,
          StronglySorted (desc quality_score) other ->
          (forall k, with_key quality_score k other
                     = with_key quality_score k (appended outs)) ->
          other = curated).
Proof.
  intros Hrun.
  destruct (curated_list _ _ _ Hrun) as (data & docs & outs & Hans & Hdocs & F & ->).
  split.
  - intros i a b. apply sorted_adjacent, sort_desc_sorted.
  - exists data, docs, outs. repeat (split; [assumption|]).
    split; [apply sort_desc_perm|]. split.
    + intros k. apply sort_desc_stable.
    + intros other. apply sort_desc_unique.
Qed.

Lemma curated_sorted_stable_witness :
  snd (@curate_quality_movies Sample.archive_world None None)
  = Ok (FR_movies Sample.curated)
  /\ map quality_score Sample.curated = [21500; 17500; 17500]
  /\ map identifier Sample.curated
     = [JStr "popeye_sindbad"; JStr "night_of_the_living_dead"; JStr "flash_gordon"]
  /\ forall i a b,
      nth_error Sample.curated i = Some a ->
      nth_error Sample.curated (S i) = Some b ->
      quality_score b <= quality_score a.
Proof.
  assert (Hrun : snd (@curate_quality_movies Sample.archive_world None None)
                 = Ok (FR_movies Sample.curated)) by (vm_compute; reflexivity).
  split; [exact Hrun|]. split; [reflexivity|]. split; [reflexivity|].
  exact (proj1 (curated_sorted_stable (W := Sample.archive_world) None None _ Hrun)).
Defined.

(** ** The content filter *)

Lemma existsb_keyword joined :
  existsb (fun keyword => str_in keyword (lower joined)) adult_keywords = true
  <-> exists keyword, In keyword adult_keywords /\ occurs keyword (lower joined).
Proof.
  rewrite existsb_exists. split; intros (k & I & H); exists k; split; trivial;
    now apply str_in_occurs.
Qed.

(** A record is flagged exactly when a keyword occurs in the joined
    subjects, whatever the case of their letters. *)
Lemma flagged_keyword d b :
  flagged d = Ok b ->
  exists subject joined,
    get d "subject" (JList []) = Ok subject /\
    join_space (coerce_subjects subject) = Ok joined /\
    (b = true <->
     exists keyword, In keyword adult_keywords /\ occurs keyword (lower joined)).
Proof.
  unfold flagged, has_adult_keyword.
  destruct (get d "subject" _) as [subject|]; [|discriminate]. cbn [rbind].
  destruct (join_space _) as [joined|] eqn:Ejoin; [|discriminate]. cbn [rbind].
  intros [= <-]. exists subject, joined.
  split; [reflexivity|]. split; [exact Ejoin|]. apply existsb_keyword.
Qed.






Section Filter.
Context {W : World}.




End Filter.




Section FilterOnTags.
Context {W : World}.









End FilterOnTags.




(** ** Descriptions *)

Section Descriptions.
Context {W : World}.

Lemma describe_text d default s :
  get d "description" JNull = Ok (JStr s) -> s <> EmptyString ->
  describe d default = Ok (JStr (str_take 200 s ++ "...")).
Proof.
  unfold describe. intros H N. rewrite H. cbn [rbind].
  destruct d; try discriminate. simpl in H |- *.
  destruct (lookup "description" kv) as [v|]; [|discriminate].
  injection H as ->. destruct s; [contradiction|]. reflexivity.
Qed.

Lemma describe_missing d default :
  get d "description" JNull = Ok JNull ->
  describe d default = Ok (JStr "No description available").
Proof. unfold describe. now intros ->. Qed.

Lemma archive_result_description d x :
  archive_result d = Ok (Some x) ->
  describe d (JStr "No description available") = Ok (archive_description x).
Proof.
  unfold archive_result.
  destruct (get d "subject" _); [|discriminate]. cbn [rbind].
  destruct (has_adult_keyword _) as [[|]|]; try discriminate. cbn [rbind].
  destruct (get d "identifier" _); [|discriminate]. cbn [rbind].
  destruct (get d "title" _); [|discriminate]. cbn [rbind].
  destruct (describe d _); [|discriminate]. cbn [rbind].
  repeat match goal with
         | |- (_ <- ?m ;; _) = Ok _ -> _ => destruct m; cbn [rbind]; [|discriminate]
         end.
  now intros [= <-].
Qed.

Lemma video_result_description item v :
  video_result item = Ok (Some v) ->
  exists snippet,
    getitem item "snippet" = Ok snippet /\
    describe snippet (JStr EmptyString) = Ok (video_description v).
Proof.
  unfold video_result.
  destruct (getitem item "id"); [|discriminate]. cbn [rbind].
  destruct (getitem _ "videoId"); [|discriminate]. cbn [rbind].
  destruct (getitem item "snippet") as [snippet|]; [|discriminate]. cbn [rbind].
  destruct (get snippet "title" _); [|discriminate]. cbn [rbind].
  destruct (describe snippet _) eqn:Edescr; [|discriminate]. cbn [rbind].
  repeat match goal with
         | |- (_ <- ?m ;; _) = Ok _ -> _ => destruct m; cbn [rbind]; [|discriminate]
         end.
  intros [= <-]. exists snippet. split; [reflexivity | exact Edescr].
Qed.
End Descriptions.

(** C4: a description of 500 characters becomes its first 200 characters
    followed by three dots; a record without description (or with a null
    one) gets the literal "No description available" and nothing after it.
    All three normalizers store what [describe] returns. *)
Theorem description_truncated {W : World} :
  (forall d default s,
      get d "description" JNull = Ok (JStr s) ->
      String.length s = 500%nat ->
      describe d default = Ok (JStr (str_take 200 s ++ "..."))
      /\ String.length (str_take 200 s) = 200%nat
      /\ exists rest, s = str_take 200 s ++ rest)
  /\ (forall d default,
         get d "description" JNull = Ok JNull ->
         describe d default = Ok (JStr "No description available"))
  /\ (forall d x,
         archive_result d = Ok (Some x) ->
         describe d (JStr "No description available") = Ok (archive_description x))
  /\ (forall d m,
         curated_movie d = Ok (Some m) ->
         describe d (JStr "No description available") = Ok (description m))
  /\ (forall item v,
         video_result item = Ok (Some v) ->
         exists snippet,
           getitem item "snippet" = Ok snippet /\
           describe snippet (JStr EmptyString) = Ok (video_description v)).
Proof.
  split.
  { intros d default s H L. split; [|split].
    - apply describe_text; [exact H|]. intros ->. discriminate.
    - apply str_take_length. lia.
    - apply str_take_prefix. }
  split; [exact describe_missing|].
  split; [exact archive_result_description|].
  split; [|exact video_result_description].
  intros d m H.
  destruct (curated_movie_fields _ _ H)
    as (_ & ? & ? & ? & ? & ? & _ & _ & _ & _ & _ & _ & _ & _ & Hdescr & _).
  exact Hdescr.
Qed.

Lemma description_truncated_witness :
  get Sample.doc_long "description" JNull = Ok (JStr Sample.long_text)
  /\ String.length Sample.long_text = 500%nat
  /\ describe Sample.doc_long (JStr "No description available")
     = Ok (JStr (str_take 200 Sample.long_text ++ "..."))
  /\ get Sample.doc_cartoon "description" JNull = Ok JNull
  /\ describe Sample.doc_cartoon (JStr "No description available")
     = Ok (JStr "No description available").
Proof.
  destruct (@description_truncated Sample.archive_world) as (Hlong & Hmissing & _).
  assert (H1 : get Sample.doc_long "description" JNull = Ok (JStr Sample.long_text))
    by reflexivity.
  assert (H2 : String.length Sample.long_text = 500%nat) by reflexivity.
  assert (H3 : get Sample.doc_cartoon "description" JNull = Ok JNull) by reflexivity.
  split; [exact H1|]. split; [exact H2|].
  split; [exact (proj1 (Hlong _ _ _ H1 H2))|].
  split; [exact H3 | exact (Hmissing _ _ H3)].
Defined.

(** ** Subjects given as one string *)

Lemma lookup_assign_same k v kv : lookup k (assign k v kv) = Some v.
Proof.
  induction kv as [|[k' v'] kv IH]; simpl.
  - now rewrite String.eqb_refl.
  - destruct (String.eqb k k') eqn:E; simpl; rewrite E; [reflexivity | exact IH].
Qed.

Lemma lookup_assign_other k k' v kv :
  String.eqb k' k = false -> lookup k' (assign k v kv) = lookup k' kv.
Proof.
  intros N. induction kv as [|[k0 v0] kv IH]; simpl.
  - now rewrite N.
  - destruct (String.eqb k k0) eqn:E; simpl.
    + apply String.eqb_eq in E. subst k0. now rewrite N.
    + now rewrite IH.
Qed.

Lemma get_assign_other k k' v kv default :
  String.eqb k' k = false ->
  get (JDict (assign k v kv)) k' default = get (JDict kv) k' default.
Proof. intros N. simpl. now rewrite lookup_assign_other. Qed.

Lemma describe_assign_other k v kv default :
  String.eqb "description" k = false ->
  describe (JDict (assign k v kv)) default = describe (JDict kv) default.
Proof. intros N. unfold describe. now rewrite !get_assign_other. Qed.

(** C10: a record whose subject is the string [s] is treated as the same
    record with the one-element list [[s]] as subject: the content filter
    decides alike, both normalizers return the same, and a curated movie
    carries the subjects [[s]]. *)
Theorem string_subject_coerced {W : World} kv s :
  lookup "subject" kv = Some (JStr s) ->
  let d := JDict kv in
  let d' := JDict (assign "subject" (JList [JStr s]) kv) in
  get d' "subject" (JList []) = Ok (JList [JStr s])
  /\ flagged d = flagged d'
  /\ archive_result d = archive_result d'
  /\ curated_movie d = curated_movie d'
  /\ (forall m, curated_movie d = Ok (Some m) -> subjects m = JList [JStr s]).
Proof.
  intros H d d'.
  assert (Hd : get d "subject" (JList []) = Ok (JStr s)) by (simpl; now rewrite H).
  assert (Hd' : get d' "subject" (JList []) = Ok (JList [JStr s]))
    by (simpl; now rewrite lookup_assign_same).
  split; [exact Hd'|]. split; [|split; [|split]].
  - unfold flagged. now rewrite Hd, Hd'.
  - unfold archive_result. rewrite Hd, Hd'. unfold d, d'.
    rewrite describe_assign_other, !get_assign_other by reflexivity.
    reflexivity.
  - unfold curated_movie. rewrite Hd, Hd'. unfold d, d'.
    rewrite describe_assign_other, !get_assign_other by reflexivity.
    reflexivity.
  - intros m Hm.
    destruct (curated_movie_fields _ _ Hm)
      as (_ & subject & ? & ? & ? & ? & Hs & _ & _ & _ & _ & _ & _ & _ & _ & Hslice).
    rewrite Hd in Hs. injection Hs as <-. simpl in Hslice. congruence.
Qed.

Lemma string_subject_coerced_witness :
  get Sample.doc_cartoon "subject" (JList []) = Ok (JStr "Cartoons")
  /\ forall m,
      @curated_movie Sample.archive_world Sample.doc_cartoon = Ok (Some m) ->
      subjects m = JList [JStr "Cartoons"].
Proof.
  split; [reflexivity|].
  assert (H : forall kv, Sample.doc_cartoon = JDict kv ->
                         lookup "subject" kv = Some (JStr "Cartoons"))
    by (intros kv [= <-]; reflexivity).
  exact (proj2 (proj2 (proj2 (proj2
    (string_subject_coerced (W := Sample.archive_world) _ "Cartoons"
       (H _ eq_refl)))))).
Defined.

(** ** Failures of the providers *)

Ltac raises :=
  match goal with
  | |- exists e, Ok (in_band ?r) = Ok (FR_error (JStr (exn_str e))) =>
      let e := fresh "e" in
      enough (exists e, r = Raise e) as [e ->] by (exists e; reflexivity)
  end.

Ltac raised := cbn [get getitem contains iterate slice_to rbind]; eexists; reflexivity.

Ltac step :=
  match goal with
  | |- exists e, (_ <- ?m ;; _) = Raise e =>
      destruct m eqn:?; cbn [rbind]; [|eexists; reflexivity]
  end.

Section Malformed.
Context {W : World}.

Lemma file_result_raises identifier f :
  is_dict f = false -> exists e, file_result identifier f = Raise e.
Proof.
  intros H. unfold file_result. destruct f; try discriminate; raised.
Qed.

Lemma video_result_raises item :
  is_dict item = false
  \/ (exists fields,
         item = JDict fields
         /\ (lookup "id" fields = None \/ lookup "snippet" fields = None)) ->
  exists e, video_result item = Raise e.
Proof.
  unfold video_result. intros [H|(fields & -> & [H|H])].
  - destruct item; try discriminate; raised.
  - cbn [getitem]. rewrite H. raised.
  - do 2 step. cbn [getitem]. rewrite H. raised.
Qed.

(** An answer the item lookup cannot read. *)
Lemma get_item_details_malformed identifier data :
  answered (get_item_details identifier) data ->
  (is_dict data = false
   \/ (exists kv meta,
          data = JDict kv /\ lookup "metadata" kv = Some meta
          /\ is_dict meta = false)
   \/ (exists kv files,
          data = JDict kv /\ lookup "files" kv = Some files
          /\ scalar files = true)
   \/ (exists kv l f,
          data = JDict kv /\ lookup "files" kv = Some (JList l)
          /\ In f (firstn 10 l) /\ is_dict f = false)) ->
  exists e, snd (get_item_details identifier) = Ok (FR_error (JStr (exn_str e))).
Proof.
  intros Hans H. rewrite (get_item_details_answered _ _ Hans). raises.
  destruct H as [H|[(kv & meta & -> & Hm & H)|[(kv & files & -> & Hf & H)
                                              |(kv & l & f & -> & Hf & Hin & H)]]].
  - destruct data; try discriminate; raised.
  - cbn [get rbind]. rewrite Hm. destruct meta; try discriminate; raised.
  - cbn [get rbind]. rewrite Hf. do 3 step.
    destruct files; try discriminate; raised.
  - cbn [get rbind]. rewrite Hf. do 3 step. cbn [slice_to iterate rbind].
    destruct (file_result_raises identifier f H) as [e He].
    destruct (collect_raises _ _ _ _ Hin He) as (f' & e' & _ & _ & ->).
    raised.
Qed.

(** An answer the video search cannot read. *)
Lemma search_youtube_malformed query max_results data :
  answered (search_youtube query max_results) data ->
  (scalar data = true
   \/ (is_dict data = false /\ contains "error" data = Ok false)
   \/ (exists kv items,
          data = JDict kv /\ lookup "error" kv = None
          /\ lookup "items" kv = Some items /\ scalar items = true)
   \/ (exists kv l item,
          data = JDict kv /\ lookup "error" kv = None
          /\ lookup "items" kv = Some (JList l) /\ In item l
          /\ (is_dict item = false
              \/ exists fields,
                  item = JDict fields
                  /\ (lookup "id" fields = None
                      \/ lookup "snippet" fields = None)))) ->
  exists e,
    snd (search_youtube query max_results) = Ok (FR_error (JStr (exn_str e))).
Proof.
  intros Hans H. rewrite (search_youtube_answered _ _ _ Hans). raises.
  destruct H as [H|[[H Hc]|[(kv & items & -> & He & Hi & H)
                           |(kv & l & item & -> & He & Hi & Hin & H)]]].
  - destruct data; try discriminate; raised.
  - rewrite Hc. cbn [rbind]. destruct data; try discriminate; raised.
  - cbn [contains get rbind]. rewrite He, Hi. cbn [rbind].
    destruct items; try discriminate; raised.
  - cbn [contains get rbind]. rewrite He, Hi. cbn [iterate rbind].
    destruct (video_result_raises item H) as [e Hitem].
    destruct (collect_raises _ _ _ _ Hin Hitem) as (item' & e' & _ & _ & ->).
    raised.
Qed.
End Malformed.

(** C6: each of the four tool functions makes its one request and returns
    a value, whatever the provider does. When the request or the decoding
    of its answer raises [e], the value is the dict with the key error and
    the text [str(e)]; so it is when the answer is malformed: when reading
    the records of an archive answer raises [e], when the answer of the
    item lookup is no dict, has metadata that is no dict, files that
    cannot be sliced or, among the first ten, a file that is no dict, and
    when the answer of the video search is no container or no dict, has
    items that cannot be iterated over or an item that is no dict or lacks
    its id or its snippet. The video search returns the provider's own
    message when the answer has the key error, and an error dict in any
    case then. *)
Theorem provider_failures_in_band {W : World}
    query identifier min_views limit max_results :
  let runs := [search_archive query;
               get_item_details identifier;
               curate_quality_movies min_views limit;
               search_youtube query max_results] in
  (forall run, In run runs ->
     (exists url params response,
         fst run = [EvGet url params] /\ snd run = Ok response)
     /\ (forall e, failed run e -> snd run = Ok (FR_error (JStr (exn_str e)))))
  /\ (forall data e,
         answered (search_archive query) data ->
         (docs <- provider_docs data ;; collect archive_result docs) = Raise e ->
         snd (search_archive query) = Ok (FR_error (JStr (exn_str e))))
  /\ (forall data e,
         answered (curate_quality_movies min_views limit) data ->
         (docs <- provider_docs data ;; collect curated_movie docs) = Raise e ->
         snd (curate_quality_movies min_views limit)
         = Ok (FR_error (JStr (exn_str e))))
  /\ (forall data,
         answered (get_item_details identifier) data ->
         (is_dict data = false
          \/ (exists kv meta,
                 data = JDict kv /\ lookup "metadata" kv = Some meta
                 /\ is_dict meta = false)
          \/ (exists kv files,
                 data = JDict kv /\ lookup "files" kv = Some files
                 /\ scalar files = true)
          \/ (exists kv l f,
                 data = JDict kv /\ lookup "files" kv = Some (JList l)
                 /\ In f (firstn 10 l) /\ is_dict f = false)) ->
         exists e,
           snd (get_item_details identifier)
           = Ok (FR_error (JStr (exn_str e))))
  /\ (forall data,
         answered (search_youtube query max_results) data ->
         (scalar data = true
          \/ (is_dict data = false /\ contains "error" data = Ok false)
          \/ (exists kv items,
                 data = JDict kv /\ lookup "error" kv = None
                 /\ lookup "items" kv = Some items /\ scalar items = true)
          \/ (exists kv l item,
                 data = JDict kv /\ lookup "error" kv = None
                 /\ lookup "items" kv = Some (JList l) /\ In item l
                 /\ (is_dict item = false
                     \/ exists fields,
                         item = JDict fields
                         /\ (lookup "id" fields = None
                             \/ lookup "snippet" fields = None)))) ->
         exists e,
           snd (search_youtube query max_results)
           = Ok (FR_error (JStr (exn_str e))))
  /\ (forall data,
         answered (search_youtube query max_results) data ->
         contains "error" data = Ok true ->
         (forall error message,
             getitem data "error" = Ok error ->
             getitem error "message" = Ok message ->
             snd (search_youtube query max_results) = Ok (FR_error message))
         /\ exists message,
             snd (search_youtube query max_results) = Ok (FR_error message)).
Proof.
  intros runs. split; [|split; [|split; [|split; [|split]]]].
  - intros run Hin.
    assert (Hshape : exists url params k,
               run = ([EvGet url params],
                      Ok (in_band (data <- http_get url params ;; k data)))).
    { destruct Hin as [<-|[<-|[<-|[<-|[]]]]].
      - destruct (search_archive_run query) as (url & params & E).
        do 3 eexists. exact E.
      - destruct (get_item_details_run identifier) as (url & params & k & E & _).
        do 3 eexists. exact E.
      - destruct (curate_quality_movies_run min_views limit) as (url & params & E).
        do 3 eexists. exact E.
      - destruct (search_youtube_run query max_results) as (url & params & E).
        do 3 eexists. exact E. }
    destruct Hshape as (url & params & k & E).
    destruct (guarded_outcome _ _ _ _ E) as ((response & Hlog & Hres) & Hfail & _).
    split; [|exact Hfail]. exists url, params, response. auto.
  - intros data e Hans Hraise.
    rewrite (search_archive_answered _ _ Hans).
    destruct (provider_docs data) as [docs|]; cbn [rbind] in *.
    + now rewrite Hraise.
    + now injection Hraise as ->.
  - intros data e Hans Hraise.
    rewrite (curate_quality_movies_answered _ _ _ Hans).
    destruct (provider_docs data) as [docs|]; cbn [rbind] in *.
    + now rewrite Hraise.
    + now injection Hraise as ->.
  - intros data. apply get_item_details_malformed.
  - intros data. apply search_youtube_malformed.
  - intros data Hans Herr.
    rewrite (search_youtube_answered _ _ _ Hans), Herr. cbn [rbind]. split.
    + intros error message He Hm. rewrite He. cbn [rbind]. now rewrite Hm.
    + destruct (getitem data "error") as [error|]; cbn [rbind in_band]; eauto.
      destruct (getitem error "message"); cbn [rbind in_band]; eauto.
Qed.

Lemma provider_failures_in_band_witness :
  failed (W := Sample.timeout_world)
         (search_archive (W := Sample.timeout_world) (JStr "cozy")) Sample.timeout
  /\ snd (search_archive (W := Sample.timeout_world) (JStr "cozy"))
     = Ok (FR_error (JStr "Connection timed out"))
  /\ answered (W := Sample.listed_world)
              (search_archive (W := Sample.listed_world) (JStr "cozy"))
              (Sample.archive_response [Sample.doc_listed])
  /\ snd (search_archive (W := Sample.listed_world) (JStr "cozy"))
     = Ok (FR_error (JStr ("can only concatenate list (not " ++ quoted "str"
                           ++ ") to list")))
  /\ snd (get_item_details
            (W := Sample.world [] (Ok Sample.details_malformed)) (JStr "popeye"))
     = Ok (FR_error (JStr "'list' object has no attribute 'get'"))
  /\ snd (search_youtube
            (W := Sample.world [] (Ok Sample.youtube_broken)) (JStr "cozy") None)
     = Ok (FR_error (JStr "'id'"))
  /\ answered (W := Sample.youtube_world)
              (search_youtube (W := Sample.youtube_world) (JStr "cozy") None)
              Sample.youtube_error
  /\ contains "error" Sample.youtube_error = Ok true
  /\ snd (search_youtube (W := Sample.youtube_world) (JStr "cozy") None)
     = Ok (FR_error (JStr "quotaExceeded")).
Proof.
  assert (H1 : failed (W := Sample.timeout_world)
                 (search_archive (W := Sample.timeout_world) (JStr "cozy"))
                 Sample.timeout)
    by (do 2 eexists; split; reflexivity).
  assert (H2 : answered (W := Sample.listed_world)
                 (search_archive (W := Sample.listed_world) (JStr "cozy"))
                 (Sample.archive_response [Sample.doc_listed]))
    by (do 2 eexists; split; reflexivity).
  assert (H3 : answered (W := Sample.youtube_world)
                 (search_youtube (W := Sample.youtube_world) (JStr "cozy") None)
                 Sample.youtube_error)
    by (do 2 eexists; split; reflexivity).
  assert (H4 : contains "error" Sample.youtube_error = Ok true) by reflexivity.
  assert (H5 : answered (W := Sample.world [] (Ok Sample.details_malformed))
                 (get_item_details
                    (W := Sample.world [] (Ok Sample.details_malformed))
                    (JStr "popeye"))
                 Sample.details_malformed)
    by (do 2 eexists; split; reflexivity).
  assert (H6 : answered (W := Sample.world [] (Ok Sample.youtube_broken))
                 (search_youtube
                    (W := Sample.world [] (Ok Sample.youtube_broken))
                    (JStr "cozy") None)
                 Sample.youtube_broken)
    by (do 2 eexists; split; reflexivity).
  split; [exact H1|]. split.
  { destruct (provider_failures_in_band (W := Sample.timeout_world)
                (JStr "cozy") JNull None None None) as (Hruns & _).
    exact (proj2 (Hruns _ (or_introl eq_refl)) _ H1). }
  split; [exact H2|]. split.
  { destruct (provider_failures_in_band (W := Sample.listed_world)
                (JStr "cozy") JNull None None None) as (_ & Hbad & _).
    exact (Hbad _ (Exn TypeError
                     ("can only concatenate list (not " ++ quoted "str"
                      ++ ") to list")) H2 eq_refl). }
  split.
  { destruct (provider_failures_in_band
                (W := Sample.world [] (Ok Sample.details_malformed))
                (JStr "cozy") (JStr "popeye") None None None)
      as (_ & _ & _ & Hitem & _).
    destruct (Hitem _ H5 (or_introl eq_refl)) as [e He].
    rewrite He.
    assert (E : Ok (FR_error (JStr (exn_str e)))
                = Ok (FR_error (JStr "'list' object has no attribute 'get'")))
      by (rewrite <- He; vm_compute; reflexivity).
    exact E. }
  split.
  { destruct (provider_failures_in_band
                (W := Sample.world [] (Ok Sample.youtube_broken))
                (JStr "cozy") JNull None None None)
      as (_ & _ & _ & _ & Hvideo & _).
    destruct (Hvideo _ H6) as [e He].
    { right. right. right. do 3 eexists. split; [reflexivity|].
      split; [reflexivity|]. split; [reflexivity|].
      split; [right; left; reflexivity|].
      right. eexists. split; [reflexivity|]. left. reflexivity. }
    rewrite He.
    assert (E : Ok (FR_error (JStr (exn_str e))) = Ok (FR_error (JStr "'id'")))
      by (rewrite <- He; vm_compute; reflexivity).
    exact E. }
  split; [exact H3|]. split; [exact H4|].
  destruct (provider_failures_in_band (W := Sample.youtube_world)
              (JStr "cozy") JNull None None None) as (_ & _ & _ & _ & _ & Hyt).
  exact (proj1 (Hyt _ H3 H4) _ _ eq_refl eq_refl).
Defined.

(** ** The chat endpoint *)

Lemma mbind_lift {A B} (r : result A) (f : A -> M B) :
  mbind (lift r) f = match r with Ok a => f a | Raise e => ([], Raise e) end.
Proof. destruct r as [a|e]; simpl; [now destruct (f a) | reflexivity]. Qed.

Lemma mbind_logged {A B} log (r : result A) (f : A -> M B) :
  mbind (log, r) f =
  match r with
  | Ok a => ((log ++ fst (f a))%list, snd (f a))
  | Raise e => (log, Raise e)
  end.
Proof. destruct r as [a|e]; simpl; [now destruct (f a) | reflexivity]. Qed.

Lemma try_except_mret {A} (m : M A) (h : exn -> A) :
  try_except m (fun e => mret (h e))
  = (fst m, Ok match snd m with Ok a => a | Raise e => h e end).
Proof. destruct m as [log [a|e]]; simpl; now rewrite ?app_nil_r. Qed.

Section ChatFacts.
Context {W : World}.

(** [handle_chat] once the model has replied. *)
Lemma handle_chat_reply post_data messages assistant_message :
  first_reply post_data messages assistant_message ->
  handle_chat post_data =
  match tool_calls assistant_message with
  | Some (tool_call :: _) =>
      let run := run_tool_call messages assistant_message tool_call in
      (EvChat messages true :: fst run,
       Ok match snd run with Ok reply => reply | Raise e => server_error e end)
  | _ => ([EvChat messages true], Ok (Reply200 (content assistant_message) None))
  end.
Proof.
  intros (data & user_message & history & response
          & Hdata & Hmsg & Htrue & Hhist & Hmessages & Hchat & Hfirst).
  unfold handle_chat. rewrite try_except_mret. fold server_error.
  rewrite mbind_lift, Hdata, mbind_lift, Hmsg, mbind_lift, Hhist, Htrue.
  cbn [negb]. rewrite mbind_lift, Hmessages.
  unfold completions_create. rewrite mbind_logged, Hchat.
  rewrite mbind_lift, Hfirst.
  destruct (tool_calls assistant_message) as [[|tool_call rest]|]; reflexivity.
Qed.

(** The tool branch once the arguments are decoded and the tool has run. *)
Lemma run_tool_call_dispatched messages assistant_message tool_call args :
  json_loads (function_arguments tool_call) = Ok args ->
  run_tool_call messages assistant_message tool_call =
  let run := dispatch (function_name tool_call) args in
  match snd run with
  | Ok function_response =>
      let messages' :=
        with_tool_result messages assistant_message tool_call function_response in
      ((fst run ++ [EvChat messages' false])%list,
       final_response <- chat_create messages' false ;;
       final_message <- first_message final_response ;;
       Ok (Reply200 (content final_message)
             (if is_list function_response then Some function_response
              else None)))
  | Raise e => (fst run, Raise e)
  end.
Proof.
  intros Hargs. unfold run_tool_call. rewrite mbind_lift, Hargs.
  destruct (dispatch (function_name tool_call) args) as [log [fr|e]];
    rewrite mbind_logged; [|reflexivity].
  cbn [fst snd]. unfold completions_create. rewrite mbind_logged.
  fold (with_tool_result messages assistant_message tool_call fr).
  destruct (chat_create _ false) as [final|e]; [|reflexivity].
  rewrite mbind_lift. cbn [rbind].
  destruct (first_message final); cbn; now rewrite ?app_nil_r.
Qed.

Lemma dispatch_unknown name args :
  ~ In name tool_names ->
  dispatch name args = ([], Ok (FR_error (JStr "Unknown function"))).
Proof.
  intros N. unfold dispatch.
  repeat match goal with
         | |- context [String.eqb name ?s] =>
             destruct (String.eqb_spec name s) as [->|_];
             [exfalso; apply N; unfold tool_names; simpl; tauto|]
         end.
  reflexivity.
Qed.
End ChatFacts.

(** C5, with the condition the code puts on it: the arguments of the
    invocation are decoded before its name is looked at. A tool invocation
    whose name is none of the four and whose arguments are JSON is answered
    by the dict with the key error and the text "Unknown function", without
    a request to any provider and without an exception; the handler then
    makes the second model call, whose messages end with that dict,
    serialized, as the result of the tool, and replies with what the model
    answers. When the arguments are no JSON, the request ends with 500 and
    the text of the decoding error after the first model call, whatever
    the name. *)
Theorem unknown_tool_reported {W : World}
    post_data messages assistant_message tool_call rest :
  first_reply post_data messages assistant_message ->
  tool_calls assistant_message = Some (tool_call :: rest) ->
  ~ In (function_name tool_call) tool_names ->
  let unknown := FR_error (JStr "Unknown function") in
  let messages' := with_tool_result messages assistant_message tool_call unknown in
  (forall args,
      json_loads (function_arguments tool_call) = Ok args ->
      dispatch (function_name tool_call) args = ([], Ok unknown)
      /\ fst (handle_chat post_data) = [EvChat messages true; EvChat messages' false]
      /\ last messages' (SystemTurn EmptyString)
         = ToolTurn (tool_call_id tool_call) (json_dumps unknown)
      /\ snd (handle_chat post_data)
         = Ok match (final_response <- chat_create messages' false ;;
                     first_message final_response) with
              | Ok final_message => Reply200 (content final_message) None
              | Raise e => server_error e
              end)
  /\ (forall e,
         json_loads (function_arguments tool_call) = Raise e ->
         handle_chat post_data = ([EvChat messages true], Ok (server_error e))).
Proof.
  intros Hreply Hcalls Hname unknown messages'. split.
  - intros args Hargs.
    pose proof (dispatch_unknown _ args Hname) as Hdispatch.
    rewrite (handle_chat_reply _ _ _ Hreply), Hcalls.
    rewrite (run_tool_call_dispatched _ _ _ _ Hargs), Hdispatch.
    cbn [fst snd is_list app].
    fold unknown. fold messages'.
    split; [reflexivity|]. split; [reflexivity|]. split.
    + unfold messages', with_tool_result.
      match goal with
      | |- last (?m ++ [?a; ?b])%list _ = _ =>
          change (m ++ [a; b])%list with (m ++ [a] ++ [b])%list
      end.
      rewrite app_assoc. apply last_last.
    + destruct (chat_create messages' false) as [final|]; [|reflexivity].
      cbn [rbind]. now destruct (first_message final).
  - intros e Hargs.
    rewrite (handle_chat_reply _ _ _ Hreply), Hcalls.
    unfold run_tool_call. rewrite mbind_lift, Hargs. reflexivity.
Qed.

Lemma unknown_tool_reported_witness :
  let W := Sample.world [Sample.call "play_trailer" Sample.no_arguments]
             (Raise Sample.timeout) in
  exists messages assistant_message,
    first_reply (W := W) Sample.body messages assistant_message
    /\ fst (handle_chat (W := W) Sample.body)
       = [EvChat messages true;
          EvChat (messages ++
                  [AssistantToolCall None "call_1" "play_trailer" Sample.no_arguments;
                   ToolTurn "call_1" "{error: Unknown function}"]) false]
    /\ snd (handle_chat (W := W) Sample.body)
       = Ok (Reply200 (Some "Found some films with that warm feeling.") None).
Proof.
  intros W.
  assert (Hreply : first_reply (W := W) Sample.body
            [SystemTurn "You're Cineco";
             HistoryTurn (JDict [("role", JStr "user"); ("content", JStr "cozy")])]
            {| content := None;
               tool_calls := Some [Sample.call "play_trailer" Sample.no_arguments] |}).
  { do 4 eexists. repeat split; reflexivity. }
  assert (Hname : ~ In (function_name (Sample.call "play_trailer" Sample.no_arguments))
                       tool_names).
  { simpl. intros [H|[H|[H|[H|[]]]]]; discriminate. }
  do 2 eexists. split; [exact Hreply|].
  destruct (proj1 (unknown_tool_reported (W := W) _ _ _ _ _
                     Hreply eq_refl Hname) (JDict []) eq_refl)
    as (_ & Hlog & _ & Hres).
  split; [exact Hlog | exact Hres].
Defined.

(** C5 does not hold for every invocation with an unknown name: the
    arguments are decoded before the name is looked at. The model asks for
    [play_trailer] with arguments that are no JSON; the handler makes the
    first model call only, feeds nothing back and answers 500 with the text
    of the decoding error. *)
Lemma unknown_tool_undecodable_counterexample :
  ~ In (function_name Sample.unknown_call) tool_names
  /\ first_reply (W := Sample.reader_world [Sample.unknown_call]
                         (Raise Sample.timeout))
       Sample.body Sample.first_messages (Sample.asks [Sample.unknown_call])
  /\ json_loads (World := Sample.reader_world [Sample.unknown_call]
                            (Raise Sample.timeout))
       (function_arguments Sample.unknown_call)
     = Raise (Exn JSONDecodeError "Expecting value")
  /\ handle_chat (W := Sample.reader_world [Sample.unknown_call]
                         (Raise Sample.timeout)) Sample.body
     = ([EvChat Sample.first_messages true],
        Ok (ReplyError 500 "Server error: Expecting value"))
  /\ chats (fst (handle_chat (W := Sample.reader_world [Sample.unknown_call]
                                    (Raise Sample.timeout)) Sample.body))
     = 1%nat.
Proof.
  split; [simpl; intros [H|[H|[H|[H|[]]]]]; discriminate|].
  split; [do 4 eexists; repeat split; reflexivity|].
  split; [reflexivity|]. split; reflexivity.
Qed.

(** ** The data field of the reply *)

Section Data.
Context {W : World}.

Lemma get_item_details_not_list identifier function_response :
  snd (get_item_details identifier) = Ok function_response ->
  is_list function_response = false.
Proof.
  destruct (get_item_details_run identifier) as (url & params & k & -> & Hk).
  simpl. intros [= <-].
  destruct (http_get url params) as [data|]; [|reflexivity]. simpl.
  destruct (k data) as [r|] eqn:E; [|reflexivity].
  destruct (Hk _ _ E) as [details ->]. reflexivity.
Qed.

Lemma run_tool_call_data messages assistant_message tool_call response data :
  snd (run_tool_call messages assistant_message tool_call)
  = Ok (Reply200 response (Some data)) ->
  is_list data = true.
Proof.
  destruct (json_loads (function_arguments tool_call)) as [args|e] eqn:Hargs.
  - rewrite (run_tool_call_dispatched _ _ _ _ Hargs). cbv zeta.
    destruct (snd (dispatch _ args)) as [fr|]; [|discriminate]. cbn [snd].
    destruct (chat_create _ false) as [final|]; [|discriminate]. cbn [rbind].
    destruct (first_message final); [|discriminate]. cbn [rbind].
    destruct (is_list fr) eqn:L; [|discriminate]. now intros [= _ <-].
  - unfold run_tool_call. now rewrite mbind_lift, Hargs.
Qed.
End Data.

(** C8: after a tool call the reply carries the text of the second model
    reply, and as data the value of the tool exactly when that value is
    a list, null otherwise; a reply without tool call has null data. The
    details of an item and the error dicts are no lists, so they are
    never the data. *)
Theorem data_is_list_or_null {W : World} post_data messages assistant_message :
  first_reply post_data messages assistant_message ->
  (forall tool_call rest args function_response final_response final_message,
      tool_calls assistant_message = Some (tool_call :: rest) ->
      json_loads (function_arguments tool_call) = Ok args ->
      snd (dispatch (function_name tool_call) args) = Ok function_response ->
      chat_create (with_tool_result messages assistant_message tool_call
                     function_response) false = Ok final_response ->
      first_message final_response = Ok final_message ->
      snd (handle_chat post_data)
      = Ok (Reply200 (content final_message)
              (if is_list function_response then Some function_response
               else None)))
  /\ (tool_calls assistant_message = None \/ tool_calls assistant_message = Some [] ->
      snd (handle_chat post_data) = Ok (Reply200 (content assistant_message) None))
  /\ (forall response data,
         snd (handle_chat post_data) = Ok (Reply200 response (Some data)) ->
         is_list data = true)
  /\ (forall details, is_list (FR_details details) = false)
  /\ (forall message, is_list (FR_error message) = false)
  /\ (forall identifier function_response,
         snd (get_item_details identifier) = Ok function_response ->
         is_list function_response = false).
Proof.
  intros Hreply. rewrite (handle_chat_reply _ _ _ Hreply).
  split; [|split; [|split; [|split; [|split]]]].
  - intros tool_call rest args fr final fm Hcalls Hargs Hdispatch Hchat Hfirst.
    rewrite Hcalls. cbn [snd].
    rewrite (run_tool_call_dispatched _ _ _ _ Hargs). cbv zeta.
    rewrite Hdispatch. cbn [snd]. rewrite Hchat. cbn [rbind].
    now rewrite Hfirst.
  - intros [-> | ->]; reflexivity.
  - intros response data.
    destruct (tool_calls assistant_message) as [[|tool_call rest]|];
      try discriminate.
    cbn [snd].
    destruct (snd (run_tool_call _ _ tool_call)) as [reply|] eqn:E;
      [|discriminate].
    intros [= ->]. exact (run_tool_call_data _ _ _ _ _ E).
  - reflexivity.
  - reflexivity.
  - exact get_item_details_not_list.
Qed.

Lemma data_is_list_or_null_witness :
  let W := Sample.world [Sample.call "curate_quality_movies" Sample.limit_only;
                         Sample.second_call]
             (Ok (Sample.archive_response Sample.docs)) in
  exists messages assistant_message,
    first_reply (W := W) Sample.body messages assistant_message
    /\ snd (handle_chat (W := W) Sample.body)
       = Ok (Reply200 (Some "Found some films with that warm feeling.")
               (Some (FR_movies Sample.curated))).
Proof.
  intros W.
  assert (Hreply : first_reply (W := W) Sample.body
            [SystemTurn "You're Cineco";
             HistoryTurn (JDict [("role", JStr "user"); ("content", JStr "cozy")])]
            {| content := None;
               tool_calls := Some [Sample.call "curate_quality_movies" Sample.limit_only;
                                   Sample.second_call] |}).
  { do 4 eexists. repeat split; reflexivity. }
  do 2 eexists. split; [exact Hreply|].
  destruct (data_is_list_or_null (W := W) _ _ _ Hreply) as (Htool & _).
  refine (Htool _ _ (JDict [("limit", JInt 5)]) (FR_movies Sample.curated)
            _ _ eq_refl eq_refl _ eq_refl eq_refl).
  vm_compute. reflexivity.
Defined.

(** ** The defaults of the curation *)

(** C9: when the arguments of a [curate_quality_movies] invocation leave
    out [min_views], the handler calls the curation with 10000; when they
    leave out [limit], with 20. Called without arguments, the curation
    itself takes 5000 and 20, and the request it sends differs from the
    one of the chat path. *)
Theorem curation_defaults {W : World} :
  (forall kv limit,
      lookup "min_views" kv = None ->
      get (JDict kv) "limit" (JInt 20) = Ok limit ->
      dispatch "curate_quality_movies" (JDict kv)
      = curate_quality_movies (Some (JInt 10000)) (Some limit))
  /\ (forall kv min_views,
         lookup "limit" kv = None ->
         get (JDict kv) "min_views" (JInt 10000) = Ok min_views ->
         dispatch "curate_quality_movies" (JDict kv)
         = curate_quality_movies (Some min_views) (Some (JInt 20)))
  /\ curate_quality_movies None None
     = curate_quality_movies (Some (JInt 5000)) (Some (JInt 20))
  /\ fst (curate_quality_movies None None)
     <> fst (dispatch "curate_quality_movies" (JDict [])).
Proof.
  assert (Hchat : forall kv limit,
             lookup "min_views" kv = None ->
             get (JDict kv) "limit" (JInt 20) = Ok limit ->
             dispatch "curate_quality_movies" (JDict kv)
             = curate_quality_movies (Some (JInt 10000)) (Some limit)).
  { intros kv limit Hmin Hlimit. unfold dispatch.
    cbn [String.eqb Ascii.eqb Bool.eqb].
    cbn [get] in Hlimit |- *. injection Hlimit as <-.
    rewrite mbind_lift, Hmin, mbind_lift. reflexivity. }
  split; [exact Hchat|]. split; [|split].
  - intros kv min_views Hlimit Hmin. unfold dispatch.
    cbn [String.eqb Ascii.eqb Bool.eqb].
    cbn [get] in Hmin |- *. injection Hmin as <-.
    rewrite mbind_lift, mbind_lift, Hlimit. reflexivity.
  - reflexivity.
  - rewrite (Hchat [] (JInt 20) eq_refl eq_refl).
    unfold curate_quality_movies. rewrite !guarded_request. cbn [fst].
    intros H. injection H as H. vm_compute in H. discriminate.
Qed.

Lemma curation_defaults_witness :
  lookup "min_views" [("limit", JInt 5)] = None
  /\ dispatch (W := Sample.archive_world) "curate_quality_movies"
       (JDict [("limit", JInt 5)])
     = curate_quality_movies (W := Sample.archive_world)
         (Some (JInt 10000)) (Some (JInt 5)).
Proof.
  split; [reflexivity|].
  exact (proj1 (curation_defaults (W := Sample.archive_world))
           [("limit", JInt 5)] (JInt 5) eq_refl eq_refl).
Defined.

(** ** One tool invocation per reply *)

Section OneInvocation.
Context {W : World}.

Lemma gets_app l1 l2 : gets (l1 ++ l2) = (gets l1 + gets l2)%nat.
Proof. unfold gets. now rewrite filter_app, length_app. Qed.

Lemma lifted_then {A} (r : result A) (f : A -> M function_response) :
  (forall a, gets (fst (f a)) <= 1)%nat ->
  (gets (fst (mbind (lift r) f)) <= 1)%nat.
Proof. intros H. rewrite mbind_lift. destruct r; [apply H | unfold gets; simpl; lia]. Qed.

(** A tool invocation makes at most one request. *)
Lemma dispatch_gets name args : (gets (fst (dispatch name args)) <= 1)%nat.
Proof.
  unfold dispatch.
  destruct (String.eqb name "search_archive").
  { apply lifted_then. intros query.
    destruct (search_archive_run query) as (? & ? & ->). unfold gets; simpl; lia. }
  destruct (String.eqb name "get_item_details").
  { apply lifted_then. intros identifier.
    destruct (get_item_details_run identifier) as (? & ? & ? & -> & _). unfold gets; simpl; lia. }
  destruct (String.eqb name "curate_quality_movies").
  { apply lifted_then. intros min_views. apply lifted_then. intros limit.
    destruct (curate_quality_movies_run (Some min_views) (Some limit))
      as (? & ? & ->). unfold gets; simpl; lia. }
  destruct (String.eqb name "search_youtube").
  { apply lifted_then. intros query. apply lifted_then. intros max_results.
    destruct (search_youtube_run query (Some max_results)) as (? & ? & ->).
    unfold gets; simpl; lia. }
  unfold gets; simpl; lia.
Qed.

Lemma run_tool_call_gets messages assistant_message tool_call :
  (gets (fst (run_tool_call messages assistant_message tool_call)) <= 1)%nat.
Proof.
  destruct (json_loads (function_arguments tool_call)) as [args|e] eqn:Hargs.
  - rewrite (run_tool_call_dispatched _ _ _ _ Hargs). cbv zeta.
    pose proof (dispatch_gets (function_name tool_call) args) as H.
    destruct (snd (dispatch _ args)); cbn [fst]; [|exact H].
    rewrite gets_app. change (gets [EvChat _ false]) with 0%nat. lia.
  - unfold run_tool_call. rewrite mbind_lift, Hargs. unfold gets; simpl; lia.
Qed.

(** A chat request makes at most one request to a provider. *)
Lemma handle_chat_gets post_data : (gets (fst (handle_chat post_data)) <= 1)%nat.
Proof.
  unfold handle_chat. rewrite try_except_mret. cbn [fst].
  rewrite mbind_lift. destruct (json_loads post_data); [|unfold gets; simpl; lia].
  rewrite mbind_lift. destruct (get _ "message" _); [|unfold gets; simpl; lia].
  rewrite mbind_lift. destruct (get _ "history" _); [|unfold gets; simpl; lia].
  destruct (negb _); [unfold gets; simpl; lia|].
  rewrite mbind_lift.
  destruct (if truthy _ then _ else _) as [messages|]; [|unfold gets; simpl; lia].
  unfold completions_create. rewrite mbind_logged.
  destruct (chat_create messages true) as [response|]; [|unfold gets; simpl; lia].
  rewrite mbind_lift. cbn [fst].
  destruct (first_message response) as [assistant_message|]; [|unfold gets; simpl; lia].
  destruct (tool_calls assistant_message) as [[|tool_call rest]|];
    try (unfold gets; simpl; lia).
  rewrite gets_app. change (gets [EvChat messages true]) with 0%nat.
  apply run_tool_call_gets.
Qed.
End OneInvocation.

Lemma dispatch_one_invocation (W : World) name args :
  dispatch (W := one_invocation W) name args = dispatch (W := W) name args.
Proof. reflexivity. Qed.

Lemma first_message_one_invocation response :
  first_message {| choices := map first_invocation_only (choices response) |}
  = (m <- first_message response ;; Ok (first_invocation_only m)).
Proof. unfold first_message. cbn [choices]. now destruct (choices response). Qed.

Lemma run_tool_call_one_invocation (W : World) messages assistant_message tool_call :
  run_tool_call (W := one_invocation W) messages
    (first_invocation_only assistant_message) tool_call
  = run_tool_call (W := W) messages assistant_message tool_call.
Proof.
  unfold run_tool_call.
  change (@json_loads (one_invocation W)) with (@json_loads W).
  change (@json_dumps (one_invocation W)) with (@json_dumps W).
  rewrite !mbind_lift.
  destruct (json_loads (function_arguments tool_call)) as [args|]; [|reflexivity].
  rewrite dispatch_one_invocation.
  destruct (dispatch (function_name tool_call) args) as [log [fr|e]];
    rewrite !mbind_logged; [|reflexivity].
  cbn [content first_invocation_only].
  unfold completions_create. rewrite !mbind_logged.
  change (@chat_create (one_invocation W))
    with (fun messages with_tools =>
            response <- @chat_create W messages with_tools ;;
            Ok {| choices := map first_invocation_only (choices response) |}).
  cbv beta.
  destruct (chat_create _ false) as [final|]; [|reflexivity].
  cbn [rbind]. rewrite !mbind_lift, first_message_one_invocation.
  now destruct (first_message final).
Qed.

(** C7: the handler runs the first tool invocation of a reply and no
    other. Whatever invocations follow the first, the requests made and the
    reply sent are those of the world in which the model had returned the
    first one alone; a chat request makes at most one request to a
    provider; and after a reply with invocations the handler continues
    with [run_tool_call] on entry 0. *)
Theorem first_invocation_only_dispatched {W : World} post_data :
  handle_chat (W := one_invocation W) post_data = handle_chat (W := W) post_data
  /\ (gets (fst (handle_chat post_data)) <= 1)%nat
  /\ forall messages assistant_message tool_call rest,
      first_reply post_data messages assistant_message ->
      tool_calls assistant_message = Some (tool_call :: rest) ->
      let run := run_tool_call messages assistant_message tool_call in
      handle_chat post_data
      = (EvChat messages true :: fst run,
         Ok match snd run with Ok reply => reply | Raise e => server_error e end).
Proof.
  split; [|split].
  - unfold handle_chat. rewrite !try_except_mret.
    change (@json_loads (one_invocation W)) with (@json_loads W).
    change (@system_prompt (one_invocation W)) with (@system_prompt W).
    rewrite !mbind_lift.
    destruct (json_loads post_data) as [data|]; [|reflexivity].
    rewrite !mbind_lift.
    destruct (get data "message" _) as [user_message|]; [|reflexivity].
    rewrite !mbind_lift.
    destruct (get data "history" _) as [history|]; [|reflexivity].
    destruct (negb (truthy user_message)); [reflexivity|].
    rewrite !mbind_lift.
    destruct (if truthy history then _ else _) as [messages|]; [|reflexivity].
    unfold completions_create. rewrite !mbind_logged.
    change (@chat_create (one_invocation W))
      with (fun messages with_tools =>
              response <- @chat_create W messages with_tools ;;
              Ok {| choices := map first_invocation_only (choices response) |}).
    cbv beta.
    destruct (chat_create messages true) as [response|]; [|reflexivity].
    cbn [rbind]. rewrite !mbind_lift, first_message_one_invocation.
    destruct (first_message response) as [assistant_message|]; [|reflexivity].
    cbn [rbind tool_calls first_invocation_only].
    destruct (tool_calls assistant_message) as [[|tool_call rest]|];
      try reflexivity.
    cbn [option_map firstn].
    change {| content := content assistant_message;
              tool_calls := Some [tool_call] |}
      with (first_invocation_only
              {| content := content assistant_message;
                 tool_calls := Some [tool_call] |}).
    rewrite run_tool_call_one_invocation.
    reflexivity.
  - apply handle_chat_gets.
  - intros messages assistant_message tool_call rest Hreply Hcalls.
    rewrite (handle_chat_reply _ _ _ Hreply), Hcalls. reflexivity.
Qed.

Lemma first_invocation_only_dispatched_witness :
  let first := Sample.call "curate_quality_movies" Sample.limit_only in
  let W := Sample.world [first; Sample.second_call]
             (Ok (Sample.archive_response Sample.docs)) in
  exists messages assistant_message,
    first_reply (W := W) Sample.body messages assistant_message
    /\ tool_calls assistant_message = Some [first; Sample.second_call]
    /\ handle_chat (W := W) Sample.body
       = (EvChat messages true
            :: fst (run_tool_call (W := W) messages assistant_message first),
          Ok match snd (run_tool_call (W := W) messages assistant_message first) with
             | Ok reply => reply
             | Raise e => server_error e
             end)
    /\ gets (fst (handle_chat (W := W) Sample.body)) = 1%nat.
Proof.
  intros first W.
  assert (Hreply : first_reply (W := W) Sample.body
            [SystemTurn "You're Cineco";
             HistoryTurn (JDict [("role", JStr "user"); ("content", JStr "cozy")])]
            {| content := None;
               tool_calls := Some [first; Sample.second_call] |}).
  { do 4 eexists. repeat split; reflexivity. }
  do 2 eexists. split; [exact Hreply|]. split; [reflexivity|].
  split; [|vm_compute; reflexivity].
  exact (proj2 (proj2 (first_invocation_only_dispatched (W := W) Sample.body))
           _ _ _ _ Hreply eq_refl).
Defined.

(** * Further properties *)

(** ** The content filter, tag by tag *)

Lemma str_has_append c a b : str_has c (a ++ b) = str_has c a || str_has c b.
Proof. induction a as [|x a IH]; simpl; [reflexivity|]. now rewrite IH, orb_assoc. Qed.

(** A text without the separator that starts [a ++ c ++ b] starts [a]. *)
Lemma prefix_before_separator c k : forall a b y,
  str_has c k = false -> k ++ y = a ++ String c b -> exists r, a = k ++ r.
Proof.
  induction k as [|x k IH]; intros a b y N E.
  - exists a. reflexivity.
  - simpl in N. apply orb_false_iff in N. destruct N as [Nx Nk].
    destruct a as [|x' a]; simpl in E; injection E as -> E.
    + now rewrite Ascii.eqb_refl in Nx.
    + destruct (IH _ _ _ Nk E) as [r ->]. exists r. reflexivity.
Qed.

(** A text without the separator occurs on one side of it. *)
Lemma occurs_separated c k : forall a b,
  str_has c k = false ->
  occurs k (a ++ String c b) -> occurs k a \/ occurs k b.
Proof.
  intros a. induction a as [|x a IH]; intros b N (u & v & E).
  - destruct u as [|x' u]; simpl in E.
    + destruct k as [|y k]; [left; exists EmptyString, EmptyString; reflexivity|].
      simpl in E, N. injection E as <- _. now rewrite Ascii.eqb_refl in N.
    + injection E as _ E. right. exists u, v. exact E.
  - destruct u as [|x' u]; simpl in E.
    + destruct (prefix_before_separator c k (String x a) b v N (eq_sym E)) as [r Hr].
      left. exists EmptyString, r. exact Hr.
    + injection E as <- E.
      destruct (IH b N (ex_intro _ u (ex_intro _ v E))) as [(u' & v' & ->)|R].
      * left. exists (String x u'), v'. reflexivity.
      * right. exact R.
Qed.

Lemma occurs_append_r k a b : occurs k b -> occurs k (a ++ b).
Proof.
  intros (x & y & ->). exists (a ++ x), y. now rewrite append_assoc.
Qed.

Lemma occurs_empty k : occurs k EmptyString -> k = EmptyString.
Proof.
  intros ([|x u] & v & E); [|discriminate].
  destruct k; [reflexivity | discriminate].
Qed.

(** Joining with a separator neither makes nor loses an occurrence of a
    text that is not empty and has no separator in it. *)
Lemma occurs_concat c k ss :
  k <> EmptyString -> str_has c k = false ->
  occurs k (String.concat (String c EmptyString) ss)
  <-> exists s, In s ss /\ occurs k s.
Proof.
  intros Ne N. induction ss as [|x [|y ss] IH].
  - simpl. split; [intros H; apply occurs_empty in H; contradiction|].
    intros (s & [] & _).
  - simpl. split; [intros H; exists x; auto|].
    intros (s & [<-|[]] & H). exact H.
  - change (String.concat (String c EmptyString) (x :: y :: ss))
      with (x ++ String c (String.concat (String c EmptyString) (y :: ss))).
    split.
    + intros H. destruct (occurs_separated _ _ _ _ N H) as [L|R].
      * exists x. split; [now left | exact L].
      * apply IH in R. destruct R as (s & I & O). exists s. split; [now right | exact O].
    + intros (s & [<-|I] & O).
      * now apply occurs_append_l.
      * apply (occurs_append_r k x (String c _)).
        apply (occurs_append_r k (String c EmptyString)).
        apply IH. exists s. auto.
Qed.

Lemma lower_concat ss :
  lower (String.concat " " ss) = String.concat " " (map lower ss).
Proof.
  induction ss as [|x [|y ss] IH]; [reflexivity | reflexivity |].
  change (String.concat " " (x :: y :: ss))
    with (x ++ " " ++ String.concat " " (y :: ss)).
  rewrite !lower_append, IH. reflexivity.
Qed.

Lemma str_in_concat k ss :
  k <> EmptyString -> str_has " " k = false ->
  str_in k (lower (String.concat " " ss))
  = existsb (fun s => str_in k (lower s)) ss.
Proof.
  intros Ne N. rewrite lower_concat. apply eq_true_iff_eq.
  rewrite str_in_occurs, (occurs_concat " "%char k) by assumption.
  rewrite existsb_exists. split.
  - intros (s & I & O). apply in_map_iff in I. destruct I as (t & <- & I).
    exists t. split; [exact I | now apply str_in_occurs].
  - intros (t & I & O). exists (lower t).
    split; [now apply in_map | now apply str_in_occurs].
Qed.

Lemma existsb_swap {A B} (f : A -> B -> bool) la lb :
  existsb (fun a => existsb (f a) lb) la
  = existsb (fun b => existsb (fun a => f a b) la) lb.
Proof.
  apply eq_true_iff_eq. rewrite !existsb_exists. split.
  - intros (a & Ia & H). apply existsb_exists in H. destruct H as (b & Ib & H).
    exists b. split; [exact Ib|]. apply existsb_exists. eauto.
  - intros (b & Ib & H). apply existsb_exists in H. destruct H as (a & Ia & H).
    exists a. split; [exact Ia|]. apply existsb_exists. eauto.
Qed.

(** X1: the filter decides tag by tag. For a subject that is a list of
    strings, a record is dropped exactly when one of its tags holds one of
    the keywords; joining the tags with spaces makes no match that no tag
    has. A subject that is one string counts as its only tag. *)
Theorem filter_decides_per_tag d :
  (forall l tags,
      get d "subject" (JList []) = Ok (JList l) ->
      as_strings l = Ok tags ->
      flagged d = Ok (existsb tag_has_keyword tags))
  /\ (forall tag,
         get d "subject" (JList []) = Ok (JStr tag) ->
         flagged d = Ok (tag_has_keyword tag)).
Proof.
  assert (H : forall l tags, as_strings l = Ok tags ->
              has_adult_keyword (JList l) = Ok (existsb tag_has_keyword tags)).
  { intros l tags Htags. unfold has_adult_keyword, join_space.
    cbn [iterate rbind]. rewrite Htags. cbn [rbind]. f_equal.
    unfold tag_has_keyword. rewrite <- existsb_swap.
    unfold adult_keywords. cbn [existsb].
    rewrite !str_in_concat by (try discriminate; reflexivity).
    reflexivity. }
  split.
  - intros l tags Hget Htags. unfold flagged. rewrite Hget. cbn [rbind].
    now apply H.
  - intros tag Hget. unfold flagged. rewrite Hget. cbn [rbind coerce_subjects].
    rewrite (H [JStr tag] [tag] eq_refl). cbn [existsb]. now rewrite orb_false_r.
Qed.

Lemma filter_decides_per_tag_witness :
  get Sample.doc_flagged "subject" (JList [])
  = Ok (JList [JStr "Comedy"; JStr "ADULT humour"])
  /\ flagged Sample.doc_flagged
     = Ok (existsb tag_has_keyword ["Comedy"; "ADULT humour"])
  /\ tag_has_keyword "Comedy" = false
  /\ tag_has_keyword "ADULT humour" = true.
Proof.
  split; [reflexivity|]. split; [|split; reflexivity].
  exact (proj1 (filter_decides_per_tag Sample.doc_flagged) _ _ eq_refl eq_refl).
Defined.

(** ** Descriptions of any length *)

Lemma str_take_all n s : (String.length s <= n)%nat -> str_take n s = s.
Proof.
  revert s. induction n as [|n IH]; intros [|c s] H; simpl in *;
    try reflexivity; try lia.
  rewrite IH; [reflexivity | lia].
Qed.

Lemma str_take_length_min n s :
  String.length (str_take n s) = Nat.min n (String.length s).
Proof.
  revert s. induction n as [|n IH]; intros [|c s]; simpl; try reflexivity.
  now rewrite IH.
Qed.

Lemma length_append (a b : string) :
  String.length (a ++ b) = (String.length a + String.length b)%nat.
Proof. induction a; simpl; congruence. Qed.

(** X2: the three dots follow every description that is there, also one
    that was not cut: a description of at most 200 characters comes back
    whole with "..." after it, and in general the result is 3 characters
    longer than the shorter of the description and 200. The empty
    description counts as missing. *)
Theorem ellipsis_always_appended d default s :
  get d "description" JNull = Ok (JStr s) ->
  (s = EmptyString ->
   describe d default = Ok (JStr "No description available"))
  /\ (s <> EmptyString ->
      exists text,
        describe d default = Ok (JStr text)
        /\ String.length text = (Nat.min 200 (String.length s) + 3)%nat
        /\ ((String.length s <= 200)%nat -> text = s ++ "...")).
Proof.
  intros H. split.
  - intros ->. unfold describe. now rewrite H.
  - intros N. exists (str_take 200 s ++ "...").
    split; [now apply describe_text|]. split.
    + now rewrite length_append, str_take_length_min.
    + intros L. now rewrite str_take_all.
Qed.

Lemma ellipsis_always_appended_witness :
  get Sample.doc_classic "description" JNull
  = Ok (JStr "A group of people hide from the living dead in a farmhouse.")
  /\ describe Sample.doc_classic (JStr "No description available")
     = Ok (JStr "A group of people hide from the living dead in a farmhouse....").
Proof.
  split; [reflexivity|].
  destruct (proj2 (ellipsis_always_appended Sample.doc_classic
                     (JStr "No description available") _ eq_refl))
    as (text & Hd & _ & Hshort); [discriminate|].
  rewrite Hd, Hshort; [reflexivity | vm_compute; lia].
Defined.

(** ** A record that cannot be normalized *)

(** X3: no partial result. When a record of the answer cannot be
    normalized and the records before it can, archive search, curation and
    video search return the error dict with the text of the exception that
    this record raised: the first exception of the loop. None of the items
    of the records before it is returned, and the records after it are not
    looked at. *)
Theorem no_partial_results {W : World} query min_views limit max_results data :
  (forall before d after e,
      answered (search_archive query) data ->
      provider_docs data = Ok (before ++ d :: after)%list ->
      Forall (fun x => exists o, archive_result x = Ok o) before ->
      archive_result d = Raise e ->
      snd (search_archive query) = Ok (FR_error (JStr (exn_str e))))
  /\ (forall before d after e,
         answered (curate_quality_movies min_views limit) data ->
         provider_docs data = Ok (before ++ d :: after)%list ->
         Forall (fun x => exists o, curated_movie x = Ok o) before ->
         curated_movie d = Raise e ->
         snd (curate_quality_movies min_views limit)
         = Ok (FR_error (JStr (exn_str e))))
  /\ (forall items_value before item after e,
         answered (search_youtube query max_results) data ->
         contains "error" data = Ok false ->
         get data "items" (JList []) = Ok items_value ->
         iterate items_value = Ok (before ++ item :: after)%list ->
         Forall (fun x => exists o, video_result x = Ok o) before ->
         video_result item = Raise e ->
         snd (search_youtube query max_results)
         = Ok (FR_error (JStr (exn_str e)))).
Proof.
  split; [|split].
  - intros before d after e Hans Hdocs Hbefore He.
    rewrite (search_archive_answered _ _ Hans), Hdocs. cbn [rbind].
    now rewrite (collect_first_raise _ _ _ after _ Hbefore He).
  - intros before d after e Hans Hdocs Hbefore He.
    rewrite (curate_quality_movies_answered _ _ _ Hans), Hdocs. cbn [rbind].
    now rewrite (collect_first_raise _ _ _ after _ Hbefore He).
  - intros items_value before item after e Hans Herr Hget Hiter Hbefore He.
    rewrite (search_youtube_answered _ _ _ Hans), Herr. cbn [rbind].
    rewrite Hget. cbn [rbind]. rewrite Hiter. cbn [rbind].
    now rewrite (collect_first_raise _ _ _ after _ Hbefore He).
Qed.

Lemma no_partial_results_witness :
  answered (W := Sample.mixed_world)
    (search_archive (W := Sample.mixed_world) (JStr "cozy"))
    (Sample.archive_response [Sample.doc_classic; Sample.doc_listed])
  /\ (exists x, archive_result (W := Sample.mixed_world) Sample.doc_classic
                = Ok (Some x))
  /\ archive_result (W := Sample.mixed_world) Sample.doc_listed
     = Raise (Exn TypeError ("can only concatenate list (not " ++ quoted "str"
                             ++ ") to list"))
  /\ snd (search_archive (W := Sample.mixed_world) (JStr "cozy"))
     = Ok (FR_error (JStr ("can only concatenate list (not " ++ quoted "str"
                           ++ ") to list"))).
Proof.
  assert (Hans : answered (W := Sample.mixed_world)
                   (search_archive (W := Sample.mixed_world) (JStr "cozy"))
                   (Sample.archive_response [Sample.doc_classic; Sample.doc_listed]))
    by (do 2 eexists; split; reflexivity).
  assert (Hfirst : exists x,
             archive_result (W := Sample.mixed_world) Sample.doc_classic
             = Ok (Some x))
    by (eexists; vm_compute; reflexivity).
  assert (Hbad : archive_result (W := Sample.mixed_world) Sample.doc_listed
                 = Raise (Exn TypeError
                            ("can only concatenate list (not " ++ quoted "str"
                             ++ ") to list")))
    by reflexivity.
  split; [exact Hans|]. split; [exact Hfirst|]. split; [exact Hbad|].
  refine (proj1 (no_partial_results (W := Sample.mixed_world)
                   (JStr "cozy") None None None _)
            [Sample.doc_classic] Sample.doc_listed [] _ Hans eq_refl _ Hbad).
  constructor; [|constructor].
  destruct Hfirst as [x Hx]. exists (Some x). exact Hx.
Defined.

(** ** Descriptions that are no text, fields that are null *)

Lemma describe_raises d default v :
  get d "description" JNull = Ok v -> truthy v = true -> is_str v = false ->
  exists e, describe d default = Raise e.
Proof.
  intros Hget Ht Hs. unfold describe. rewrite Hget. cbn [rbind]. rewrite Ht.
  destruct d as [ | | | | | |kv]; try discriminate. cbn [get] in *.
  destruct (lookup "description" kv) as [v'|].
  - injection Hget as ->. cbn [rbind].
    destruct v as [ |b|n|f|s|l|kv']; try discriminate; cbn; unfold type_error; eauto.
  - injection Hget as <-. discriminate.
Qed.

Section BadRecords.
Context {W : World}.

Lemma archive_result_bad_description d v :
  flagged d = Ok false ->
  get d "description" JNull = Ok v -> truthy v = true -> is_str v = false ->
  exists e, archive_result d = Raise e.
Proof.
  intros Hflag Hget Ht Hs.
  destruct (describe_raises d (JStr "No description available") v Hget Ht Hs)
    as [e He].
  unfold flagged in Hflag. unfold archive_result.
  destruct (get d "subject" _) as [subject|]; [|discriminate]. cbn [rbind] in *.
  rewrite Hflag. cbn [rbind].
  destruct d as [ | | | | | |kv]; try discriminate. cbn [get rbind].
  rewrite He. cbn [rbind]. eauto.
Qed.

Lemma curated_movie_bad_description d v :
  flagged d = Ok false ->
  get d "description" JNull = Ok v -> truthy v = true -> is_str v = false ->
  exists e, curated_movie d = Raise e.
Proof.
  intros Hflag Hget Ht Hs.
  destruct (describe_raises d (JStr "No description available") v Hget Ht Hs)
    as [e He].
  unfold flagged in Hflag. unfold curated_movie.
  destruct (get d "subject" _) as [subject|]; [|discriminate]. cbn [rbind] in *.
  rewrite Hflag. cbn [rbind].
  destruct d as [ | | | | | |kv]; try discriminate. cbn [get rbind].
  destruct (weighted_sum _ _ _); cbn [rbind]; [|eauto].
  rewrite He. cbn [rbind]. eauto.
Qed.
End BadRecords.

(** X4: a description that is there but is no string (a list of
    paragraphs, a number, a dict) cannot be cut and extended: unless the
    filter drops the record first, its normalization raises, and an archive
    search or a curation whose answer holds such a record returns an error
    dict. *)
Theorem description_must_be_text {W : World} query min_views limit data docs d v :
  provider_docs data = Ok docs -> In d docs ->
  flagged d = Ok false ->
  get d "description" JNull = Ok v -> truthy v = true -> is_str v = false ->
  (exists e, archive_result d = Raise e)
  /\ (exists e, curated_movie d = Raise e)
  /\ (answered (search_archive query) data ->
      exists message, snd (search_archive query) = Ok (FR_error message))
  /\ (answered (curate_quality_movies min_views limit) data ->
      exists message,
        snd (curate_quality_movies min_views limit) = Ok (FR_error message)).
Proof.
  intros Hdocs Hin Hflag Hget Ht Hs.
  destruct (archive_result_bad_description d v Hflag Hget Ht Hs) as [e1 H1].
  destruct (curated_movie_bad_description d v Hflag Hget Ht Hs) as [e2 H2].
  split; [eauto|]. split; [eauto|]. split.
  - intros Hans. rewrite (search_archive_answered _ _ Hans), Hdocs. cbn [rbind].
    destruct (collect_raises _ _ _ _ Hin H1) as (_ & e' & _ & _ & ->).
    cbn. eauto.
  - intros Hans.
    rewrite (curate_quality_movies_answered _ _ _ Hans), Hdocs. cbn [rbind].
    destruct (collect_raises _ _ _ _ Hin H2) as (_ & e' & _ & _ & ->).
    cbn. eauto.
Qed.

Lemma description_must_be_text_witness :
  provider_docs (Sample.archive_response [Sample.doc_classic; Sample.doc_listed])
  = Ok [Sample.doc_classic; Sample.doc_listed]
  /\ flagged Sample.doc_listed = Ok false
  /\ get Sample.doc_listed "description" JNull
     = Ok (JList [JStr "First."; JStr "Second."])
  /\ exists message,
      snd (search_archive (W := Sample.mixed_world) (JStr "cozy"))
      = Ok (FR_error message).
Proof.
  split; [reflexivity|]. split; [reflexivity|]. split; [reflexivity|].
  destruct (description_must_be_text (W := Sample.mixed_world)
              (JStr "cozy") None None
              (Sample.archive_response [Sample.doc_classic; Sample.doc_listed])
              [Sample.doc_classic; Sample.doc_listed] Sample.doc_listed
              (JList [JStr "First."; JStr "Second."])
              eq_refl (or_intror (or_introl eq_refl)) eq_refl eq_refl eq_refl eq_refl)
    as (_ & _ & Hsearch & _).
  apply Hsearch. do 2 eexists; split; reflexivity.
Defined.

(** ** Null is not missing *)

Section NullFields.
Context {W : World}.

Lemma weighted_sum_null dl nr ar :
  dl = JNull \/ nr = JNull \/ ar = JNull ->
  exists e, weighted_sum dl nr ar = Raise e.
Proof.
  intros H. unfold weighted_sum.
  destruct (py_mul dl _) as [a|e] eqn:Ea; [|eexists; reflexivity]. cbn [rbind].
  destruct (py_mul_half _ _ Ea) as [x ->].
  destruct H as [-> | H]; [cbn in Ea; discriminate|].
  destruct (py_mul nr _) as [b|e] eqn:Eb; [|eexists; reflexivity]. cbn [rbind].
  destruct (py_add (JFloat x) b) as [p|e] eqn:Ep; [|eexists; reflexivity]. cbn [rbind].
  destruct H as [-> | ->]; [cbn in Eb; discriminate|].
  cbn [py_mul rbind]. unfold type_error. eexists; reflexivity.
Qed.

Lemma weighted_sum_defaults :
  exists f, weighted_sum (JInt 0) (JInt 0) (JInt 0) = Ok (JFloat f)
            /\ int_of_float f = Ok 0.
Proof. eexists. split; [vm_compute; reflexivity | reflexivity]. Qed.
End NullFields.

(** X5: the default 0 stands in for a field that is absent, not for one
    that is null. A record without downloads, reviews and rating is curated
    with the score 0; a record in which one of the three is null cannot be
    curated, and a record whose rating is null cannot be normalized by the
    archive search either (unless the filter drops it first). *)
Theorem null_is_not_missing {W : World} kv :
  flagged (JDict kv) = Ok false ->
  (forall m,
      lookup "downloads" kv = None -> lookup "num_reviews" kv = None ->
      lookup "avg_rating" kv = None ->
      curated_movie (JDict kv) = Ok (Some m) ->
      quality_score m = 0 /\ downloads m = JInt 0 /\ num_reviews m = JInt 0
      /\ avg_rating m = JInt 0)
  /\ (lookup "downloads" kv = Some JNull \/ lookup "num_reviews" kv = Some JNull
      \/ lookup "avg_rating" kv = Some JNull ->
      exists e, curated_movie (JDict kv) = Raise e)
  /\ (lookup "avg_rating" kv = Some JNull ->
      exists e, archive_result (JDict kv) = Raise e).
Proof.
  intros Hflag. unfold flagged in Hflag. split; [|split].
  - intros m Hd Hn Ha. unfold curated_movie.
    destruct (get (JDict kv) "subject" _) as [subject|]; [|discriminate].
    cbn [rbind] in *. rewrite Hflag. cbn [rbind get]. rewrite Hd, Hn, Ha.
    destruct weighted_sum_defaults as (f & -> & Hint). cbn [rbind truthy Z.eqb negb].
    destruct (describe _ _); [|discriminate]. cbn [rbind].
    destruct (slice_to 5 _); [|discriminate]. cbn [rbind py_int].
    rewrite Hint. cbn [rbind]. intros [= <-]. cbn. auto.
  - intros Hnull. unfold curated_movie.
    destruct (get (JDict kv) "subject" _) as [subject|]; [|discriminate].
    cbn [rbind] in *. rewrite Hflag. cbn [rbind get].
    destruct (weighted_sum_null
                (match lookup "downloads" kv with Some v => v | None => JInt 0 end)
                (match lookup "num_reviews" kv with Some v => v | None => JInt 0 end)
                (match lookup "avg_rating" kv with Some v => v | None => JInt 0 end))
      as [e He].
    { destruct Hnull as [-> | [-> | ->]]; auto. }
    rewrite He. cbn [rbind]. eauto.
  - intros Hnull. unfold archive_result.
    destruct (get (JDict kv) "subject" _) as [subject|]; [|discriminate].
    cbn [rbind] in *. rewrite Hflag. cbn [rbind get].
    destruct (describe _ _); cbn [rbind]; [|eauto].
    rewrite Hnull. cbn. unfold type_error. eauto.
Qed.

Lemma null_is_not_missing_witness :
  flagged Sample.doc_unrated = Ok false
  /\ (exists e, curated_movie (W := Sample.archive_world) Sample.doc_unrated
                = Raise e)
  /\ flagged Sample.doc_bare = Ok false
  /\ forall m, curated_movie (W := Sample.archive_world) Sample.doc_bare
               = Ok (Some m) -> quality_score m = 0.
Proof.
  split; [reflexivity|]. split.
  - exact (proj1 (proj2 (null_is_not_missing (W := Sample.archive_world)
                           [("identifier", JStr "unrated");
                            ("downloads", JInt 12000); ("avg_rating", JNull)]
                           eq_refl))
             (or_intror (or_intror eq_refl))).
  - split; [reflexivity|]. intros m Hm.
    exact (proj1 (proj1 (null_is_not_missing (W := Sample.archive_world)
                           [("identifier", JStr "bare")] eq_refl)
                    m eq_refl eq_refl eq_refl Hm)).
Defined.

(** ** Answers without the expected keys *)


(** X6: an answer that is a dict without the expected key is not an
    error: without [response], or with a [response] without [docs], archive
    search and curation return the empty list; without [items] (and without
    [error]) the video search returns the empty list; and without
    [metadata] and [files] the item lookup returns null title, description
    and year and no files. *)
Theorem missing_keys_give_empty {W : World}
    query min_views limit max_results identifier kv :
  ((lookup "response" kv = None
    \/ exists inner, lookup "response" kv = Some (JDict inner)
                     /\ lookup "docs" inner = None) ->
   (answered (search_archive query) (JDict kv) ->
    snd (search_archive query) = Ok (FR_archive []))
   /\ (answered (curate_quality_movies min_views limit) (JDict kv) ->
       snd (curate_quality_movies min_views limit) = Ok (FR_movies [])))
  /\ (lookup "error" kv = None -> lookup "items" kv = None ->
      answered (search_youtube query max_results) (JDict kv) ->
      snd (search_youtube query max_results) = Ok (FR_videos []))
  /\ (lookup "metadata" kv = None -> lookup "files" kv = None ->
      answered (get_item_details identifier) (JDict kv) ->
      snd (get_item_details identifier)
      = Ok (FR_details {| details_title := JNull;
                          details_description := JNull;
                          details_year := JNull;
                          details_files := [] |})).
Proof.
  split; [|split].
  - intros Hmissing.
    assert (Hdocs : provider_docs (JDict kv) = Ok []).
    { unfold provider_docs. cbn [get].
      destruct Hmissing as [-> | (inner & -> & Hinner)]; cbn [rbind get lookup].
      - reflexivity.
      - now rewrite Hinner. }
    split; intros Hans.
    + now rewrite (search_archive_answered _ _ Hans), Hdocs.
    + now rewrite (curate_quality_movies_answered _ _ _ Hans), Hdocs.
  - intros Herr Hitems Hans.
    rewrite (search_youtube_answered _ _ _ Hans). cbn [contains get].
    rewrite Herr. cbn [rbind]. now rewrite Hitems.
  - intros Hmeta Hfiles Hans.
    rewrite (get_item_details_answered _ _ Hans). cbn [rbind get].
    rewrite Hmeta, Hfiles. reflexivity.
Qed.

Lemma missing_keys_give_empty_witness :
  answered (W := Sample.world [] (Ok (JDict [])))
    (search_archive (W := Sample.world [] (Ok (JDict []))) (JStr "cozy"))
    (JDict [])
  /\ snd (search_archive (W := Sample.world [] (Ok (JDict []))) (JStr "cozy"))
     = Ok (FR_archive []).
Proof.
  assert (Hans : answered (W := Sample.world [] (Ok (JDict [])))
                   (search_archive (W := Sample.world [] (Ok (JDict [])))
                      (JStr "cozy")) (JDict []))
    by (do 2 eexists; split; reflexivity).
  split; [exact Hans|].
  exact (proj1 (proj1 (missing_keys_give_empty (W := Sample.world [] (Ok (JDict [])))
                         (JStr "cozy") None None None JNull [])
                  (or_introl eq_refl)) Hans).
Defined.

(** ** Loops that append for every entry *)

Lemma collect_every {A B} (body : A -> result (option B)) l :
  (forall x, In x l -> exists y, body x = Ok (Some y)) ->
  exists ys, collect body l = Ok ys
             /\ Forall2 (fun x y => body x = Ok (Some y)) l ys.
Proof.
  induction l as [|x l IH]; intros H.
  - exists []. split; [reflexivity | constructor].
  - destruct (H x (or_introl eq_refl)) as [y Hy].
    destruct IH as (ys & Hc & F); [intros z I; apply H; now right|].
    exists (y :: ys). cbn [collect]. rewrite Hy. cbn [rbind]. rewrite Hc.
    split; [reflexivity | now constructor].
Qed.

Lemma appended_every {A B} (body : A -> result (option B)) l outs :
  (forall x o, body x = Ok o -> o <> None) ->
  Forall2 (fun x o => body x = Ok o) l outs ->
  Forall2 (fun x y => body x = Ok (Some y)) l (appended outs).
Proof.
  intros Hsome. induction 1 as [|x o l outs H F IH]; [constructor|].
  destruct o as [y|]; [|now apply Hsome in H].
  cbn [appended]. now constructor.
Qed.

Lemma Forall2_In_right {A B} (R : A -> B -> Prop) l l' y :
  Forall2 R l l' -> In y l' -> exists x, In x l /\ R x y.
Proof.
  induction 1 as [|x y' l l' H F IH]; [contradiction|].
  intros [<-|I]; [exists x; split; [now left | exact H]|].
  destruct (IH I) as (x' & ? & ?). exists x'. split; [now right | assumption].
Qed.

(** ** The subjects of a curated movie *)

(** X7: a curated movie carries at most five subjects: the first five
    tags of its record, all of them strings, in the record's order; a
    subject given as one string is carried as the list of that string. *)
Theorem subjects_capped {W : World} min_views limit curated m :
  snd (curate_quality_movies min_views limit) = Ok (FR_movies curated) ->
  In m curated ->
  exists d l tags,
    curated_movie d = Ok (Some m)
    /\ (get d "subject" (JList []) = Ok (JList l)
        \/ exists s, get d "subject" (JList []) = Ok (JStr s) /\ l = [JStr s])
    /\ as_strings l = Ok tags
    /\ subjects m = JList (firstn 5 l)
    /\ (List.length (firstn 5 l) <= 5)%nat
    /\ ((List.length l <= 5)%nat -> subjects m = JList l).
Proof.
  intros Hrun Hin.
  destruct (curated_list _ _ _ Hrun) as (data & docs & outs & _ & _ & F & ->).
  apply (Permutation_in _ (Permutation_sym (sort_desc_perm _ _))) in Hin.
  destruct (appended_In _ _ _ _ F Hin) as (d & _ & Hm).
  destruct (curated_movie_fields _ _ Hm)
    as (Hflag & subject & ? & ? & ? & ? & Hs & _ & _ & _ & _ & _ & _ & _ & _ & Hslice).
  unfold flagged in Hflag. rewrite Hs in Hflag. cbn [rbind] in Hflag.
  assert (Hl : exists l tags,
             coerce_subjects subject = JList l /\ as_strings l = Ok tags
             /\ (subject = JList l \/ exists s, subject = JStr s /\ l = [JStr s])).
  { unfold has_adult_keyword, join_space in Hflag.
    destruct subject as [ | | | |s|l|kv]; try discriminate.
    - exists [JStr s], [s]. repeat split; eauto.
    - cbn [coerce_subjects iterate rbind] in Hflag.
      destruct (as_strings l) as [tags|] eqn:E; [|discriminate].
      exists l, tags. auto. }
  destruct Hl as (l & tags & Hc & Htags & Hsub).
  rewrite Hc in Hslice.
  change (Ok (JList (firstn 5 l)) = Ok (subjects m)) in Hslice.
  assert (Hsl : subjects m = JList (firstn 5 l)) by congruence.
  exists d, l, tags. split; [exact Hm|]. split.
  { destruct Hsub as [-> | (s & -> & ->)]; [now left | right; eauto]. }
  split; [exact Htags|]. split; [exact Hsl|]. split.
  - apply firstn_le_length.
  - intros L. rewrite Hsl. f_equal. now apply firstn_all2.
Qed.

Lemma subjects_capped_witness :
  snd (curate_quality_movies (W := Sample.archive_world) None None)
  = Ok (FR_movies Sample.curated)
  /\ forall m, Sample.best = Some m ->
      In m Sample.curated /\ subjects m = JList [JStr "Cartoons"].
Proof.
  assert (Hrun : snd (curate_quality_movies (W := Sample.archive_world) None None)
                 = Ok (FR_movies Sample.curated)) by (vm_compute; reflexivity).
  split; [exact Hrun|]. intros m Hm.
  assert (Hin : In m Sample.curated).
  { unfold Sample.best in Hm. destruct Sample.curated; [discriminate|].
    injection Hm as ->. now left. }
  split; [exact Hin|].
  destruct (subjects_capped (W := Sample.archive_world) None None _ m Hrun Hin)
    as (_ & l & _ & _ & _ & _ & _ & _ & _).
  vm_compute in Hm. injection Hm as <-. reflexivity.
Defined.

(** ** The files of an item *)

Lemma file_result_dict {W : World} identifier kv :
  exists entry,
    file_result identifier (JDict kv) = Ok (Some entry)
    /\ get (JDict kv) "name" JNull = Ok (file_name entry)
    /\ get (JDict kv) "format" JNull = Ok (file_format entry)
    /\ file_url entry
       = "https://archive.org/download/" ++ format identifier ++ "/"
         ++ format (file_name entry).
Proof. eexists. repeat split. Qed.

(** X8: the item lookup lists at most ten files, the first ten of the
    answer in their order, each with its name, its format and the download
    address made of the identifier and the name. What follows the tenth
    file is not looked at. *)
Theorem item_files_capped {W : World} identifier data meta files :
  answered (get_item_details identifier) data ->
  get data "metadata" (JDict []) = Ok (JDict meta) ->
  get data "files" (JList []) = Ok (JList files) ->
  forallb is_dict (firstn 10 files) = true ->
  exists details,
    snd (get_item_details identifier) = Ok (FR_details details)
    /\ List.length (details_files details) = Nat.min 10 (List.length files)
    /\ Forall2 (fun f entry =>
                  get f "name" JNull = Ok (file_name entry)
                  /\ get f "format" JNull = Ok (file_format entry)
                  /\ file_url entry
                     = "https://archive.org/download/" ++ format identifier
                       ++ "/" ++ format (file_name entry))
               (firstn 10 files) (details_files details).
Proof.
  intros Hans Hmeta Hfiles Hdicts.
  rewrite (get_item_details_answered _ _ Hans), Hmeta, Hfiles.
  cbn [rbind get slice_to iterate].
  destruct (collect_every (file_result identifier) (firstn 10 files))
    as (entries & Hc & F).
  { intros f Hin. rewrite forallb_forall in Hdicts. specialize (Hdicts f Hin).
    destruct f; try discriminate.
    destruct (file_result_dict identifier kv) as (entry & H & _). eauto. }
  rewrite Hc. cbn [rbind in_band]. eexists. split; [reflexivity|].
  cbn [details_files]. split.
  - rewrite <- (Forall2_length F). apply length_firstn.
  - eapply Forall2_impl; [|exact F]. cbv beta. intros f entry Hf.
    rewrite forallb_forall in Hdicts.
    destruct f as [ | | | | | |kv]; try discriminate.
    destruct (file_result_dict identifier kv) as (entry' & H & Hn & Hfmt & Hurl).
    assert (entry' = entry) by congruence. subst entry'. auto.
Qed.

Lemma item_files_capped_witness :
  answered (W := Sample.details_world)
    (get_item_details (W := Sample.details_world) (JStr "popeye"))
    Sample.details_response
  /\ exists details,
      snd (get_item_details (W := Sample.details_world) (JStr "popeye"))
      = Ok (FR_details details)
      /\ List.length (details_files details) = 10%nat.
Proof.
  assert (Hans : answered (W := Sample.details_world)
                   (get_item_details (W := Sample.details_world) (JStr "popeye"))
                   Sample.details_response)
    by (do 2 eexists; split; reflexivity).
  split; [exact Hans|].
  destruct (item_files_capped (W := Sample.details_world) (JStr "popeye")
              _ _ _ Hans eq_refl eq_refl eq_refl) as (details & Hres & Hlen & _).
  exists details. split; [exact Hres | exact Hlen].
Defined.

(** ** The video search keeps every item *)

Lemma video_result_some {W : World} item o :
  video_result item = Ok o ->
  exists v, o = Some v
            /\ video_identifier v = video_id v
            /\ video_watch_url v
               = "https://www.youtube.com/watch?v=" ++ format (video_id v)
            /\ video_embed_url v
               = "https://www.youtube.com/embed/" ++ format (video_id v)
            /\ video_platform v = "YouTube".
Proof.
  unfold video_result.
  repeat match goal with
         | |- (_ <- ?m ;; _) = Ok _ -> _ => destruct m; cbn [rbind]; [|discriminate]
         end.
  intros [= <-]. eexists. repeat split.
Qed.

(** X9: the video search drops nothing. A list it returns has one video
    for every item of the answer, in the order of the answer, and the
    identifier of each video is its video id, from which the watch and
    embed addresses are made; no keyword is looked for. *)
Theorem videos_one_per_item {W : World} query max_results videos :
  snd (search_youtube query max_results) = Ok (FR_videos videos) ->
  exists data items_value items,
    answered (search_youtube query max_results) data
    /\ contains "error" data = Ok false
    /\ get data "items" (JList []) = Ok items_value
    /\ iterate items_value = Ok items
    /\ Forall2 (fun item v => video_result item = Ok (Some v)) items videos
    /\ List.length videos = List.length items
    /\ forall v, In v videos ->
         video_identifier v = video_id v
         /\ video_watch_url v
            = "https://www.youtube.com/watch?v=" ++ format (video_id v)
         /\ video_embed_url v
            = "https://www.youtube.com/embed/" ++ format (video_id v).
Proof.
  destruct (search_youtube_run query max_results) as (url & params & E).
  rewrite E. cbn [fst snd]. intros H.
  destruct (http_get url params) as [data|] eqn:Hget; [|discriminate].
  cbn [rbind] in H.
  destruct (contains "error" data) as [[|]|] eqn:Herr; try discriminate.
  { cbn [rbind] in H. destruct (getitem data "error"); [|discriminate].
    cbn [rbind] in H. destruct (getitem _ "message"); discriminate. }
  cbn [rbind] in H.
  destruct (get data "items" _) as [items_value|] eqn:Hitems; [|discriminate].
  cbn [rbind] in H.
  destruct (iterate items_value) as [items|] eqn:Hiter; [|discriminate].
  cbn [rbind] in H.
  destruct (collect video_result items) as [vs|] eqn:Hc; [|discriminate].
  cbn [rbind in_band] in H. injection H as <-.
  destruct (collect_outs _ _ _ Hc) as (outs & F & ->).
  assert (F' : Forall2 (fun item v => video_result item = Ok (Some v))
                 items (appended outs)).
  { apply appended_every; [|exact F].
    intros x o Ho. destruct (video_result_some _ _ Ho) as (v & -> & _).
    discriminate. }
  exists data, items_value, items.
  split; [exists url, params; auto|].
  repeat (split; [assumption|]).
  split; [symmetry; exact (Forall2_length F')|].
  intros v Hin.
  destruct (Forall2_In_right _ _ _ _ F' Hin) as (item & _ & Hv).
  destruct (video_result_some _ _ Hv) as (v' & Hv' & Hid & Hw & He & _).
  injection Hv' as <-. auto.
Qed.

Lemma videos_one_per_item_witness :
  snd (search_youtube (W := Sample.videos_world) (JStr "zorro") None)
  = Ok (FR_videos Sample.videos)
  /\ map video_title Sample.videos = [JStr "Adult swim"; JStr "Zorro"]
  /\ exists items : list value, List.length Sample.videos = List.length items.
Proof.
  assert (Hrun : snd (search_youtube (W := Sample.videos_world) (JStr "zorro") None)
                 = Ok (FR_videos Sample.videos)) by (vm_compute; reflexivity).
  split; [exact Hrun|]. split; [reflexivity|].
  destruct (videos_one_per_item (W := Sample.videos_world) _ _ _ Hrun)
    as (_ & _ & items & _ & _ & _ & _ & _ & Hlen & _).
  exists items. exact Hlen.
Defined.

(** ** Requests the chat endpoint rejects *)

(** X10: a chat request whose message is missing or empty (or null, zero,
    an empty list) is answered with 400 "Missing message" before the model
    or any provider is called. *)
Theorem empty_message_rejected {W : World} post_data kv :
  json_loads post_data = Ok (JDict kv) ->
  truthy (match lookup "message" kv with
          | Some v => v
          | None => JStr EmptyString
          end) = false ->
  handle_chat post_data = ([], Ok (ReplyError 400 "Missing message")).
Proof.
  intros Hdata Hmsg. unfold handle_chat.
  rewrite try_except_mret, mbind_lift, Hdata. cbn [get].
  rewrite !mbind_lift, Hmsg. reflexivity.
Qed.

Lemma empty_message_rejected_witness :
  json_loads (World := Sample.archive_world) Sample.no_arguments = Ok (JDict [])
  /\ handle_chat (W := Sample.archive_world) Sample.no_arguments
     = ([], Ok (ReplyError 400 "Missing message")).
Proof.
  split; [reflexivity|].
  exact (empty_message_rejected (W := Sample.archive_world)
           Sample.no_arguments [] eq_refl eq_refl).
Defined.

(** X11: a chat request that cannot be read is answered with 500 and the
    text of the exception, before the model or any provider is called: a
    body that is no JSON, a body that is no object, and a history that is
    neither empty nor something to iterate over. *)
Theorem malformed_body_rejected {W : World} post_data :
  (forall e,
      json_loads post_data = Raise e ->
      handle_chat post_data = ([], Ok (server_error e)))
  /\ (forall data,
         json_loads post_data = Ok data -> is_dict data = false ->
         exists e, exn_cls e = AttributeError
                   /\ handle_chat post_data = ([], Ok (server_error e)))
  /\ (forall kv message history e,
         json_loads post_data = Ok (JDict kv) ->
         lookup "message" kv = Some message -> truthy message = true ->
         lookup "history" kv = Some history -> truthy history = true ->
         iterate history = Raise e ->
         handle_chat post_data = ([], Ok (server_error e))).
Proof.
  split; [|split].
  - intros e H. unfold handle_chat.
    now rewrite try_except_mret, mbind_lift, H.
  - intros data H Hd. unfold handle_chat.
    rewrite try_except_mret, mbind_lift, H, mbind_lift.
    destruct data; try discriminate; eexists; (split; [|reflexivity]); reflexivity.
  - intros kv message history e H Hm Ht Hh Hth Hi. unfold handle_chat.
    rewrite try_except_mret, mbind_lift, H. cbn [get].
    rewrite !mbind_lift, Hm, Hh, Ht. cbn [negb].
    rewrite ?mbind_lift, Hth, Hi. reflexivity.
Qed.

Lemma malformed_body_rejected_witness :
  json_loads (World := Sample.archive_world) "not json"
  = Raise (Exn JSONDecodeError "Expecting value")
  /\ handle_chat (W := Sample.archive_world) "not json"
     = ([], Ok (ReplyError 500 "Server error: Expecting value")).
Proof.
  split; [reflexivity|].
  exact (proj1 (malformed_body_rejected (W := Sample.archive_world) "not json")
           _ eq_refl).
Defined.

(** ** What the chat endpoint sends and receives *)

Section ChatReplies.
Context {W : World}.

Lemma dispatch_log name args :
  fst (dispatch name args) = []
  \/ exists url params, fst (dispatch name args) = [EvGet url params].
Proof.
  unfold dispatch.
  destruct (String.eqb name "search_archive").
  { rewrite mbind_lift. destruct (getitem args "query") as [query|]; [|now left].
    destruct (search_archive_run query) as (url & params & ->). right. do 2 eexists. reflexivity. }
  destruct (String.eqb name "get_item_details").
  { rewrite mbind_lift.
    destruct (getitem args "identifier") as [identifier|]; [|now left].
    destruct (get_item_details_run identifier) as (url & params & k & -> & _).
    right. do 2 eexists. reflexivity. }
  destruct (String.eqb name "curate_quality_movies").
  { rewrite mbind_lift.
    destruct (get args "min_views" _) as [min_views|]; [|now left].
    rewrite mbind_lift. destruct (get args "limit" _) as [limit|]; [|now left].
    destruct (curate_quality_movies_run (Some min_views) (Some limit))
      as (url & params & ->). right. do 2 eexists. reflexivity. }
  destruct (String.eqb name "search_youtube").
  { rewrite mbind_lift. destruct (getitem args "query") as [query|]; [|now left].
    rewrite mbind_lift.
    destruct (get args "max_results" _) as [max_results|]; [|now left].
    destruct (search_youtube_run query (Some max_results)) as (url & params & ->).
    right. do 2 eexists. reflexivity. }
  now left.
Qed.
End ChatReplies.

(** X13: the text of the message is never sent to the model. Two requests
    with the same history and any two messages that are not empty make the
    same calls and get the same reply: what the model sees of the user is
    the history alone. *)
Theorem message_text_unused {W : World} post_data post_data' kv kv' :
  json_loads post_data = Ok (JDict kv) ->
  json_loads post_data' = Ok (JDict kv') ->
  lookup "history" kv = lookup "history" kv' ->
  truthy (match lookup "message" kv with
          | Some v => v
          | None => JStr EmptyString
          end) = true ->
  truthy (match lookup "message" kv' with
          | Some v => v
          | None => JStr EmptyString
          end) = true ->
  handle_chat post_data = handle_chat post_data'.
Proof.
  intros H H' Hh Hm Hm'. unfold handle_chat.
  rewrite !try_except_mret, !mbind_lift, H, H'. cbn [get].
  rewrite !mbind_lift, Hm, Hm', Hh. reflexivity.
Qed.

Lemma message_text_unused_witness :
  handle_chat (W := Sample.reader_world [] (Raise Sample.timeout)) Sample.body
  = handle_chat (W := Sample.reader_world [] (Raise Sample.timeout))
      Sample.other_body.
Proof.
  exact (message_text_unused (W := Sample.reader_world [] (Raise Sample.timeout))
           Sample.body Sample.other_body _ _ eq_refl eq_refl eq_refl eq_refl
           eq_refl).
Defined.

(** ** Tool invocations that cannot be run *)

(** X14: when the arguments of the first tool invocation are no JSON, the
    request ends with 500 and the text of the decoding error, after the one
    model call and without any request to a provider or second model
    call. *)
Theorem undecodable_arguments_fail {W : World}
    post_data messages assistant_message tool_call rest e :
  first_reply post_data messages assistant_message ->
  tool_calls assistant_message = Some (tool_call :: rest) ->
  json_loads (function_arguments tool_call) = Raise e ->
  handle_chat post_data = ([EvChat messages true], Ok (server_error e)).
Proof.
  intros Hreply Hcalls Hargs.
  rewrite (handle_chat_reply _ _ _ Hreply), Hcalls.
  unfold run_tool_call. rewrite mbind_lift, Hargs. reflexivity.
Qed.

Lemma undecodable_arguments_fail_witness :
  let W := Sample.reader_world
             [Sample.call "search_archive" Sample.broken_arguments]
             (Ok (Sample.archive_response Sample.docs)) in
  first_reply (W := W) Sample.body Sample.first_messages
    (Sample.asks [Sample.call "search_archive" Sample.broken_arguments])
  /\ handle_chat (W := W) Sample.body
     = ([EvChat Sample.first_messages true],
        Ok (ReplyError 500 "Server error: Expecting value")).
Proof.
  intros W.
  assert (Hreply : first_reply (W := W) Sample.body Sample.first_messages
            (Sample.asks [Sample.call "search_archive" Sample.broken_arguments])).
  { do 4 eexists. repeat split; reflexivity. }
  split; [exact Hreply|].
  exact (undecodable_arguments_fail (W := W) _ _ _ _ _ _ Hreply eq_refl eq_refl).
Defined.

(** X15: a tool invocation without its required argument is no tool error
    but a server error: for [search_archive] and [search_youtube] without
    [query] and for [get_item_details] without [identifier] the request ends
    with 500 and the name of the key, no provider is asked and the model is
    not called again. *)
Theorem missing_argument_fails {W : World}
    post_data messages assistant_message tool_call rest kv :
  first_reply post_data messages assistant_message ->
  tool_calls assistant_message = Some (tool_call :: rest) ->
  json_loads (function_arguments tool_call) = Ok (JDict kv) ->
  ((function_name tool_call = "search_archive"
    \/ function_name tool_call = "search_youtube") ->
   lookup "query" kv = None ->
   handle_chat post_data
   = ([EvChat messages true], Ok (server_error (Exn KeyError "'query'"))))
  /\ (function_name tool_call = "get_item_details" ->
      lookup "identifier" kv = None ->
      handle_chat post_data
      = ([EvChat messages true], Ok (server_error (Exn KeyError "'identifier'")))).
Proof.
  intros Hreply Hcalls Hargs.
  rewrite (handle_chat_reply _ _ _ Hreply), Hcalls.
  unfold run_tool_call. rewrite mbind_lift, Hargs. split.
  - intros [-> | ->] Hq; unfold dispatch; cbn [String.eqb Ascii.eqb Bool.eqb];
      rewrite !mbind_lift; cbn [getitem]; rewrite Hq; reflexivity.
  - intros -> Hi. unfold dispatch. cbn [String.eqb Ascii.eqb Bool.eqb].
    rewrite !mbind_lift. cbn [getitem]. rewrite Hi. reflexivity.
Qed.

Lemma missing_argument_fails_witness :
  let W := Sample.reader_world
             [Sample.call "search_archive" Sample.no_arguments]
             (Ok (Sample.archive_response Sample.docs)) in
  first_reply (W := W) Sample.body Sample.first_messages
    (Sample.asks [Sample.call "search_archive" Sample.no_arguments])
  /\ handle_chat (W := W) Sample.body
     = ([EvChat Sample.first_messages true],
        Ok (ReplyError 500 "Server error: 'query'")).
Proof.
  intros W.
  assert (Hreply : first_reply (W := W) Sample.body Sample.first_messages
            (Sample.asks [Sample.call "search_archive" Sample.no_arguments])).
  { do 4 eexists. repeat split; reflexivity. }
  split; [exact Hreply|].
  exact (proj1 (missing_argument_fails (W := W) _ _ _ _ _ [] Hreply eq_refl eq_refl)
           (or_introl eq_refl) eq_refl).
Defined.

(** ** The calls of a chat request *)

Lemma run_tool_call_log {W : World} messages assistant_message tool_call :
  exists tool_log,
    (tool_log = [] \/ exists url params, tool_log = [EvGet url params])
    /\ (fst (run_tool_call messages assistant_message tool_call) = tool_log
        \/ exists call result,
            fst (run_tool_call messages assistant_message tool_call)
            = (tool_log ++ [EvChat (messages ++ [call; result]) false])%list).
Proof.
  destruct (json_loads (function_arguments tool_call)) as [args|e] eqn:Hargs.
  - rewrite (run_tool_call_dispatched _ _ _ _ Hargs). cbv zeta.
    exists (fst (dispatch (function_name tool_call) args)).
    split; [apply dispatch_log|].
    destruct (snd (dispatch _ args)); cbn [fst]; [|now left].
    right. unfold with_tool_result. eauto.
  - exists []. split; [now left|]. left.
    unfold run_tool_call. now rewrite mbind_lift, Hargs.
Qed.

(** X16: the calls of a chat request, in order: nothing at all, or one
    model call with the tools on offer, then at most one request to a
    provider, then at most one more model call, without tools, whose
    messages are those of the first call and two more (the invocation and
    its result). *)
Theorem chat_log_shape {W : World} post_data :
  fst (handle_chat post_data) = []
  \/ exists messages tool_log,
      (tool_log = [] \/ exists url params, tool_log = [EvGet url params])
      /\ (fst (handle_chat post_data) = EvChat messages true :: tool_log
          \/ exists call result,
              fst (handle_chat post_data)
              = EvChat messages true
                  :: (tool_log ++ [EvChat (messages ++ [call; result]) false])%list).
Proof.
  unfold handle_chat. rewrite try_except_mret. cbn [fst].
  rewrite mbind_lift. destruct (json_loads post_data); [|now left].
  rewrite mbind_lift. destruct (get _ "message" _); [|now left].
  rewrite mbind_lift. destruct (get _ "history" _); [|now left].
  destruct (negb _); [now left|].
  rewrite mbind_lift.
  destruct (if truthy _ then _ else _) as [messages|]; [|now left].
  right. exists messages.
  unfold completions_create. rewrite mbind_logged.
  destruct (chat_create messages true) as [response|];
    [|exists []; split; [now left | now left]].
  rewrite mbind_lift. cbn [fst].
  destruct (first_message response) as [assistant_message|];
    [|exists []; split; [now left | now left]].
  destruct (tool_calls assistant_message) as [[|tool_call rest]|];
    try (exists []; split; [now left | now left]).
  destruct (run_tool_call_log messages assistant_message tool_call)
    as (tool_log & Hshape & [-> | (call & result & ->)]).
  - exists tool_log. split; [exact Hshape | now left].
  - exists tool_log. split; [exact Hshape|]. right. exists call, result.
    reflexivity.
Qed.

(** X17: a failure of the provider is told to the model, not to the
    caller. When the archive search that the model asked for fails with
    [e], the handler still makes the second model call, with the error dict
    of [str(e)], serialized, as the result of the tool, and answers 200
    with the reply of the model and null data; only if that second call
    fails is the answer 500. *)
Theorem provider_failure_reaches_model {W : World}
    post_data messages assistant_message tool_call rest args query e :
  first_reply post_data messages assistant_message ->
  tool_calls assistant_message = Some (tool_call :: rest) ->
  function_name tool_call = "search_archive" ->
  json_loads (function_arguments tool_call) = Ok args ->
  getitem args "query" = Ok query ->
  failed (search_archive query) e ->
  let messages' :=
    with_tool_result messages assistant_message tool_call
      (FR_error (JStr (exn_str e))) in
  (exists url params,
      fst (handle_chat post_data)
      = [EvChat messages true; EvGet url params; EvChat messages' false])
  /\ snd (handle_chat post_data)
     = Ok match (final_response <- chat_create messages' false ;;
                 first_message final_response) with
          | Ok final_message => Reply200 (content final_message) None
          | Raise e' => server_error e'
          end.
Proof.
  intros Hreply Hcalls Hname Hargs Hquery Hfailed messages'.
  rewrite (handle_chat_reply _ _ _ Hreply), Hcalls.
  rewrite (run_tool_call_dispatched _ _ _ _ Hargs), Hname.
  unfold dispatch. cbn [String.eqb Ascii.eqb Bool.eqb].
  rewrite mbind_lift, Hquery.
  destruct (search_archive_run query) as (url & params & E).
  destruct (guarded_outcome _ _ _ _ E) as (_ & Hfail & _).
  specialize (Hfail e Hfailed).
  destruct (search_archive query) as [log outcome].
  cbn [fst snd] in *. injection E as -> _. subst outcome.
  cbn [is_list app]. fold messages'. split.
  - exists url, params. reflexivity.
  - destruct (chat_create messages' false) as [final|]; [|reflexivity].
    cbn [rbind]. now destruct (first_message final).
Qed.

Lemma provider_failure_reaches_model_witness :
  let first := Sample.call "search_archive" Sample.query_only in
  let W := Sample.reader_world [first] (Raise Sample.timeout) in
  first_reply (W := W) Sample.body Sample.first_messages (Sample.asks [first])
  /\ failed (W := W) (search_archive (W := W) (JStr "zorro")) Sample.timeout
  /\ snd (handle_chat (W := W) Sample.body)
     = Ok (Reply200 (Some "Found some films with that warm feeling.") None).
Proof.
  intros first W.
  assert (Hreply : first_reply (W := W) Sample.body Sample.first_messages
                     (Sample.asks [first])).
  { do 4 eexists. repeat split; reflexivity. }
  assert (Hfailed : failed (W := W) (search_archive (W := W) (JStr "zorro"))
                      Sample.timeout)
    by (do 2 eexists; split; reflexivity).
  split; [exact Hreply|]. split; [exact Hfailed|].
  exact (proj2 (provider_failure_reaches_model (W := W) _ _ _ _ _
                  (JDict [("query", JStr "zorro")]) _ _
                  Hreply eq_refl eq_refl eq_refl eq_refl Hfailed)).
Defined.

(** ** The GET endpoints *)

Section EndpointFacts.
Context {W : World} {U : Urllib}.

Lemma handle_search_run parsed_path q :
  first_value (parse_qs (query parsed_path)) "q" = Ok q ->
  handle_search parsed_path
  = if is_empty q then ([], Ok (GetError 400 "Missing query parameter"))
    else (fst (search_archive (JStr q)),
          Ok match snd (search_archive (JStr q)) with
             | Ok results => Json200 results
             | Raise e => get_error e
             end).
Proof.
  intros Hq. unfold handle_search. cbv zeta. rewrite Hq, mbind_lift.
  destruct (is_empty q); [reflexivity|].
  rewrite try_except_mret.
  destruct (search_archive (JStr q)) as [log [results|e]]; simpl;
    now rewrite ?app_nil_r.
Qed.

Lemma handle_item_run parsed_path identifier :
  first_value (parse_qs (query parsed_path)) "id" = Ok identifier ->
  handle_item parsed_path
  = if is_empty identifier
    then ([], Ok (GetError 400 "Missing identifier parameter"))
    else (fst (get_item_details (JStr identifier)),
          Ok match snd (get_item_details (JStr identifier)) with
             | Ok result => Json200 result
             | Raise e => get_error e
             end).
Proof.
  intros Hid. unfold handle_item. cbv zeta. rewrite Hid, mbind_lift.
  destruct (is_empty identifier); [reflexivity|].
  rewrite try_except_mret.
  destruct (get_item_details (JStr identifier)) as [log [result|e]]; simpl;
    now rewrite ?app_nil_r.
Qed.

Lemma do_GET_search self_path :
  path (urlparse self_path) = "/api/search" ->
  do_GET self_path = handle_search (urlparse self_path).
Proof. intros H. unfold do_GET. cbv zeta. now rewrite H. Qed.

Lemma do_GET_item self_path :
  path (urlparse self_path) = "/api/item" ->
  do_GET self_path = handle_item (urlparse self_path).
Proof. intros H. unfold do_GET. cbv zeta. now rewrite H. Qed.

(** X18: the search endpoint. Without a [q] parameter, or with an empty
    one, the answer is 400 and no request is made. With a query the handler
    makes the one request of [search_archive] and answers 200 with what the
    chat tool would have returned for that query; when the provider fails
    that is the error dict of the failure, still with status 200: this
    endpoint never answers 500 for a failed search. *)
Theorem search_endpoint self_path q :
  path (urlparse self_path) = "/api/search" ->
  first_value (parse_qs (query (urlparse self_path))) "q" = Ok q ->
  if is_empty q
  then do_GET self_path = ([], Ok (GetError 400 "Missing query parameter"))
  else exists url params results,
      do_GET self_path = ([EvGet url params], Ok (Json200 results))
      /\ snd (search_archive (JStr q)) = Ok results
      /\ forall e, http_get url params = Raise e ->
                   results = FR_error (JStr (exn_str e)).
Proof.
  intros Hpath Hq. rewrite (do_GET_search _ Hpath), (handle_search_run _ _ Hq).
  destruct (is_empty q); [reflexivity|].
  destruct (search_archive_run (JStr q)) as (url & params & ->).
  cbn [fst snd]. do 3 eexists. split; [reflexivity|]. split; [reflexivity|].
  intros e ->. reflexivity.
Qed.

(** X19: the item endpoint. Without an [id] parameter, or with an empty
    one, the answer is 400 and no request is made. With an identifier the
    handler makes the one request of [get_item_details] and answers 200
    with its result; a failure of the provider is answered with status 200
    and the error dict, not with 500. *)
Theorem item_endpoint self_path identifier :
  path (urlparse self_path) = "/api/item" ->
  first_value (parse_qs (query (urlparse self_path))) "id" = Ok identifier ->
  if is_empty identifier
  then do_GET self_path = ([], Ok (GetError 400 "Missing identifier parameter"))
  else exists url params result,
      do_GET self_path = ([EvGet url params], Ok (Json200 result))
      /\ snd (get_item_details (JStr identifier)) = Ok result
      /\ forall e, http_get url params = Raise e ->
                   result = FR_error (JStr (exn_str e)).
Proof.
  intros Hpath Hid. rewrite (do_GET_item _ Hpath), (handle_item_run _ _ Hid).
  destruct (is_empty identifier); [reflexivity|].
  destruct (get_item_details_run (JStr identifier)) as (url & params & k & -> & _).
  cbn [fst snd]. do 3 eexists. split; [reflexivity|]. split; [reflexivity|].
  intros e ->. reflexivity.
Qed.

(** X20: a GET request never reaches the model, and makes at most one
    request to a provider, whatever the path and the parameters. *)
Theorem get_never_calls_model self_path :
  chats (fst (do_GET self_path)) = 0%nat
  /\ (gets (fst (do_GET self_path)) <= 1)%nat.
Proof.
  unfold do_GET. cbv zeta.
  destruct (String.eqb (path _) "/api/search").
  { destruct (first_value (parse_qs (query (urlparse self_path))) "q")
      as [q|e] eqn:Hq.
    - rewrite (handle_search_run _ _ Hq).
      destruct (is_empty q); [split; [reflexivity | unfold gets; simpl; lia]|].
      destruct (search_archive_run (JStr q)) as (url & params & ->).
      split; [reflexivity | unfold gets; simpl; lia].
    - unfold handle_search. cbv zeta. rewrite Hq, mbind_lift.
      split; [reflexivity | unfold gets; simpl; lia]. }
  destruct (String.eqb (path _) "/api/item").
  { destruct (first_value (parse_qs (query (urlparse self_path))) "id")
      as [identifier|e] eqn:Hid.
    - rewrite (handle_item_run _ _ Hid).
      destruct (is_empty identifier);
        [split; [reflexivity | unfold gets; simpl; lia]|].
      destruct (get_item_details_run (JStr identifier))
        as (url & params & k & -> & _).
      split; [reflexivity | unfold gets; simpl; lia].
    - unfold handle_item. cbv zeta. rewrite Hid, mbind_lift.
      split; [reflexivity | unfold gets; simpl; lia]. }
  split; [reflexivity | unfold gets; simpl; lia].
Qed.
End EndpointFacts.

Lemma search_endpoint_witness :
  do_GET (W := Sample.timeout_world) (U := Sample.urllib)
    Sample.bare_search_request
  = ([], Ok (GetError 400 "Missing query parameter"))
  /\ snd (do_GET (W := Sample.timeout_world) (U := Sample.urllib)
            Sample.search_request)
     = Ok (Json200 (FR_error (JStr "Connection timed out")))
  /\ snd (do_GET (W := Sample.archive_world) (U := Sample.urllib)
            Sample.search_request)
     = Ok (Json200 (FR_archive Sample.found)).
Proof.
  split; [|split].
  - exact (search_endpoint (W := Sample.timeout_world) (U := Sample.urllib)
             Sample.bare_search_request EmptyString eq_refl eq_refl).
  - destruct (search_endpoint (W := Sample.timeout_world) (U := Sample.urllib)
                Sample.search_request "zorro" eq_refl eq_refl)
      as (url & params & results & -> & _ & Hfail).
    cbn [snd]. now rewrite (Hfail Sample.timeout eq_refl).
  - destruct (search_endpoint (W := Sample.archive_world) (U := Sample.urllib)
                Sample.search_request "zorro" eq_refl eq_refl)
      as (url & params & results & -> & Hrun & _).
    cbn [snd]. apply f_equal, f_equal.
    assert (H : Ok results = Ok (FR_archive Sample.found))
      by (rewrite <- Hrun; vm_compute; reflexivity).
    congruence.
Defined.

Lemma item_endpoint_witness :
  do_GET (W := Sample.details_world) (U := Sample.urllib)
    Sample.bare_item_request
  = ([], Ok (GetError 400 "Missing identifier parameter"))
  /\ snd (do_GET (W := Sample.timeout_world) (U := Sample.urllib)
            Sample.item_request)
     = Ok (Json200 (FR_error (JStr "Connection timed out"))).
Proof.
  split.
  - exact (item_endpoint (W := Sample.details_world) (U := Sample.urllib)
             Sample.bare_item_request EmptyString eq_refl eq_refl).
  - destruct (item_endpoint (W := Sample.timeout_world) (U := Sample.urllib)
                Sample.item_request "zorro1920" eq_refl eq_refl)
      as (url & params & result & -> & _ & Hfail).
    cbn [snd]. now rewrite (Hfail Sample.timeout eq_refl).
Defined.
